(** * vivatech-analyzer: the harvest / cache / score pipeline

    A shallow embedding of [vivatech_analyzer.py]: [CacheManager],
    [ClaudeAnalyzer], [AsyncWebScraper] and the scoring loop of
    [VivaTechAnalyzerV2.analyze_startups_async], followed by the properties
    of the pipeline that the specification states. The cleaning of
    [load_data] and the sort, the counters and the extremes of the reports
    are embedded as well, with further properties of the code at the end.

    Conventions of the embedding.
    - A Python [str] is a [string] whose characters are the code points
      below 256 (Latin-1); on these [str.lower], [str.isspace] and the
      UTF-8 encoding are modelled exactly.
    - A Python number is a rational, or one of the three special floats
      that [json.loads] accepts ([NaN], [Infinity], [-Infinity]).
      Comparisons are exact, as Python's are. Additions are exact too:
      they are Python's on [int], and on [float] when the sum is
      representable, as it is for the multiples of 0.5 up to 100 of the
      keyword scorer and for whole numbers up to 100. The rounding of
      other sums of floats, and the [OverflowError] of an [int] beyond the
      range of floats that meets a float, are not modelled: properties of
      totals are stated on whole numbers.
    - [datetime.now()] is an explicit argument: an instant counted in
      microseconds (the resolution of [datetime]); [isoformat] followed by
      [fromisoformat] is the identity on such instants.
    - The [diskcache.Cache] behind the [CacheManager] is a finite map from
      keys to stored values.
    - The network, the remote scoring service and the asyncio scheduler are
      the environment: their answers are arguments of the functions.
    - [pandas.read_csv] is the environment of [load_data]: the frame that
      it returns, or the fact that it raised, is an argument; the cells of
      the two required columns are text or empty.
    - What the program prints, the progress bar and the prompt sent to
      the remote service are left out. Of the cap on simultaneous requests
      the model keeps the semaphore that is built from it, which decides
      whether the batch returns; how the cap spreads the requests over
      time belongs to the scheduler. *)

From Stdlib Require Import ZArith QArith Qminmax Lia Lqa List Sorted Ascii String.
From stdpp Require Import gmap strings list fin_maps pretty.
Import ListNotations.

Set Warnings "-register-all".

Local Open Scope Z_scope.

(* ===================================================================== *)
(** ** [hashlib.md5]: RFC 1321 on lists of byte values *)
(* ===================================================================== *)

Module MD5.

Definition w32 : Z := 2 ^ 32.

Definition add32 (x y : Z) : Z := (x + y) mod w32.

Definition not32 (x : Z) : Z := Z.lxor x (w32 - 1).

Definition rotl32 (x n : Z) : Z :=
  Z.lor ((Z.shiftl x n) mod w32) (Z.shiftr x (32 - n)).

(** Per-round shift amounts. *)
Definition S_table : list Z :=
  [ 7; 12; 17; 22;  7; 12; 17; 22;  7; 12; 17; 22;  7; 12; 17; 22;
    5;  9; 14; 20;  5;  9; 14; 20;  5;  9; 14; 20;  5;  9; 14; 20;
    4; 11; 16; 23;  4; 11; 16; 23;  4; 11; 16; 23;  4; 11; 16; 23;
    6; 10; 15; 21;  6; 10; 15; 21;  6; 10; 15; 21;  6; 10; 15; 21 ].

(** [K_table !! i = floor (2^32 * |sin (i + 1)|)]. *)
Definition K_table : list Z :=
  [ 0xd76aa478; 0xe8c7b756; 0x242070db; 0xc1bdceee;
    0xf57c0faf; 0x4787c62a; 0xa8304613; 0xfd469501;
    0x698098d8; 0x8b44f7af; 0xffff5bb1; 0x895cd7be;
    0x6b901122; 0xfd987193; 0xa679438e; 0x49b40821;
    0xf61e2562; 0xc040b340; 0x265e5a51; 0xe9b6c7aa;
    0xd62f105d; 0x02441453; 0xd8a1e681; 0xe7d3fbc8;
    0x21e1cde6; 0xc33707d6; 0xf4d50d87; 0x455a14ed;
    0xa9e3e905; 0xfcefa3f8; 0x676f02d9; 0x8d2a4c8a;
    0xfffa3942; 0x8771f681; 0x6d9d6122; 0xfde5380c;
    0xa4beea44; 0x4bdecfa9; 0xf6bb4b60; 0xbebfbc70;
    0x289b7ec6; 0xeaa127fa; 0xd4ef3085; 0x04881d05;
    0xd9d4d039; 0xe6db99e5; 0x1fa27cf8; 0xc4ac5665;
    0xf4292244; 0x432aff97; 0xab9423a7; 0xfc93a039;
    0x655b59c3; 0x8f0ccc92; 0xffeff47d; 0x85845dd1;
    0x6fa87e4f; 0xfe2ce6e0; 0xa3014314; 0x4e0811a1;
    0xf7537e82; 0xbd3af235; 0x2ad7d2bb; 0xeb86d391 ].

(** Little-endian bytes of a word, least significant first. *)
Fixpoint le_bytes (n : nat) (x : Z) : list Z :=
  match n with
  | O => []
  | S n' => (x mod 256) :: le_bytes n' (x / 256)
  end.

Fixpoint le_word (bs : list Z) : Z :=
  match bs with
  | [] => 0
  | b :: bs' => b + 256 * le_word bs'
  end.

(** Padding: a [0x80] byte, zeros up to 56 modulo 64, then the bit length
    of the message on 8 bytes. *)
Definition pad (msg : list Z) : list Z :=
  let len := Z.of_nat (List.length msg) in
  msg ++ [0x80] ++ List.repeat 0 (Z.to_nat ((55 - len) mod 64))
      ++ le_bytes 8 ((8 * len) mod 2 ^ 64).

(** The sixteen words of a 64-byte block. *)
Fixpoint block_words (n : nat) (bs : list Z) : list Z :=
  match n with
  | O => []
  | S n' => le_word (firstn 4 bs) :: block_words n' (skipn 4 bs)
  end.

Fixpoint blocks (n : nat) (bs : list Z) : list (list Z) :=
  match n with
  | O => []
  | S n' => block_words 16 (firstn 64 bs) :: blocks n' (skipn 64 bs)
  end.

Record state := St { rA : Z; rB : Z; rC : Z; rD : Z }.

Definition init : state :=
  St 0x67452301 0xefcdab89 0x98badcfe 0x10325476.

(** One of the 64 operations on block [M]. *)
Definition step (M : list Z) (st : state) (i : nat) : state :=
  let '(St a b c d) := st in
  let zi := Z.of_nat i in
  let '(f, g) :=
    if zi <? 16 then (Z.lor (Z.land b c) (Z.land (not32 b) d), zi)
    else if zi <? 32 then
      (Z.lor (Z.land d b) (Z.land (not32 d) c), (5 * zi + 1) mod 16)
    else if zi <? 48 then (Z.lxor (Z.lxor b c) d, (3 * zi + 5) mod 16)
    else (Z.lxor c (Z.lor b (not32 d)), (7 * zi) mod 16) in
  let f' := add32 (add32 (add32 f a) (nth i K_table 0))
                  (nth (Z.to_nat g) M 0) in
  St d (add32 b (rotl32 f' (nth i S_table 0))) b c.

Definition compress (st : state) (M : list Z) : state :=
  let '(St a b c d) := fold_left (step M) (seq 0 64) st in
  St (add32 (rA st) a) (add32 (rB st) b) (add32 (rC st) c) (add32 (rD st) d).

Definition digest (msg : list Z) : list Z :=
  let p := pad msg in
  let '(St a b c d) :=
    fold_left compress (blocks (List.length p / 64) p) init in
  le_bytes 4 a ++ le_bytes 4 b ++ le_bytes 4 c ++ le_bytes 4 d.

Definition hex_digit (d : Z) : ascii :=
  nth (Z.to_nat d)
      (list_ascii_of_string "0123456789abcdef") "0"%char.

Fixpoint hex (bs : list Z) : string :=
  match bs with
  | [] => ""
  | b :: bs' => String (hex_digit (b / 16)) (String (hex_digit (b mod 16)) (hex bs'))
  end.

(** [str.encode()]: UTF-8, one byte below 128 and two bytes above. *)
Fixpoint encode (s : string) : list Z :=
  match s with
  | EmptyString => []
  | String c s' =>
      let n := Z.of_N (N_of_ascii c) in
      (if n <? 128 then [n]
       else [Z.lor 0xC0 (Z.shiftr n 6); Z.lor 0x80 (Z.land n 0x3F)])
      ++ encode s'
  end.

(** [hashlib.md5(s.encode()).hexdigest()] *)
Definition hexdigest (s : string) : string := hex (digest (encode s)).

End MD5.

(* ===================================================================== *)
(** ** Python strings *)
(* ===================================================================== *)

Module PyStr.

Definition code (c : ascii) : Z := Z.of_N (N_of_ascii c).

(** [str.isspace] on one character (also the class [\s] of [re]). *)
Definition is_space (c : ascii) : bool :=
  let n := code c in
  ((9 <=? n) && (n <=? 13)) || ((28 <=? n) && (n <=? 32))
  || (n =? 133) || (n =? 160).

Definition lower_char (c : ascii) : ascii :=
  let n := code c in
  if ((65 <=? n) && (n <=? 90))
     || ((192 <=? n) && (n <=? 222) && negb (n =? 215))
  then ascii_of_N (Z.to_N (n + 32)) else c.

(** [s.lower()] *)
Fixpoint lower (s : string) : string :=
  match s with
  | EmptyString => EmptyString
  | String c s' => String (lower_char c) (lower s')
  end.

Fixpoint lstrip (s : string) : string :=
  match s with
  | EmptyString => EmptyString
  | String c s' => if is_space c then lstrip s' else s
  end.

Fixpoint rstrip (s : string) : string :=
  match s with
  | EmptyString => EmptyString
  | String c s' =>
      match rstrip s' with
      | EmptyString => if is_space c then EmptyString else String c EmptyString
      | r => String c r
      end
  end.

(** [s.strip()] *)
Definition strip (s : string) : string := rstrip (lstrip s).

(** [s.startswith(p)] *)
Fixpoint startswith (p s : string) : bool :=
  match p, s with
  | EmptyString, _ => true
  | String a p', String b s' => Ascii.eqb a b && startswith p' s'
  | String _ _, EmptyString => false
  end.

(** [s[:n]] *)
Fixpoint take (n : nat) (s : string) : string :=
  match n, s with
  | S n', String c s' => String c (take n' s')
  | _, _ => EmptyString
  end.

(** [sub in s] *)
Fixpoint contains (sub s : string) : bool :=
  startswith sub s ||
  match s with
  | EmptyString => false
  | String _ s' => contains sub s'
  end.

(** The scan of [s.count(sub)] for a non-empty [sub]: occurrences are
    taken from left to right and do not overlap, so after a match the
    next [String.length sub - 1] characters are skipped. *)
Fixpoint count_scan (sub : string) (skip : nat) (s : string) : nat :=
  match s with
  | EmptyString => O
  | String _ s' =>
      match skip with
      | S k => count_scan sub k s'
      | O => if startswith sub s
             then S (count_scan sub (Nat.pred (String.length sub)) s')
             else count_scan sub O s'
      end
  end.

(** [s.count(sub)] *)
Definition count (s sub : string) : nat :=
  match sub with
  | EmptyString => S (String.length s)
  | _ => count_scan sub O s
  end.

(** [re.sub(r'\s+', ' ', s)]: every maximal run of white space becomes
    one blank. [in_run] tells that the previous character was white. *)
Fixpoint collapse_ws (in_run : bool) (s : string) : string :=
  match s with
  | EmptyString => EmptyString
  | String c s' =>
      if is_space c
      then (if in_run then collapse_ws true s'
            else String " "%char (collapse_ws true s'))
      else String c (collapse_ws false s')
  end.

(** The character of code [n]. *)
Definition chr (n : nat) : string := String (ascii_of_nat n) EmptyString.

End PyStr.

(* ===================================================================== *)
(** ** Python numbers, values, dictionaries and exceptions *)
(* ===================================================================== *)

Inductive pynum :=
| Num (q : Q)
| PosInf
| NegInf
| NaN.

(** [a < b] *)
Definition py_lt (a b : pynum) : bool :=
  match a, b with
  | NaN, _ | _, NaN => false
  | Num p, Num q => match (p ?= q)%Q with Lt => true | _ => false end
  | NegInf, NegInf => false
  | NegInf, _ => true
  | _, NegInf => false
  | PosInf, _ => false
  | Num _, PosInf => true
  end.

(** [a + b] *)
Definition py_add (a b : pynum) : pynum :=
  match a, b with
  | NaN, _ | _, NaN => NaN
  | PosInf, NegInf | NegInf, PosInf => NaN
  | PosInf, _ | _, PosInf => PosInf
  | NegInf, _ | _, NegInf => NegInf
  | Num p, Num q => Num (p + q)
  end.

(** A value as [json.loads] builds it. A [dict] keeps its items in
    insertion order. *)
Inductive pyval :=
| PNone
| PBool (b : bool)
| PNum (n : pynum)
| PStr (s : string)
| PList (l : list pyval)
| PDict (d : list (string * pyval)).

Inductive exn :=
| KeyError (key : string)
| TypeError
| IndexError
| AttributeError
| JSONDecodeError
| ValueError
| APIError (msg : string).

(** A computation that returns or raises. *)
Inductive result (A : Type) :=
| Ok (a : A)
| Raise (e : exn).
Arguments Ok {A} a.
Arguments Raise {A} e.

#[global] Instance result_ret : MRet result := @Ok.

#[global] Instance result_bind : MBind result := fun A B k m =>
  match m with
  | Ok a => k a
  | Raise e => Raise e
  end.

(** What awaiting a coroutine comes to: the value it returns, the
    exception it raises, or nothing at all when it never completes. *)
Inductive awaited (A : Type) :=
| Returns (a : A)
| Raises (e : exn)
| NeverReturns.
Arguments Returns {A} a.
Arguments Raises {A} e.
Arguments NeverReturns {A}.

Section Dict.
Context {V : Type}.

(** [d.get(k)] *)
Fixpoint dict_get (k : string) (d : list (string * V)) : option V :=
  match d with
  | [] => None
  | (k', v) :: d' => if String.eqb k k' then Some v else dict_get k d'
  end.

(** [d[k] = v]: an existing key keeps its place, a new one goes last. *)
Fixpoint dict_set (k : string) (v : V) (d : list (string * V))
  : list (string * V) :=
  match d with
  | [] => [(k, v)]
  | (k', v') :: d' =>
      if String.eqb k k' then (k, v) :: d' else (k', v') :: dict_set k v d'
  end.

(** [d.values()] *)
Definition dict_values (d : list (string * V)) : list V := map snd d.
End Dict.

(** The number behind a value in arithmetic and comparisons; [bool] is a
    subtype of [int]. [None] when the operation raises [TypeError]. *)
Definition as_num (v : pyval) : option pynum :=
  match v with
  | PNum n => Some n
  | PBool b => Some (Num (if b then 1 else 0)%Q)
  | _ => None
  end.

(** [min(a, b)]: the first argument unless the second is smaller. *)
Definition py_min (a b : pyval) : result pyval :=
  match as_num a, as_num b with
  | Some x, Some y => Ok (if py_lt y x then b else a)
  | _, _ => Raise TypeError
  end.

(** [max(a, b)]: the first argument unless the second is greater. *)
Definition py_max (a b : pyval) : result pyval :=
  match as_num a, as_num b with
  | Some x, Some y => Ok (if py_lt x y then b else a)
  | _, _ => Raise TypeError
  end.

(** [sum(vs)]: a left fold of [+] that starts from the integer 0. The
    additions are exact (see the conventions above). *)
Definition sum_nums (ns : list pynum) : pynum := fold_left py_add ns (Num 0%Q).

Fixpoint nums_of (vs : list pyval) : result (list pynum) :=
  match vs with
  | [] => Ok []
  | v :: vs' =>
      match as_num v with
      | Some n => ns ← nums_of vs'; Ok (n :: ns)
      | None => Raise TypeError
      end
  end.

Definition py_sum (vs : list pyval) : result pyval :=
  ns ← nums_of vs; Ok (PNum (sum_nums ns)).

(** [obj[key]] for a string [key] *)
Definition getitem (obj : pyval) (key : string) : result pyval :=
  match obj with
  | PDict d => match dict_get key d with
               | Some v => Ok v
               | None => Raise (KeyError key)
               end
  | _ => Raise TypeError
  end.

(** [obj[key] = v] for a string [key] *)
Definition setitem (obj : pyval) (key : string) (v : pyval) : result pyval :=
  match obj with
  | PDict d => Ok (PDict (dict_set key v d))
  | _ => Raise TypeError
  end.

(** [key in obj] for a string [key] *)
Definition py_in (key : string) (obj : pyval) : result bool :=
  match obj with
  | PDict d => Ok (bool_decide (is_Some (dict_get key d)))
  | PList l => Ok (existsb (fun v => match v with
                                     | PStr s => String.eqb s key
                                     | _ => false
                                     end) l)
  | PStr s => Ok (PyStr.contains key s)
  | _ => Raise TypeError
  end.

(* ===================================================================== *)
(** ** [class CacheManager] *)
(* ===================================================================== *)

Module CacheManager.

Section WithContent.
Context {Content : Type}.

(** The value stored under a key:
    [{'content': content, 'timestamp': datetime.now().isoformat()}]. *)
Record cache_data := CacheData {
  cd_content : Content;
  cd_timestamp : Z
}.

(** [self.cache] is the store and [self.cache_duration] the
    [timedelta], in microseconds. *)
Record t := Make {
  cache : gmap string cache_data;
  cache_duration : Z
}.

Definition microseconds_per_day : Z := 86400 * 1000000.

(** [__init__]: [stored] is what the directory [cache_dir] holds. *)
Definition init (stored : gmap string cache_data)
           (cache_duration_days : Z) : t :=
  {| cache := stored;
     cache_duration := cache_duration_days * microseconds_per_day |}.

Definition get_cache_key (url : string) : string := MD5.hexdigest url.

(** Every stored value is written by [cache_content], so it is a
    non-empty dict with a ['timestamp'] and the first test of the
    source holds as soon as the key is present. *)
Definition get_cached_content (self : t) (now : Z) (url : string)
  : option Content :=
  let cache_key := get_cache_key url in
  match cache self !! cache_key with
  | Some cached_data =>
      let cached_time := cd_timestamp cached_data in
      if now - cached_time <? cache_duration self
      then Some (cd_content cached_data)
      else None
  | None => None
  end.

Definition cache_content (self : t) (now : Z) (url : string)
           (content : Content) : t :=
  let cache_key := get_cache_key url in
  let cache_data := {| cd_content := content; cd_timestamp := now |} in
  {| cache := <[cache_key := cache_data]> (cache self);
     cache_duration := cache_duration self |}.

End WithContent.

Arguments cache_data : clear implicits.
Arguments t : clear implicits.

End CacheManager.

(* ===================================================================== *)
(** ** [class ClaudeAnalyzer] *)
(* ===================================================================== *)

Module ClaudeAnalyzer.

Record t := Make { enabled : bool }.

(** [__init__]: enabled when [api_key] is a non-empty string. *)
Definition init (api_key : option string) : t :=
  match api_key with
  | Some (String _ _) => {| enabled := true |}
  | _ => {| enabled := false |}
  end.

Definition criteria : list string :=
  ["numerisation"; "extraction"; "certification"; "mise_disposition"].

Definition keywords_mapping : list (string * list string) :=
  [ ("numerisation",
     ["ocr"; "document"; "scan"; "digitization"; "digitisation"; "pdf";
      "paper"; "archive"; "capture"; "recognition"]);
    ("extraction",
     ["data extraction"; "data mining"; "analytics"; "intelligence"; "etl";
      "data processing"; "information extraction"; "nlp"; "text mining"]);
    ("certification",
     ["certification"; "trust"; "blockchain"; "security"; "authentication";
      "verification"; "compliance"; "audit"; "identity"]);
    ("mise_disposition",
     ["dashboard"; "portal"; "api"; "collaboration"; "sharing"; "access";
      "interface"; "platform"; "workspace"]) ].

Definition tag_keywords : list (string * list string) :=
  [ ("Edge computing",
     ["edge"; "fog"; "distributed"; "iot"; "real-time"; "latency"]);
    ("RSE",
     ["sustainability"; "esg"; "carbon"; "environment"; "social";
      "governance"; "ethics"; "responsible"; "green"]);
    ("Risque augment" +:+ PyStr.chr 233,
     ["cybersecurity"; "fraud"; "monitoring"; "risk"; "security";
      "compliance"; "regulation"]);
    ("Game Changer",
     ["disruption"; "innovation"; "breakthrough"; "revolutionary";
      "transformation"; "ai"; "quantum"]);
    ("Prospective",
     ["future"; "vision"; "roadmap"; "strategy"; "long-term"; "emerging";
      "next-gen"]) ].

Definition _assign_fallback_tags (text : string) : list string :=
  fold_left
    (fun assigned_tags '(tag, keywords) =>
       if existsb (fun keyword => PyStr.contains keyword text) keywords
       then assigned_tags ++ [tag] else assigned_tags)
    tag_keywords [].

(** The inner loop of [_fallback_analysis] over the keywords of one
    criterion: the running [score] and [criterion_keywords]. *)
Definition keyword_loop (combined_text : string) (keywords : list string)
  : Z * list string :=
  fold_left
    (fun '(score, criterion_keywords) keyword =>
       let count := Z.of_nat (PyStr.count combined_text (PyStr.lower keyword)) in
       if count >? 0
       then (score + count, criterion_keywords ++ [keyword])
       else (score, criterion_keywords))
    keywords (0, []).

(** [min(score * 2.5, 25)] *)
Definition normalise (score : Z) : pynum :=
  let x := Num (inject_Z score * (5 # 2))%Q in
  if py_lt (Num 25%Q) x then Num 25%Q else x.

(** The outer loop: the [scores] dict and [keywords_found]. *)
Definition criteria_loop (combined_text : string)
  : list (string * pynum) * list string :=
  fold_left
    (fun '(scores, keywords_found) '(criterion, keywords) =>
       let '(score, criterion_keywords) := keyword_loop combined_text keywords in
       (dict_set criterion (normalise score) scores,
        keywords_found ++ criterion_keywords))
    keywords_mapping ([], []).

Definition justification_fallback : string :=
  "Analyse par mots-cl" +:+ PyStr.chr 233 +:+ "s (Claude indisponible)".

Definition _fallback_analysis (content description : string) : pyval :=
  let combined_text := PyStr.lower (content +:+ " " +:+ description) in
  let '(scores, keywords_found) := criteria_loop combined_text in
  PDict
    [ ("scores", PDict (map (fun '(k, n) => (k, PNum n)) scores));
      ("total_score", PNum (sum_nums (dict_values scores)));
      ("tags", PList (map PStr (_assign_fallback_tags combined_text)));
      ("justification", PStr justification_fallback);
      ("keywords_found", PList (map PStr (firstn 10 keywords_found))) ].

(** What the remote service answers to one request (lines 121-134):
    - [ApiRaises]: [messages.create] raised, on a transport error or a
      non-success status;
    - [BadContent]: [response.content[0].text] raised, no content block;
    - [Unparseable]: [json.loads] raised on the cleaned text;
    - [Parsed]: [json.loads] returned [analysis]. *)
Inductive remote_reply :=
| ApiRaises (msg : string)
| BadContent
| Unparseable
| Parsed (analysis : pyval).

(** One turn of the validation loop, for [key]. *)
Definition validate_key (analysis : pyval) (key : string) : result pyval :=
  scores ← getitem analysis "scores";
  present ← py_in key scores;
  if negb present then
    scores' ← setitem scores key (PNum (Num 0%Q));
    setitem analysis "scores" scores'
  else
    v ← getitem scores key;
    m ← py_min (PNum (Num 25%Q)) v;
    x ← py_max (PNum (Num 0%Q)) m;
    scores' ← setitem scores key x;
    setitem analysis "scores" scores'.

Fixpoint validate_scores (analysis : pyval) (keys : list string)
  : result pyval :=
  match keys with
  | [] => Ok analysis
  | key :: keys' =>
      analysis' ← validate_key analysis key;
      validate_scores analysis' keys'
  end.

(** The body of the [try]. *)
Definition remote_analysis (reply : remote_reply) : result pyval :=
  analysis ← match reply with
             | ApiRaises msg => Raise (APIError msg)
             | BadContent => Raise IndexError
             | Unparseable => Raise JSONDecodeError
             | Parsed analysis => Ok analysis
             end;
  analysis ← validate_scores analysis criteria;
  scores ← getitem analysis "scores";
  values ← match scores with
           | PDict d => Ok (dict_values d)
           | _ => Raise AttributeError
           end;
  total ← py_sum values;
  setitem analysis "total_score" total.

Definition analyze_startup_relevance (self : t) (reply : remote_reply)
           (content description company_name : string) : pyval :=
  if negb (enabled self) then _fallback_analysis content description
  else
    match remote_analysis reply with
    | Ok analysis => analysis
    | Raise e => _fallback_analysis content description
    end.

End ClaudeAnalyzer.

(* ===================================================================== *)
(** ** [class AsyncWebScraper] *)
(* ===================================================================== *)

Module AsyncWebScraper.

(** A cell of the [WEBSITE] column: a string, or nothing ([None], NaN). *)
Inductive url_value :=
| UrlMissing
| UrlStr (s : string).

(** The dict that a fetch returns. A key that the dict does not have is
    [None] here. *)
Record scrape_result := ScrapeResult {
  content : string;
  title : string;
  error : option string;
  url : option url_value;
  status : string;
  scraped_at : option Z
}.

(** What [self.session.get(url)] does, with the pieces that
    [BeautifulSoup] finds in the body: the text of the [<title>] element
    when there is one, and [soup.get_text()] once the script, style, nav,
    footer and header elements are removed. *)
Inductive http_result :=
| Response (code : Z) (soup_title : option string) (soup_text : string)
| TimeoutError
| OtherException (msg : string).

(** The environment of one task: the clock at the cache lookup, the
    answer of the network, the clock at [scraped_at] and at the cache
    write, and the instant at which the task completes. *)
Record fetch_env := FetchEnv {
  t_lookup : Z;
  reply : http_result;
  t_scraped : Z;
  t_cached : Z;
  t_done : Z
}.

Record t := Make {
  max_concurrent : Z;
  cache_manager : option (CacheManager.t scrape_result);
  timeout : Z
}.

(** The result of a task, the cache manager as the task leaves it and the
    URLs it sent a GET to. *)
Record scrape_run := ScrapeRun {
  outcome : scrape_result;
  cache_manager_after : option (CacheManager.t scrape_result);
  requested : list string
}.

Definition with_status (r : scrape_result) (st : string) : scrape_result :=
  {| content := content r; title := title r; error := error r;
     url := url r; status := st; scraped_at := scraped_at r |}.

Definition failure (msg : string) (u : option url_value) (st : string)
  : scrape_result :=
  {| content := ""; title := ""; error := Some msg; url := u;
     status := st; scraped_at := None |}.

(** Lines 245-257, up to the semaphore: the result when the task ends
    there, or else the cleaned URL to fetch. A cached dict written by
    [fetch_phase] has five keys, so [if cached_content] holds. *)
Definition lookup_phase (self : t) (env : fetch_env) (url : url_value)
  : scrape_result + string :=
  match url with
  | UrlMissing => inl (failure "URL manquante" (Some url) "failed")
  | UrlStr "" => inl (failure "URL manquante" (Some url) "failed")
  | UrlStr u =>
      match cm ← cache_manager self;
            CacheManager.get_cached_content cm (t_lookup env) u with
      | Some cached_content => inl (with_status cached_content "cached")
      | None =>
          let u := PyStr.strip u in
          inr (if PyStr.startswith "http://" u || PyStr.startswith "https://" u
               then u else "https://" +:+ u)
      end
  end.

(** Lines 259-306, under the semaphore: one GET on the cleaned URL.
    [cm] is the cache manager at that moment. *)
Definition fetch_phase (cm : option (CacheManager.t scrape_result))
           (env : fetch_env) (url : string)
  : scrape_result * option (CacheManager.t scrape_result) :=
  match reply env with
  | Response code soup_title soup_text =>
      if code =? 200 then
        let title_text :=
          match soup_title with
          | Some s => PyStr.strip s
          | None => ""
          end in
        let main_content := PyStr.strip (PyStr.collapse_ws false soup_text) in
        let result :=
          {| content := PyStr.take 3000 main_content;
             title := title_text;
             error := None;
             url := Some (UrlStr url);
             status := "success";
             scraped_at := Some (t_scraped env) |} in
        (result,
         (fun c => CacheManager.cache_content c (t_cached env) url result)
           <$> cm)
      else
        (failure ("HTTP " +:+ pretty code) (Some (UrlStr url)) "failed", cm)
  | TimeoutError => (failure "Timeout" (Some (UrlStr url)) "timeout", cm)
  | OtherException msg => (failure msg (Some (UrlStr url)) "failed", cm)
  end.

(** A task that looked the cache up in [self] and meets the cache
    manager [cm] when its answer arrives. *)
Definition run_task (self : t) (cm : option (CacheManager.t scrape_result))
           (env : fetch_env) (url : url_value) : scrape_run :=
  match lookup_phase self env url with
  | inl result =>
      {| outcome := result; cache_manager_after := cm; requested := [] |}
  | inr u =>
      let '(result, cm') := fetch_phase cm env u in
      {| outcome := result; cache_manager_after := cm'; requested := [u] |}
  end.

(** The task of one URL, once the semaphore of the batch admits it at
    line 259. *)
Definition scrape_single_website (self : t) (env : fetch_env)
           (url : url_value) : scrape_run :=
  run_task self (cache_manager self) env url.

(** *** The batch *)

(** What awaiting a task that completes gives: its value or the
    exception it raised. A task of this model that completes returns: the
    cache lookups of the model do not raise and the rest of the task is
    inside its [try]. *)
Inductive task_result :=
| Returned (r : scrape_result)
| Raised (e : string).

(** The indices [0 .. n-1] in the order in which the tasks complete:
    by completion instant, and by index among equal instants. *)
Fixpoint insert_by (key : nat -> Z) (i : nat) (l : list nat) : list nat :=
  match l with
  | [] => [i]
  | j :: l' => if key i <? key j then i :: l else j :: insert_by key i l'
  end.

Definition completion_order (key : nat -> Z) (n : nat) : list nat :=
  fold_left (fun acc i => insert_by key i acc) (seq 0 n) [].

(** The event loop, when the semaphore admits every task that reaches
    it. Every task runs up to its GET before any answer arrives, so all of
    them look up the cache manager of [self]; the answers then arrive, and
    are cached, in completion order. Returns the cache manager at the end
    and the finished tasks, first finished first. *)
Definition run_tasks (self : t) (envs : nat -> fetch_env)
           (urls : list url_value)
  : option (CacheManager.t scrape_result) * list (nat * task_result) :=
  fold_left
    (fun '(cm, finished) i =>
       match urls !! i with
       | Some url =>
           let r := run_task self cm (envs i) url in
           (cache_manager_after r, finished ++ [(i, Returned (outcome r))])
       | None => (cm, finished)
       end)
    (completion_order (fun i => t_done (envs i)) (length urls))
    (cache_manager self, []).

Fixpoint result_of (i : nat) (finished : list (nat * task_result))
  : option task_result :=
  match finished with
  | [] => None
  | (j, r) :: rest => if Nat.eqb i j then Some r else result_of i rest
  end.

Definition exception_result (e : string) : scrape_result :=
  {| content := ""; title := ""; error := Some e; url := None;
     status := "exception"; scraped_at := None |}.

(** [asyncio.Semaphore(value)] (line 310): the constructor raises
    [ValueError] on a negative value. *)
Definition semaphore (value : Z) : result Z :=
  if value <? 0 then Raise ValueError else Ok value.

(** The task of [url] reaches [async with semaphore]: it neither ends on
    a missing URL nor is answered by the cache. *)
Definition acquires (self : t) (env : fetch_env) (url : url_value) : bool :=
  match lookup_phase self env url with
  | inl _ => false
  | inr _ => true
  end.

(** Lines 313-339, once every task has completed. [progress_callback]
    tells whether a callback is given; what the callback prints is not
    modelled. With a callback the results are appended as [as_completed]
    yields them; without, [gather] returns them by position ([gather]
    waits for every task, so the default of the lookup is never
    taken). *)
Definition batch_results (self : t) (envs : nat -> fetch_env)
           (urls : list url_value) (progress_callback : bool)
  : list scrape_result * option (CacheManager.t scrape_result) :=
  let '(cm, finished) := run_tasks self envs urls in
  let results :=
    if progress_callback then map snd finished
    else imap (fun i _ => default (Raised "CancelledError")
                                  (result_of i finished)) urls in
  let processed_results :=
    map (fun result => match result with
                       | Raised e => exception_result e
                       | Returned r => r
                       end) results in
  (processed_results, cm).

(** The batch. The semaphore is built from [self.max_concurrent] before
    any task starts: a negative cap raises there. No task releases a
    semaphore that starts at 0, so a task that reaches
    [async with semaphore] then waits for ever, and [gather] and
    [as_completed] with it; tasks that end on a missing URL or on a cached
    page do not reach it. With a positive cap every task is admitted in
    turn and completes. *)
Definition scrape_websites_batch (self : t) (envs : nat -> fetch_env)
           (urls : list url_value) (progress_callback : bool)
  : awaited (list scrape_result * option (CacheManager.t scrape_result)) :=
  match semaphore (max_concurrent self) with
  | Raise e => Raises e
  | Ok value =>
      if (value =? 0)
         && existsb (fun b : bool => b)
                    (imap (fun i url => acquires self (envs i) url) urls)
      then NeverReturns
      else Returns (batch_results self envs urls progress_callback)
  end.

End AsyncWebScraper.

(* ===================================================================== *)
(** ** [class VivaTechAnalyzerV2] *)
(* ===================================================================== *)

Module VivaTechAnalyzerV2.

Import AsyncWebScraper.

(** A row of the data frame: the three columns that the pipeline reads
    and the remaining ones by name. *)
Record row := Row {
  HOST_COMPANY_NAME : string;
  WEBSITE : url_value;
  DESCRIPTION : option string;
  other_columns : list (string * string)
}.

Record startup_data := StartupData {
  name : string;
  website : url_value;
  description : string;
  country : string;
  business_sector : string;
  hall : string;
  days_presence : string;
  website_content : string;
  website_title : string;
  scraping_status : string;
  total_score : pyval;
  claude_analysis : pyval;
  raw_data : row
}.

Record t := Make {
  df : option (list row);
  scored_startups : list startup_data;
  cache_manager : CacheManager.t scrape_result;
  claude_analyzer : ClaudeAnalyzer.t
}.

(** The environment of a run: for the task of each position the network
    side, and for the scoring of each position the answer of the remote
    service. *)
Record run_env := RunEnv {
  fetch_envs : nat -> fetch_env;
  remote_replies : nat -> ClaudeAnalyzer.remote_reply
}.

(** [self.df.head(limit) if limit else self.df] *)
Definition df_to_analyze (rows : list row) (limit : option Z) : list row :=
  match limit with
  | None => rows
  | Some n =>
      if n =? 0 then rows
      else if 0 <? n then firstn (Z.to_nat n) rows
      else firstn (length rows - Z.to_nat (- n)) rows
  end.

(** [row.get(column, '')] on the remaining columns *)
Definition row_get (r : row) (column : string) : string :=
  default "" (dict_get column (other_columns r)).

(** The body of the scoring loop for position [idx]. *)
Definition score_row (self : t) (env : run_env)
           (website_results : list scrape_result) (idx : nat) (r : row)
  : result startup_data :=
  let website_data := website_results !! idx in
  let description := default "" (DESCRIPTION r) in
  let content := from_option AsyncWebScraper.content "" website_data in
  let company_name := HOST_COMPANY_NAME r in
  let analysis :=
    ClaudeAnalyzer.analyze_startup_relevance
      (claude_analyzer self) (remote_replies env idx)
      content description company_name in
  total ← getitem analysis "total_score";
  Ok {| name := company_name;
        website := WEBSITE r;
        description := description;
        country := row_get r "COUNTRY";
        business_sector := row_get r "BUSINESS-SECTOR";
        hall := row_get r "HALL";
        days_presence := row_get r "DAYS OF PRESENCE";
        website_content := PyStr.take 500 content;
        website_title := from_option title "" website_data;
        scraping_status := from_option status "unknown" website_data;
        total_score := total;
        claude_analysis := analysis;
        raw_data := r |}.

(** The scoring loop: [rows] are the rows from position [idx] on and
    [scored] the records appended so far. *)
Fixpoint score_rows (self : t) (env : run_env)
         (website_results : list scrape_result) (idx : nat)
         (rows : list row) (scored : list startup_data)
  : result (list startup_data) :=
  match rows with
  | [] => Ok scored
  | r :: rows' =>
      startup ← score_row self env website_results idx r;
      score_rows self env website_results (S idx) rows' (scored ++ [startup])
  end.

(** The analyzer as the call leaves it when it returns. The batch is
    always given a progress callback. What the batch raises leaves
    [async with] and the call (line 416), and the call does not return
    when the batch does not. The messages are left out with the timings
    they print; the elapsed time that the last one divides by (line 468)
    is taken to be positive. *)
Definition analyze_startups_async (self : t) (env : run_env)
           (limit : option Z) (max_concurrent : Z) : awaited t :=
  match df self with
  | None => Returns self
  | Some rows =>
      let df_to_analyze := df_to_analyze rows limit in
      let urls_to_scrape := map WEBSITE df_to_analyze in
      let scraper :=
        AsyncWebScraper.Make max_concurrent (Some (cache_manager self)) 10 in
      match scrape_websites_batch scraper (fetch_envs env)
                                  urls_to_scrape true with
      | Raises e => Raises e
      | NeverReturns => NeverReturns
      | Returns (website_results, cm) =>
          match score_rows self env website_results 0 df_to_analyze [] with
          | Raise e => Raises e
          | Ok scored =>
              Returns {| df := df self;
                         scored_startups := scored;
                         cache_manager := default (cache_manager self) cm;
                         claude_analyzer := claude_analyzer self |}
          end
      end
  end.

(** *** [load_data] *)

(** A row as [read_csv] gives it: an empty cell is missing (NaN). *)
Record raw_row := RawRow {
  raw_name : option string;
  raw_website : option string;
  raw_description : option string;
  raw_other : list (string * string)
}.

(** What reading the file gives: an exception, or the columns and the rows
    of the frame. *)
Inductive csv_read :=
| ReadError
| Frame (columns : list string) (rows : list raw_row).

Definition required_cols : list string := ["HOST COMPANY NAME"; "WEBSITE"].

(** [dropna] on the two required columns, then the filter on the stripped
    [WEBSITE]: the row when it is kept. *)
Definition keep_row (r : raw_row) : option row :=
  match raw_name r, raw_website r with
  | Some company, Some site =>
      if String.eqb (PyStr.strip site) "" then None
      else Some {| HOST_COMPANY_NAME := company;
                   WEBSITE := UrlStr site;
                   DESCRIPTION := raw_description r;
                   other_columns := raw_other r |}
  | _, _ => None
  end.

(** The [WEBSITE] column of the frame holds text: [read_csv] gives a
    column in which every cell is empty the dtype [float64], and a column
    with a text cell, or of a frame without rows, the dtype [object]. *)
Definition website_is_text (rows : list raw_row) : bool :=
  match rows with
  | [] => true
  | _ :: _ => existsb (fun r => bool_decide (is_Some (raw_website r))) rows
  end.

(** [load_data]: the frame that it leaves in [self.df] when it returns
    [True], and nothing when it returns [False] (its callers stop
    there). On a [WEBSITE] column that does not hold text, [.str] raises
    [AttributeError] (line 384) inside the [try]. *)
Definition load_data (csv : csv_read) : option (list row) :=
  match csv with
  | ReadError => None
  | Frame columns rows =>
      let missing_cols :=
        List.filter (fun col => negb (existsb (String.eqb col) columns))
                    required_cols in
      match missing_cols with
      | [] =>
          if website_is_text rows then Some (omap keep_row rows) else None
      | _ :: _ => None
      end
  end.

(** *** The reports *)

(** A total as the number that [<] compares. *)
Definition score_number (total : pyval) : pynum :=
  default NaN (as_num total).

(** The key [x['total_score']] of the sort. *)
Definition sort_key (s : startup_data) : pynum :=
  score_number (total_score s).

(** [sorted(self.scored_startups, key=lambda x: x['total_score'],
    reverse=True)] (lines 485, 528 and 583): a stable sort, larger totals
    first. On totals that are numbers other than NaN, [<] is a total
    preorder and the result of a stable sort is determined; this is the
    domain on which the definition is the source's. *)
Fixpoint insert_desc (s : startup_data) (l : list startup_data)
  : list startup_data :=
  match l with
  | [] => [s]
  | s' :: l' =>
      if py_lt (sort_key s) (sort_key s') then s' :: insert_desc s l'
      else s :: l
  end.

Definition sorted_startups (scored : list startup_data) : list startup_data :=
  foldr insert_desc [] scored.

(** [scraping_stats] of [export_results_v2] (lines 531-536). *)
Record scraping_stats := ScrapingStats {
  total_analyzed : nat;
  successful_scrapes : nat;
  cached_results : nat;
  failed_scrapes : nat
}.

Definition count_status (statuses : list string) (l : list startup_data)
  : nat :=
  length (List.filter
            (fun s => existsb (String.eqb (scraping_status s)) statuses) l).

Definition scraping_stats_of (sorted_startups : list startup_data)
  : scraping_stats :=
  {| total_analyzed := length sorted_startups;
     successful_scrapes := count_status ["success"] sorted_startups;
     cached_results := count_status ["cached"] sorted_startups;
     failed_scrapes :=
       count_status ["failed"; "timeout"; "exception"] sorted_startups |}.

(** [sorted_startups[:100]] of [export_results_v2]. *)
Definition top_startups (sorted_startups : list startup_data)
  : list startup_data :=
  firstn 100 sorted_startups.

(** [max([s['total_score'] for s in sorted_startups])]: the first total
    that no later one exceeds; nothing on an empty list, where [max]
    raises. *)
Definition max_score (sorted_startups : list startup_data) : option pyval :=
  match sorted_startups with
  | [] => None
  | s :: l =>
      Some (fold_left
              (fun best item =>
                 if py_lt (score_number best) (score_number item)
                 then item else best)
              (map total_score l) (total_score s))
  end.

(** [min([s['total_score'] for s in sorted_startups])]: the first total
    that no later one is below. *)
Definition min_score (sorted_startups : list startup_data) : option pyval :=
  match sorted_startups with
  | [] => None
  | s :: l =>
      Some (fold_left
              (fun best item =>
                 if py_lt (score_number item) (score_number best)
                 then item else best)
              (map total_score l) (total_score s))
  end.

(** [all_tags.extend(tags)] (line 542): the items of a list, the
    characters of a string, the keys of a dict; [None], a [bool] and a
    number are not iterable. *)
Definition extend (all_tags : list pyval) (tags : pyval)
  : result (list pyval) :=
  match tags with
  | PList items => Ok (all_tags ++ items)
  | PStr s =>
      Ok (all_tags
            ++ map (fun c => PStr (String c EmptyString))
                   (list_ascii_of_string s))
  | PDict d => Ok (all_tags ++ map (fun '(k, _) => PStr k) d)
  | PNone | PBool _ | PNum _ => Raise TypeError
  end.

(** The loop of lines 539-542 of [export_results_v2], from the records
    [sorted_startups] on, with the tags gathered so far. *)
Fixpoint all_tags_from (sorted_startups : list startup_data)
         (all_tags : list pyval) : result (list pyval) :=
  match sorted_startups with
  | [] => Ok all_tags
  | startup :: rest =>
      tags ← match claude_analysis startup with
             | PDict d => Ok (default (PList []) (dict_get "tags" d))
             | _ => Raise AttributeError
             end;
      all_tags ← extend all_tags tags;
      all_tags_from rest all_tags
  end.

Definition all_tags (sorted_startups : list startup_data)
  : result (list pyval) :=
  all_tags_from sorted_startups [].

End VivaTechAnalyzerV2.

(* ===================================================================== *)
(** ** Notions of the specification, and the scenarios of the properties *)
(* ===================================================================== *)

Module Spec.

(** Two characters are the same letter up to case. *)
Definition same_letter (a b : ascii) : bool :=
  Ascii.eqb (PyStr.lower_char a) (PyStr.lower_char b).

(** The keyword [kw] is read at the head of [s], up to case. *)
Fixpoint occurs_at (kw s : string) : bool :=
  match kw, s with
  | EmptyString, _ => true
  | String a kw', String b s' => same_letter a b && occurs_at kw' s'
  | String _ _, EmptyString => false
  end.

(** The case-insensitive occurrences of a non-empty keyword in a text,
    read from left to right without overlap. *)
Fixpoint occurrences_from (kw : string) (skip : nat) (s : string) : nat :=
  match s with
  | EmptyString => O
  | String _ s' =>
      match skip with
      | S k => occurrences_from kw k s'
      | O => if occurs_at kw s
             then S (occurrences_from kw (Nat.pred (String.length kw)) s')
             else occurrences_from kw O s'
      end
  end.

Definition occurrences (text kw : string) : nat := occurrences_from kw O text.

(** The occurrences of all the keywords of a list, added up. *)
Definition total_occurrences (text : string) (keywords : list string) : Z :=
  fold_right (fun kw acc => Z.of_nat (occurrences text kw) + acc) 0 keywords.

(** The sum of the counts that the inner loop of the keyword scorer adds
    up, one [str.count] for each keyword. *)
Definition counted (text : string) (keywords : list string) : Z :=
  fold_right
    (fun kw acc => Z.of_nat (PyStr.count text (PyStr.lower kw)) + acc)
    0 keywords.

(** The text that the keyword scorer reads. *)
Definition combined (content description : string) : string :=
  content +:+ " " +:+ description.

(** [analysis['scores'][axis]] as a number, when it is there. *)
Definition axis_score (analysis : pyval) (axis : string) : option pynum :=
  match analysis with
  | PDict d =>
      match dict_get "scores" d with
      | Some (PDict scores) => dict_get axis scores ≫= as_num
      | _ => None
      end
  | _ => None
  end.

(** [analysis['total_score']] as a number, when it is there. *)
Definition total_of (analysis : pyval) : option pynum :=
  match analysis with
  | PDict d => dict_get "total_score" d ≫= as_num
  | _ => None
  end.

(** A number between 0 and 25. *)
Definition in_range (n : pynum) : Prop :=
  match n with
  | Num q => (0 <= q /\ q <= 25)%Q
  | _ => False
  end.

(** A number, as [min], [max] and [sum] take them. *)
Definition is_number (v : pyval) : bool :=
  match v with
  | PNum _ | PBool _ => true
  | _ => false
  end.

(** A dict whose [scores] are a dict of numbers: what the validation
    loop and the sum of the remote path ask of a payload (lemma
    [remote_analysis_ok_iff]). They look at nothing else of it. *)
Definition numeric_scores (analysis : pyval) : bool :=
  match analysis with
  | PDict d =>
      match dict_get "scores" d with
      | Some (PDict scores) => forallb is_number (dict_values scores)
      | _ => false
      end
  | _ => false
  end.

(** The failures of the remote call that the [try] meets: an exception
    raised by the call (a transport error, a non-success status), a
    response without text, an unparseable response, a payload without
    numeric [scores]. *)
Inductive remote_failure : ClaudeAnalyzer.remote_reply -> Prop :=
| call_raises msg : remote_failure (ClaudeAnalyzer.ApiRaises msg)
| no_text : remote_failure ClaudeAnalyzer.BadContent
| unparseable : remote_failure ClaudeAnalyzer.Unparseable
| malformed analysis :
    numeric_scores analysis = false ->
    remote_failure (ClaudeAnalyzer.Parsed analysis).

(** The URL [u] is not in the cache when the fetch looks it up. *)
Definition not_cached (self : AsyncWebScraper.t)
           (env : AsyncWebScraper.fetch_env) (u : string) : Prop :=
  (cm ← AsyncWebScraper.cache_manager self;
   CacheManager.get_cached_content cm (AsyncWebScraper.t_lookup env) u)
  = None.

(** The failures of a fetch: the URL is missing or blank, or the URL is
    fetched and the GET times out, answers with a status other than 200,
    or raises. *)
Inductive fetch_failure (self : AsyncWebScraper.t)
          (env : AsyncWebScraper.fetch_env)
  : AsyncWebScraper.url_value -> Prop :=
| url_absent : fetch_failure self env AsyncWebScraper.UrlMissing
| url_blank : fetch_failure self env (AsyncWebScraper.UrlStr "")
| get_timeout u :
    not_cached self env u ->
    AsyncWebScraper.reply env = AsyncWebScraper.TimeoutError ->
    fetch_failure self env (AsyncWebScraper.UrlStr u)
| get_status u code soup_title soup_text :
    not_cached self env u ->
    AsyncWebScraper.reply env
    = AsyncWebScraper.Response code soup_title soup_text ->
    code <> 200 ->
    fetch_failure self env (AsyncWebScraper.UrlStr u)
| get_exception u msg :
    not_cached self env u ->
    AsyncWebScraper.reply env = AsyncWebScraper.OtherException msg ->
    fetch_failure self env (AsyncWebScraper.UrlStr u).

(** The score of [axis] in [analysis] is a number between 0 and 25. *)
Definition axis_ok (analysis : pyval) (axis : string) : Prop :=
  exists n, axis_score analysis axis = Some n /\ in_range n.

(** A well-formed reply of the remote service whose [scores] have a
    fifth key. *)
Definition reply_with_extra_key : ClaudeAnalyzer.remote_reply :=
  ClaudeAnalyzer.Parsed
    (PDict
       [ ("scores",
          PDict [ ("numerisation", PNum (Num 10%Q));
                  ("extraction", PNum (Num 0%Q));
                  ("certification", PNum (Num 0%Q));
                  ("mise_disposition", PNum (Num 0%Q));
                  ("bonus", PNum (Num 100%Q)) ]);
         ("total_score", PNum (Num 10%Q));
         ("tags", PList []);
         ("justification", PStr "");
         ("keywords_found", PList []) ]).

(** Two fetches of the same URL written without its scheme, the second
    one two microseconds after the first, both answered by a 200. *)
Definition scraper0 : AsyncWebScraper.t :=
  AsyncWebScraper.Make 20 (Some (CacheManager.init ∅ 7)) 10.

Definition page_at (t : Z) : AsyncWebScraper.fetch_env :=
  AsyncWebScraper.FetchEnv
    t (AsyncWebScraper.Response 200 (Some "Example Domain") "Example Domain")
    (t + 1) (t + 1) (t + 1).

Definition first_fetch : AsyncWebScraper.scrape_run :=
  AsyncWebScraper.scrape_single_website
    scraper0 (page_at 0) (AsyncWebScraper.UrlStr "example.com").

Definition second_fetch : AsyncWebScraper.scrape_run :=
  AsyncWebScraper.scrape_single_website
    (AsyncWebScraper.Make
       20 (AsyncWebScraper.cache_manager_after first_fetch) 10)
    (page_at 2) (AsyncWebScraper.UrlStr "example.com").


(** A batch of two targets in which the second answer arrives first. *)
Definition two_urls : list AsyncWebScraper.url_value :=
  [AsyncWebScraper.UrlStr "alpha.example"; AsyncWebScraper.UrlStr "beta.example"].

Definition second_first (i : nat) : AsyncWebScraper.fetch_env :=
  match i with
  | O => AsyncWebScraper.FetchEnv
           0 (AsyncWebScraper.Response 200 (Some "Alpha") "OCR document scan")
           9 9 9
  | _ => AsyncWebScraper.FetchEnv
           0 (AsyncWebScraper.Response 200 (Some "Beta") "We sell flowers.")
           5 5 5
  end.

Definition two_rows : list VivaTechAnalyzerV2.row :=
  [ VivaTechAnalyzerV2.Row
      "Alpha" (AsyncWebScraper.UrlStr "alpha.example") None [];
    VivaTechAnalyzerV2.Row
      "Beta" (AsyncWebScraper.UrlStr "beta.example") None [] ].

(** The outcome that the task of position [i] computes for its URL. *)
Definition task_outcome (self : AsyncWebScraper.t)
           (envs : nat -> AsyncWebScraper.fetch_env) (i : nat)
           (url : AsyncWebScraper.url_value) : AsyncWebScraper.scrape_result :=
  AsyncWebScraper.outcome
    (AsyncWebScraper.scrape_single_website self (envs i) url).

(** A lower-case hexadecimal digit. *)
Definition is_hex_digit (c : ascii) : bool :=
  existsb (Ascii.eqb c) (list_ascii_of_string "0123456789abcdef").

(** The number [n] is the rational [q]. *)
Definition num_is (n : pynum) (q : Q) : Prop :=
  match n with
  | Num p => (p == q)%Q
  | _ => False
  end.

(** Every keyword of the four axes, in axis order then list order. *)
Definition all_keywords : list string :=
  concat (map snd ClaudeAnalyzer.keywords_mapping).

(** None of the keywords of the axes, lowered as the scorer lowers them,
    is a substring of the lowered text. *)
Definition no_keyword (content description : string) : bool :=
  forallb (fun kw => negb (PyStr.contains
                             (PyStr.lower kw)
                             (PyStr.lower (combined content description))))
          all_keywords.

(** 25 for each number of a list: the most that numbers between 0 and 25
    can add up to. *)
Fixpoint cap (ns : list pynum) : Q :=
  match ns with
  | [] => 0
  | _ :: ns' => 25 + cap ns'
  end.

(** What [max(0, min(25, n))] is worth. *)
Definition clamp (n : pynum) : Q :=
  match n with
  | Num q => Qmax 0 (Qmin 25 q)
  | NegInf => 0
  | PosInf | NaN => 25
  end.

(** The entry of [key] in [analysis['scores']], as the reply gives it. *)
Definition raw_score (analysis : pyval) (key : string) : option pyval :=
  match analysis with
  | PDict d =>
      match dict_get "scores" d with
      | Some (PDict scores) => dict_get key scores
      | _ => None
      end
  | _ => None
  end.

(** The [scores] of the payload have no other key than the four axes
    (and, as in every dict, no key twice). *)
Definition only_axes (analysis : pyval) : Prop :=
  match analysis with
  | PDict d =>
      match dict_get "scores" d with
      | Some (PDict scores) =>
          NoDup (map fst scores)
          /\ Forall (fun k => k ∈ ClaudeAnalyzer.criteria) (map fst scores)
      | _ => False
      end
  | _ => False
  end.

(** The keys of [analysis['scores']]. *)
Definition score_keys (analysis : pyval) : list string :=
  match analysis with
  | PDict d =>
      match dict_get "scores" d with
      | Some (PDict scores) => map fst scores
      | _ => []
      end
  | _ => []
  end.

(** The sum of a list of rationals. *)
Definition qsum (qs : list Q) : Q := fold_right Qplus 0%Q qs.

(** The rational that a finite number is. *)
Definition rational (n : pynum) : Q :=
  match n with
  | Num q => q
  | _ => 0%Q
  end.

(** The URL starts with a scheme. *)
Definition has_scheme (u : string) : bool :=
  PyStr.startswith "http://" u || PyStr.startswith "https://" u.

(** The four statuses that a fetch ends with. *)
Definition fetch_statuses : list string :=
  ["success"; "cached"; "failed"; "timeout"].

(** The URL that a fetch sends its GET to: trimmed, with [https://] in
    front when it has no scheme. *)
Definition cleaned (u : string) : string :=
  let u := PyStr.strip u in
  if has_scheme u then u else "https://" +:+ u.

(** The total of the record is a number that [<] orders: not NaN. *)
Definition comparable (s : VivaTechAnalyzerV2.startup_data) : Prop :=
  match as_num (VivaTechAnalyzerV2.total_score s) with
  | Some NaN | None => False
  | Some _ => True
  end.

(** The total of [s'] is not above the one of [s]. *)
Definition not_below (s s' : VivaTechAnalyzerV2.startup_data) : Prop :=
  py_lt (VivaTechAnalyzerV2.sort_key s) (VivaTechAnalyzerV2.sort_key s')
  = false.

(** No later record of the list has a larger total. *)
Definition descending (l : list VivaTechAnalyzerV2.startup_data) : Prop :=
  forall i j s s',
    (i < j)%nat -> l !! i = Some s -> l !! j = Some s' -> not_below s s'.

(** The total of the record ties with the number [k]. *)
Definition ties (k : pynum) (s : VivaTechAnalyzerV2.startup_data) : bool :=
  negb (py_lt k (VivaTechAnalyzerV2.sort_key s))
  && negb (py_lt (VivaTechAnalyzerV2.sort_key s) k).

(** A record with the given name, fetch status and total. *)
Definition record_of (company status : string) (total : pynum)
  : VivaTechAnalyzerV2.startup_data :=
  {| VivaTechAnalyzerV2.name := company;
     VivaTechAnalyzerV2.website := AsyncWebScraper.UrlStr "";
     VivaTechAnalyzerV2.description := "";
     VivaTechAnalyzerV2.country := "";
     VivaTechAnalyzerV2.business_sector := "";
     VivaTechAnalyzerV2.hall := "";
     VivaTechAnalyzerV2.days_presence := "";
     VivaTechAnalyzerV2.website_content := "";
     VivaTechAnalyzerV2.website_title := "";
     VivaTechAnalyzerV2.scraping_status := status;
     VivaTechAnalyzerV2.total_score := PNum total;
     VivaTechAnalyzerV2.claude_analysis := PDict [];
     VivaTechAnalyzerV2.raw_data :=
       VivaTechAnalyzerV2.Row company (AsyncWebScraper.UrlStr "") None [] |}.

(** The reply of the remote service as section 6 of the specification
    words it: a JSON object with [scores], an object of numbers under
    names of the four axes, [total_score], a number, [tags], an array of
    strings of the fixed vocabulary, [justification], a string, and
    [keywords_found], an array of strings. *)
Definition is_string (v : pyval) : bool :=
  match v with
  | PStr _ => true
  | _ => false
  end.

Definition tag_vocabulary : list string :=
  map fst ClaudeAnalyzer.tag_keywords.

Definition is_tag (v : pyval) : bool :=
  match v with
  | PStr tag => existsb (String.eqb tag) tag_vocabulary
  | _ => false
  end.

Definition is_array_of (item : pyval -> bool) (v : pyval) : bool :=
  match v with
  | PList items => forallb item items
  | _ => false
  end.

Definition is_axis_scores (v : pyval) : bool :=
  match v with
  | PDict scores =>
      forallb (fun '(axis, score) =>
                 existsb (String.eqb axis) ClaudeAnalyzer.criteria
                 && is_number score)
              scores
  | _ => false
  end.

Definition valid_reply (analysis : pyval) : bool :=
  match analysis with
  | PDict d =>
      from_option is_axis_scores false (dict_get "scores" d)
      && from_option is_number false (dict_get "total_score" d)
      && from_option (is_array_of is_tag) false (dict_get "tags" d)
      && from_option is_string false (dict_get "justification" d)
      && from_option (is_array_of is_string) false
                     (dict_get "keywords_found" d)
  | _ => false
  end.

(** A payload of that shape, but for its [tags]. *)
Definition payload_with_tags (tags : pyval) : pyval :=
  PDict
    [ ("scores",
       PDict [ ("numerisation", PNum (Num 10%Q));
               ("extraction", PNum (Num 0%Q));
               ("certification", PNum (Num 0%Q));
               ("mise_disposition", PNum (Num 0%Q)) ]);
      ("total_score", PNum (Num 10%Q));
      ("tags", tags);
      ("justification", PStr "");
      ("keywords_found", PList []) ].

(** The payload whose [tags] are the number 5. *)
Definition payload_with_bad_tags : pyval :=
  payload_with_tags (PNum (Num 5%Q)).

(** A whole number: an integer, whether Python holds it as an [int], a
    [bool] or a [float]. *)
Definition is_whole (v : pyval) : bool :=
  match as_num v with
  | Some (Num q) => Pos.eqb (Qden (Qred q)) 1
  | _ => false
  end.

(** The [scores] of the payload are whole numbers. On whole numbers
    between 0 and 25 the additions of [sum] are exact, on [int] and on
    [float] alike. *)
Definition whole_scores (analysis : pyval) : bool :=
  match analysis with
  | PDict d =>
      match dict_get "scores" d with
      | Some (PDict scores) => forallb is_whole (dict_values scores)
      | _ => false
      end
  | _ => false
  end.





(** A frame of one row whose description is the one of [acme] and whose
    page the remote scorer is asked about. *)
Definition one_row : list VivaTechAnalyzerV2.row :=
  [ VivaTechAnalyzerV2.Row
      "Acme" (AsyncWebScraper.UrlStr "https://acme.example")
      (Some "document OCR scan") [] ].

End Spec.

(* ===================================================================== *)
(** * Properties *)
(* ===================================================================== *)

(** ** MD5 test vectors (RFC 1321, appendix A.5) *)

Example md5_empty :
  MD5.hexdigest "" = "d41d8cd98f00b204e9800998ecf8427e".
Proof. vm_compute. reflexivity. Qed.

Example md5_abc :
  MD5.hexdigest "abc" = "900150983cd24fb0d6963f7d28e17f72".
Proof. vm_compute. reflexivity. Qed.

Example md5_message_digest :
  MD5.hexdigest "message digest" = "f96b697d7cb7938d525a2f31aaf161d0".
Proof. vm_compute. reflexivity. Qed.

Example md5_two_blocks :
  MD5.hexdigest
    "12345678901234567890123456789012345678901234567890123456789012345678901234567890"
  = "57edf4a22be3c955ac49da2e2107b67a".
Proof. vm_compute. reflexivity. Qed.

(** ** Strings *)

Section StringFacts.

Lemma lower_length s : String.length (PyStr.lower s) = String.length s.
Proof. induction s as [|c s IH]; simpl; congruence. Qed.

Lemma startswith_lower kw s :
  PyStr.startswith (PyStr.lower kw) (PyStr.lower s) = Spec.occurs_at kw s.
Proof.
  revert s. induction kw as [|a kw IH]; intros [|b s]; simpl; try reflexivity.
  rewrite IH. reflexivity.
Qed.

Lemma count_scan_lower kw skip s :
  PyStr.count_scan (PyStr.lower kw) skip (PyStr.lower s)
  = Spec.occurrences_from kw skip s.
Proof.
  revert skip. induction s as [|c s IH]; intros skip; [reflexivity|].
  change (PyStr.lower (String c s))
    with (String (PyStr.lower_char c) (PyStr.lower s)).
  cbn [PyStr.count_scan Spec.occurrences_from].
  destruct skip as [|k]; [|apply IH].
  change (String (PyStr.lower_char c) (PyStr.lower s))
    with (PyStr.lower (String c s)).
  rewrite startswith_lower, lower_length, !IH. reflexivity.
Qed.

(** [str.count] on the lowered text counts the occurrences up to case. *)
Lemma count_lower text kw :
  kw <> "" ->
  PyStr.count (PyStr.lower text) (PyStr.lower kw) = Spec.occurrences text kw.
Proof.
  intros Hkw. unfold PyStr.count, Spec.occurrences.
  destruct kw as [|a kw]; [congruence|].
  cbn [PyStr.lower].
  change (String (PyStr.lower_char a) (PyStr.lower kw))
    with (PyStr.lower (String a kw)).
  apply count_scan_lower.
Qed.

End StringFacts.

(** ** Dictionaries *)

Section DictFacts.
Context {V : Type}.
Implicit Types (d : list (string * V)) (k : string) (v : V).

Lemma dict_get_set_eq k v d : dict_get k (dict_set k v d) = Some v.
Proof.
  induction d as [|[k' v'] d IH]; simpl.
  - rewrite String.eqb_refl. reflexivity.
  - destruct (String.eqb k k') eqn:E; simpl.
    + rewrite String.eqb_refl. reflexivity.
    + rewrite E. exact IH.
Qed.

Lemma dict_get_set_ne k k' v d :
  k <> k' -> dict_get k' (dict_set k v d) = dict_get k' d.
Proof.
  intros Hne. induction d as [|[k0 v0] d IH]; simpl.
  - destruct (String.eqb k' k) eqn:E; [|reflexivity].
    apply String.eqb_eq in E. congruence.
  - destruct (String.eqb k k0) eqn:E; simpl.
    + apply String.eqb_eq in E. subst k0.
      destruct (String.eqb k' k) eqn:E'; [|reflexivity].
      apply String.eqb_eq in E'. congruence.
    + destruct (String.eqb k' k0); [reflexivity|exact IH].
Qed.

Lemma dict_get_map {W : Type} (f : V -> W) k d :
  dict_get k (map (fun '(k, n) => (k, f n)) d) = f <$> dict_get k d.
Proof.
  induction d as [|[k' v'] d IH]; simpl; [reflexivity|].
  destruct (String.eqb k k'); [reflexivity|exact IH].
Qed.
End DictFacts.

(** ** The keyword scorer *)

Section KeywordScorer.
Import ClaudeAnalyzer.

Lemma keyword_loop_from text keywords score0 found0 :
  fst (fold_left
         (fun '(score, criterion_keywords) keyword =>
            let count :=
              Z.of_nat (PyStr.count text (PyStr.lower keyword)) in
            if count >? 0
            then (score + count, criterion_keywords ++ [keyword])
            else (score, criterion_keywords))
         keywords (score0, found0))
  = score0 + Spec.counted text keywords.
Proof.
  revert score0 found0.
  induction keywords as [|kw keywords IH]; intros score0 found0; simpl.
  - lia.
  - destruct (Z.of_nat (PyStr.count text (PyStr.lower kw)) >? 0) eqn:E;
      rewrite IH; [lia|].
    assert (Z.of_nat (PyStr.count text (PyStr.lower kw)) = 0) by lia.
    lia.
Qed.

Lemma keyword_loop_score text keywords :
  fst (keyword_loop text keywords) = Spec.counted text keywords.
Proof. unfold keyword_loop. rewrite keyword_loop_from. lia. Qed.

Lemma counted_occurrences text keywords :
  Forall (fun kw => kw <> "") keywords ->
  Spec.counted (PyStr.lower text) keywords = Spec.total_occurrences text keywords.
Proof.
  induction 1 as [|kw keywords Hkw _ IH]; simpl; [reflexivity|].
  rewrite count_lower, IH by assumption. reflexivity.
Qed.

Lemma normalise_min score :
  normalise score = Num (Qmin (inject_Z score * (5 # 2)) 25).
Proof.
  unfold normalise, py_lt, Qmin, GenericMinMax.gmin.
  rewrite <- (Qcompare_antisym (inject_Z score * (5 # 2)) 25).
  destruct (inject_Z score * (5 # 2) ?= 25)%Q; reflexivity.
Qed.

Lemma criteria_loop_scores text :
  fst (criteria_loop text)
  = map (fun '(criterion, keywords) =>
           (criterion, normalise (fst (keyword_loop text keywords))))
        keywords_mapping.
Proof.
  unfold criteria_loop, keywords_mapping. cbn [fold_left map].
  repeat match goal with
         | |- context [keyword_loop text ?l] =>
             destruct (keyword_loop text l)
         end.
  reflexivity.
Qed.
End KeywordScorer.

Section FallbackScores.
Import ClaudeAnalyzer.

Lemma fallback_axis content description axis :
  Spec.axis_score (_fallback_analysis content description) axis
  = dict_get axis (fst (criteria_loop (PyStr.lower (Spec.combined content description)))).
Proof.
  unfold _fallback_analysis, Spec.combined.
  destruct (criteria_loop _) as [scores found]. cbn.
  rewrite dict_get_map. destruct (dict_get axis scores); reflexivity.
Qed.

(** C6. For every content and description, the score that the keyword
    scorer gives to each of the four axes is [min (2.5 * N) 25], where [N]
    is the number of occurrences, up to case, of the keywords of the axis
    in the combined text, counted keyword by keyword from left to right
    without overlap. *)
Theorem fallback_axis_score_formula content description :
  Forall (fun '(axis, keywords) =>
            Spec.axis_score (_fallback_analysis content description) axis
            = Some (Num (Qmin (inject_Z (Spec.total_occurrences
                                           (Spec.combined content description)
                                           keywords) * (5 # 2)) 25)))
         keywords_mapping.
Proof.
  set (text := Spec.combined content description).
  assert (Hall : forall axis,
    Spec.axis_score (_fallback_analysis content description) axis
    = dict_get axis
        (map (fun '(criterion, keywords) =>
                (criterion,
                 Num (Qmin (inject_Z (Spec.counted (PyStr.lower text) keywords)
                            * (5 # 2)) 25)))
             keywords_mapping)).
  { intros axis. rewrite fallback_axis, criteria_loop_scores. fold text.
    f_equal. apply map_ext. intros [criterion keywords].
    rewrite keyword_loop_score, normalise_min. reflexivity. }
  unfold keywords_mapping in *.
  repeat apply Forall_cons_2; try apply Forall_nil_2; rewrite Hall;
    cbn [map dict_get String.eqb Ascii.eqb Bool.eqb];
    (rewrite counted_occurrences;
     [reflexivity | repeat constructor; discriminate]).
Qed.
End FallbackScores.

(** ** Clamping *)

Section Clamp.

Lemma py_lt_Num p q : py_lt (Num p) (Num q) = true <-> (p < q)%Q.
Proof.
  unfold py_lt. rewrite Qlt_alt.
  destruct (p ?= q)%Q; split; congruence.
Qed.

Lemma py_lt_Num_false p q : py_lt (Num p) (Num q) = false <-> (q <= p)%Q.
Proof.
  pose proof (py_lt_Num p q) as H.
  destruct (py_lt (Num p) (Num q)); split; intros Hx; try congruence.
  - apply Qle_not_lt in Hx. destruct Hx. apply H. reflexivity.
  - apply Qnot_lt_le. intros Hlt. apply H in Hlt. discriminate.
Qed.

(** [max(0, min(25, v))] is a number between 0 and 25 whenever it does
    not raise. *)
Lemma clamp_in_range v m x :
  py_min (PNum (Num 25%Q)) v = Ok m ->
  py_max (PNum (Num 0%Q)) m = Ok x ->
  exists n, as_num x = Some n /\ Spec.in_range n.
Proof.
  unfold py_min, py_max. cbn [as_num].
  destruct (as_num v) as [nv|] eqn:Hv; [|discriminate].
  intros Hm. injection Hm as <-.
  destruct (py_lt nv (Num 25%Q)) eqn:Hlt.
  - rewrite Hv. destruct (py_lt (Num 0%Q) nv) eqn:Hgt;
      intros Hx; injection Hx as <-.
    + exists nv. split; [exact Hv|].
      destruct nv as [q| | |]; try discriminate.
      apply py_lt_Num in Hlt, Hgt. simpl. split; apply Qlt_le_weak; assumption.
    + exists (Num 0%Q). split; [reflexivity|]. simpl. split; [apply Qle_refl|discriminate].
  - cbn [as_num]. intros Hx. injection Hx as <-.
    exists (Num 25%Q). split; [reflexivity|]. simpl. split; [discriminate|apply Qle_refl].
Qed.

Lemma normalise_in_range score :
  0 <= score -> Spec.in_range (ClaudeAnalyzer.normalise score).
Proof.
  intros Hs. unfold ClaudeAnalyzer.normalise.
  destruct (py_lt _ _) eqn:E; simpl.
  - split; [discriminate|apply Qle_refl].
  - apply py_lt_Num_false in E. split; [|exact E].
    apply Qmult_le_0_compat; [|discriminate].
    change 0%Q with (inject_Z 0). rewrite <- Zle_Qle. exact Hs.
Qed.

Lemma counted_nonneg text keywords : 0 <= Spec.counted text keywords.
Proof. induction keywords; simpl; lia. Qed.

End Clamp.
(** ** The remote path *)

Section RemotePath.
Import ClaudeAnalyzer.

Lemma bind_inv {A B : Type} (m : result A) (k : A -> result B) b :
  m ≫= k = Ok b -> exists a, m = Ok a /\ k a = Ok b.
Proof. destruct m as [a|e]; [eauto|discriminate]. Qed.

Lemma getitem_inv obj key v :
  getitem obj key = Ok v -> exists d, obj = PDict d /\ dict_get key d = Some v.
Proof.
  destruct obj as [| | | | |d]; try discriminate. simpl.
  destruct (dict_get key d) as [v'|] eqn:E; [|discriminate].
  intros H. injection H as ->. eauto.
Qed.

Lemma setitem_inv obj key v obj' :
  setitem obj key v = Ok obj' ->
  exists d, obj = PDict d /\ obj' = PDict (dict_set key v d).
Proof.
  destruct obj as [| | | | |d]; try discriminate. simpl.
  intros H. injection H as <-. eauto.
Qed.

Lemma as_num_is_number v : is_Some (as_num v) <-> Spec.is_number v = true.
Proof.
  destruct v; simpl; split; intros H; try discriminate; try reflexivity;
    try (destruct H; discriminate); eauto.
Qed.

Lemma validate_key_inv analysis key analysis' :
  validate_key analysis key = Ok analysis' ->
  exists d scores x n,
    analysis = PDict d /\ dict_get "scores" d = Some (PDict scores)
    /\ analysis' = PDict (dict_set "scores" (PDict (dict_set key x scores)) d)
    /\ as_num x = Some n /\ Spec.in_range n
    /\ (forall v, dict_get key scores = Some v -> Spec.is_number v = true).
Proof.
  unfold validate_key. intros H.
  apply bind_inv in H as (sc & Hsc & H).
  apply bind_inv in H as (present & Hin & H).
  apply getitem_inv in Hsc as (d & -> & Hsc).
  destruct (negb present) eqn:Hp.
  - apply bind_inv in H as (sc' & Hset & H).
    apply setitem_inv in Hset as (scores & -> & ->).
    apply setitem_inv in H as (d' & Hd & ->). injection Hd as <-.
    cbn in Hin. injection Hin as <-.
    exists d, scores, (PNum (Num 0%Q)), (Num 0%Q).
    repeat split; try reflexivity; try assumption.
    + apply Qle_refl.
    + discriminate.
    + intros v Hv. rewrite Hv, bool_decide_eq_true_2 in Hp by eauto.
      discriminate.
  - apply bind_inv in H as (v & Hv & H).
    apply bind_inv in H as (m & Hm & H).
    apply bind_inv in H as (x & Hx & H).
    apply bind_inv in H as (sc' & Hset & H).
    apply setitem_inv in Hset as (scores & -> & ->).
    apply setitem_inv in H as (d' & Hd & ->). injection Hd as <-.
    destruct (clamp_in_range _ _ _ Hm Hx) as (n & Hn & Hr).
    exists d, scores, x, n. repeat split; try assumption.
    intros v' Hv'. cbn in Hv. rewrite Hv' in Hv. injection Hv as ->.
    apply as_num_is_number. unfold py_min in Hm. cbn [as_num] in Hm.
    destruct (as_num v); [eauto|discriminate].
Qed.

Lemma axis_score_after_set d scores key x k :
  Spec.axis_score
    (PDict (dict_set "scores" (PDict (dict_set key x scores)) d)) k
  = if String.eqb key k then as_num x else dict_get k scores ≫= as_num.
Proof.
  unfold Spec.axis_score. rewrite dict_get_set_eq.
  destruct (String.eqb key k) eqn:E.
  - apply String.eqb_eq in E. subst k. rewrite dict_get_set_eq. reflexivity.
  - apply String.eqb_neq in E. rewrite dict_get_set_ne by assumption.
    reflexivity.
Qed.

Lemma validate_key_ok analysis key analysis' :
  validate_key analysis key = Ok analysis' ->
  Spec.axis_ok analysis' key
  /\ forall k, Spec.axis_ok analysis k -> Spec.axis_ok analysis' k.
Proof.
  intros H.
  destruct (validate_key_inv _ _ _ H) as (d & scores & x & n & -> & Hsc & -> & Hn & Hr & _).
  split.
  - exists n. rewrite axis_score_after_set, String.eqb_refl. auto.
  - intros k (n' & Hk & Hr'). unfold Spec.axis_ok.
    rewrite axis_score_after_set.
    destruct (String.eqb key k); [eauto|].
    exists n'. split; [|assumption].
    unfold Spec.axis_score in Hk. rewrite Hsc in Hk. exact Hk.
Qed.

Lemma validate_scores_ok keys : forall analysis analysis',
  validate_scores analysis keys = Ok analysis' ->
  Forall (Spec.axis_ok analysis') keys
  /\ forall k, Spec.axis_ok analysis k -> Spec.axis_ok analysis' k.
Proof.
  induction keys as [|key keys IH]; intros analysis analysis' H.
  - injection H as <-. split; [constructor|auto].
  - cbn [validate_scores] in H.
    apply bind_inv in H as (a1 & H1 & H).
    destruct (validate_key_ok _ _ _ H1) as [Hkey Hkeep].
    destruct (IH _ _ H) as [Hall Hkeep'].
    split; [constructor; auto|auto].
Qed.

(** The parts of a reply that goes through the [try] without raising. *)
Lemma remote_analysis_inv reply analysis' :
  remote_analysis reply = Ok analysis' ->
  exists analysis d scores total,
    reply = Parsed analysis
    /\ validate_scores analysis criteria = Ok (PDict d)
    /\ dict_get "scores" d = Some (PDict scores)
    /\ py_sum (dict_values scores) = Ok total
    /\ analysis' = PDict (dict_set "total_score" total d).
Proof.
  unfold remote_analysis. intros H.
  apply bind_inv in H as (analysis & Hr & H).
  apply bind_inv in H as (validated & Hv & H).
  apply bind_inv in H as (sc & Hsc & H).
  apply bind_inv in H as (values & Hvals & H).
  apply bind_inv in H as (total & Ht & H).
  apply getitem_inv in Hsc as (d & -> & Hsc).
  apply setitem_inv in H as (d' & Hd & ->). injection Hd as <-.
  destruct sc as [| | | | |scores]; try discriminate. injection Hvals as <-.
  destruct reply as [msg| | |a]; try discriminate. injection Hr as ->.
  exists analysis, d, scores, total. repeat split; assumption.
Qed.

(** On the remote path every one of the four axes is clamped. *)
Lemma remote_axes_in_range reply analysis :
  remote_analysis reply = Ok analysis ->
  Forall (Spec.axis_ok analysis) criteria.
Proof.
  intros H.
  destruct (remote_analysis_inv _ _ H)
    as (a0 & d & scores & total & -> & Hv & Hsc & Ht & ->).
  destruct (validate_scores_ok _ _ _ Hv) as [Hall _].
  eapply Forall_impl; [exact Hall|].
  intros k (n & Hk & Hr). exists n. split; [|assumption].
  unfold Spec.axis_score in *.
  rewrite dict_get_set_ne by discriminate. exact Hk.
Qed.

(** The total of the remote path is the sum of every value of the
    [scores] dict of the reply, whatever its keys. *)
Lemma remote_total_sums_all_values reply analysis :
  remote_analysis reply = Ok analysis ->
  exists d scores ns,
    analysis = PDict d
    /\ dict_get "scores" d = Some (PDict scores)
    /\ nums_of (dict_values scores) = Ok ns
    /\ Spec.total_of analysis = Some (sum_nums ns).
Proof.
  intros H.
  destruct (remote_analysis_inv _ _ H)
    as (a0 & d & scores & total & -> & Hv & Hsc & Ht & ->).
  unfold py_sum in Ht. apply bind_inv in Ht as (ns & Hns & Ht).
  injection Ht as <-.
  exists (dict_set "total_score" (PNum (sum_nums ns)) d), scores, ns.
  repeat split.
  - rewrite dict_get_set_ne by discriminate. exact Hsc.
  - exact Hns.
  - unfold Spec.total_of. rewrite dict_get_set_eq. reflexivity.
Qed.

Lemma fallback_axes_in_range content description :
  Forall (Spec.axis_ok (_fallback_analysis content description)) criteria.
Proof.
  assert (H : forall axis, In axis criteria ->
            Spec.axis_ok (_fallback_analysis content description) axis).
  { intros axis Hin. unfold Spec.axis_ok.
    rewrite fallback_axis, criteria_loop_scores.
    unfold keywords_mapping, criteria in *. cbn [map dict_get].
    repeat (destruct Hin as [<-|Hin];
            [cbn [String.eqb Ascii.eqb Bool.eqb];
             eexists; split; [reflexivity|];
             rewrite keyword_loop_score; apply normalise_in_range,
               counted_nonneg|]).
    destruct Hin. }
  apply Forall_forall. intros axis Hin. apply H, list_elem_of_In, Hin.
Qed.

(** Whatever the path and the reply, the four axes are within range. *)
Lemma axes_in_range self reply content description company_name :
  Forall (Spec.axis_ok
            (analyze_startup_relevance self reply content description
                                       company_name))
         criteria.
Proof.
  unfold analyze_startup_relevance.
  destruct (negb (enabled self)); [apply fallback_axes_in_range|].
  destruct (remote_analysis reply) eqn:H;
    [eapply remote_axes_in_range; eassumption|apply fallback_axes_in_range].
Qed.

(** The total of the keyword scorer is the sum of its four scores. *)
Lemma fallback_total content description :
  exists n1 n2 n3 n4,
    let analysis := _fallback_analysis content description in
    Spec.axis_score analysis "numerisation" = Some n1
    /\ Spec.axis_score analysis "extraction" = Some n2
    /\ Spec.axis_score analysis "certification" = Some n3
    /\ Spec.axis_score analysis "mise_disposition" = Some n4
    /\ Spec.total_of analysis = Some (sum_nums [n1; n2; n3; n4]).
Proof.
  pose proof (criteria_loop_scores
                (PyStr.lower (Spec.combined content description))) as Hs.
  unfold keywords_mapping in Hs. cbn [map] in Hs.
  do 4 eexists. cbn zeta.
  rewrite !fallback_axis, Hs. cbn [dict_get String.eqb Ascii.eqb Bool.eqb].
  repeat (split; [reflexivity|]).
  unfold _fallback_analysis. fold (Spec.combined content description).
  destruct (criteria_loop _) as [scores found]. cbn [fst] in Hs. subst scores.
  reflexivity.
Qed.

(** *** Which replies make the remote path raise *)

Lemma nums_of_ok vs :
  (exists ns, nums_of vs = Ok ns) <-> forallb Spec.is_number vs = true.
Proof.
  induction vs as [|v vs IH]; simpl.
  - split; eauto.
  - rewrite andb_true_iff, <- IH, <- as_num_is_number.
    destruct (as_num v) as [n|]; split.
    + intros [ns H]. apply bind_inv in H as (ns' & H & _). eauto.
    + intros [_ [ns ->]]. cbn. eauto.
    + intros [ns H]. discriminate.
    + intros [[n H] _]. discriminate.
Qed.

Lemma numbers_after_set key x (scores : list (string * pyval)) :
  forallb Spec.is_number (dict_values scores) = true ->
  Spec.is_number x = true ->
  forallb Spec.is_number (dict_values (dict_set key x scores)) = true.
Proof.
  intros Hs Hx. induction scores as [|[k v] scores IH]; simpl in *.
  - rewrite Hx. reflexivity.
  - apply andb_true_iff in Hs as [Hv Hs].
    destruct (String.eqb key k); simpl; rewrite ?Hx, ?Hv; auto.
Qed.

Lemma numbers_before_set key x (scores : list (string * pyval)) :
  forallb Spec.is_number (dict_values (dict_set key x scores)) = true ->
  (forall v, dict_get key scores = Some v -> Spec.is_number v = true) ->
  forallb Spec.is_number (dict_values scores) = true.
Proof.
  induction scores as [|[k v] scores IH]; simpl; [reflexivity|].
  destruct (String.eqb key k); simpl; intros H Hv;
    apply andb_true_iff in H as [H1 H2].
  - rewrite (Hv v eq_refl), H2. reflexivity.
  - rewrite H1, IH; auto.
Qed.

Lemma number_in_dict key v (scores : list (string * pyval)) :
  forallb Spec.is_number (dict_values scores) = true ->
  dict_get key scores = Some v -> Spec.is_number v = true.
Proof.
  induction scores as [|[k v'] scores IH]; simpl; [discriminate|].
  intros H. apply andb_true_iff in H as [H1 H2].
  destruct (String.eqb key k); [congruence|auto].
Qed.

Lemma numeric_scores_after_set d scores scores' :
  dict_get "scores" d = Some (PDict scores) ->
  Spec.numeric_scores (PDict (dict_set "scores" (PDict scores') d))
  = forallb Spec.is_number (dict_values scores').
Proof. intros _. unfold Spec.numeric_scores. rewrite dict_get_set_eq. reflexivity. Qed.

Lemma validate_key_numeric_scores analysis key analysis' :
  validate_key analysis key = Ok analysis' ->
  Spec.numeric_scores analysis' = true -> Spec.numeric_scores analysis = true.
Proof.
  intros H.
  destruct (validate_key_inv _ _ _ H)
    as (d & scores & x & n & -> & Hsc & -> & Hn & Hr & Hold).
  rewrite (numeric_scores_after_set _ scores) by assumption.
  intros Hall. unfold Spec.numeric_scores. rewrite Hsc.
  eapply numbers_before_set; eassumption.
Qed.

Lemma validate_scores_numeric_scores keys : forall analysis analysis',
  validate_scores analysis keys = Ok analysis' ->
  Spec.numeric_scores analysis' = true -> Spec.numeric_scores analysis = true.
Proof.
  induction keys as [|key keys IH]; intros analysis analysis' H.
  - injection H as <-. auto.
  - cbn [validate_scores] in H. apply bind_inv in H as (a1 & H1 & H).
    intros Hw. eapply validate_key_numeric_scores; [exact H1|].
    eapply IH; eassumption.
Qed.

Lemma validate_key_total analysis key :
  Spec.numeric_scores analysis = true ->
  exists analysis',
    validate_key analysis key = Ok analysis'
    /\ Spec.numeric_scores analysis' = true.
Proof.
  unfold Spec.numeric_scores at 1.
  destruct analysis as [| | | | |d]; try discriminate.
  destruct (dict_get "scores" d) as [[| | | | |scores]|] eqn:Hsc;
    try discriminate.
  intros Hall. unfold validate_key. cbn [getitem]. rewrite Hsc.
  cbn [mbind result_bind py_in].
  destruct (dict_get key scores) as [v|] eqn:Hv.
  - rewrite bool_decide_eq_true_2 by eauto. cbn [negb getitem].
    rewrite Hv. cbn [mbind result_bind].
    pose proof (number_in_dict _ _ _ Hall Hv) as Hnum.
    apply as_num_is_number in Hnum as [nv Hnv].
    unfold py_min, py_max. cbn [as_num]. rewrite Hnv.
    cbn [mbind result_bind].
    set (m := if py_lt nv (Num 25%Q) then v else PNum (Num 25%Q)).
    assert (Hm : exists nm, as_num m = Some nm).
    { subst m. destruct (py_lt nv (Num 25%Q)); cbn; eauto. }
    destruct Hm as [nm Hm]. rewrite Hm. cbn [mbind result_bind setitem].
    eexists. split; [reflexivity|].
    rewrite (numeric_scores_after_set _ scores) by assumption.
    apply numbers_after_set; [assumption|].
    apply as_num_is_number.
    destruct (py_lt (Num 0%Q) nm); cbn; eauto.
  - rewrite bool_decide_eq_false_2 by (intros [? ?]; discriminate).
    cbn [negb setitem mbind result_bind].
    eexists. split; [reflexivity|].
    rewrite (numeric_scores_after_set _ scores) by assumption.
    apply numbers_after_set; [assumption|reflexivity].
Qed.

Lemma validate_scores_total keys : forall analysis,
  Spec.numeric_scores analysis = true ->
  exists analysis',
    validate_scores analysis keys = Ok analysis'
    /\ Spec.numeric_scores analysis' = true.
Proof.
  induction keys as [|key keys IH]; intros analysis Hw.
  - exists analysis. split; [reflexivity|assumption].
  - destruct (validate_key_total analysis key Hw) as (a1 & H1 & Hw1).
    destruct (IH a1 Hw1) as (a2 & H2 & Hw2).
    exists a2. cbn [validate_scores]. rewrite H1. cbn [mbind result_bind].
    split; assumption.
Qed.

(** The [try] goes through on the well-formed payloads and on them only. *)
Lemma remote_analysis_ok_iff reply :
  (exists analysis', remote_analysis reply = Ok analysis')
  <-> exists analysis, reply = Parsed analysis
                       /\ Spec.numeric_scores analysis = true.
Proof.
  split.
  - intros [analysis' H].
    destruct (remote_analysis_inv _ _ H)
      as (a0 & d & scores & total & -> & Hv & Hsc & Ht & ->).
    exists a0. split; [reflexivity|].
    eapply validate_scores_numeric_scores; [exact Hv|].
    unfold Spec.numeric_scores. rewrite Hsc.
    unfold py_sum in Ht. apply bind_inv in Ht as (ns & Hns & _).
    apply nums_of_ok. eauto.
  - intros (analysis & -> & Hw).
    destruct (validate_scores_total criteria analysis Hw) as (a1 & H1 & Hw1).
    unfold remote_analysis. cbn [mbind result_bind]. rewrite H1.
    cbn [mbind result_bind].
    unfold Spec.numeric_scores in Hw1.
    destruct a1 as [| | | | |d]; try discriminate. cbn [getitem].
    destruct (dict_get "scores" d) as [[| | | | |scores]|]; try discriminate.
    cbn [mbind result_bind].
    apply nums_of_ok in Hw1 as [ns Hns]. unfold py_sum. rewrite Hns.
    cbn. eauto.
Qed.

(** Every failure of the remote call raises inside the [try]. *)
Lemma remote_failure_raises reply :
  Spec.remote_failure reply -> exists e, remote_analysis reply = Raise e.
Proof.
  intros [msg| | |analysis Hw]; try (eexists; reflexivity).
  destruct (remote_analysis (Parsed analysis)) as [analysis'|e] eqn:H; [|eauto].
  assert (Hok : exists a, Parsed analysis = Parsed a
                          /\ Spec.numeric_scores a = true).
  { apply remote_analysis_ok_iff. eauto. }
  destruct Hok as (a & Ha & Hwa). injection Ha as <-. congruence.
Qed.

End RemotePath.

(** ** The scorer: fallback, failures and the company name *)

Section ScorerClaims.
Import ClaudeAnalyzer.

(** C3, at a reply that the remote path accepts. The reply gives the four
    axes 10, 0, 0 and 0 and a fifth key 100: the four axes stay within
    range, and the total that the scorer recomputes is 110, the sum over
    every key of the reply, not the sum 10 of the four axes. *)
Theorem remote_total_counts_extra_keys :
  let analysis :=
    analyze_startup_relevance (ClaudeAnalyzer.Make true) Spec.reply_with_extra_key
                              "" "" "Acme" in
  Spec.axis_score analysis "numerisation" = Some (Num 10%Q)
  /\ Spec.axis_score analysis "extraction" = Some (Num 0%Q)
  /\ Spec.axis_score analysis "certification" = Some (Num 0%Q)
  /\ Spec.axis_score analysis "mise_disposition" = Some (Num 0%Q)
  /\ Spec.total_of analysis = Some (Num 110%Q)
  /\ Spec.total_of analysis
     <> Some (sum_nums [Num 10%Q; Num 0%Q; Num 0%Q; Num 0%Q]).
Proof. vm_compute. repeat split; discriminate. Qed.

(** The failures that are demoted. Whenever the remote call fails in the
    [try] (the call raises, as it does on a transport error or a
    non-success status, the response has no text, the text is
    unparseable, or the payload has no numeric [scores]), the scorer
    returns the result of the keyword scorer for the same content and
    description; being a total function it never raises. *)
Lemma remote_failure_falls_back self reply content description
        company_name :
  Spec.remote_failure reply ->
  analyze_startup_relevance self reply content description company_name
  = _fallback_analysis content description.
Proof.
  intros Hfail. apply remote_failure_raises in Hfail as [e He].
  unfold analyze_startup_relevance. rewrite He.
  destruct (negb (enabled self)); reflexivity.
Qed.

Lemma remote_failure_falls_back_witness :
  Spec.remote_failure (Parsed (PDict [("scores", PStr "high")]))
  /\ analyze_startup_relevance
       (ClaudeAnalyzer.Make true) (Parsed (PDict [("scores", PStr "high")]))
       "ocr" "scan" "Acme"
     = _fallback_analysis "ocr" "scan".
Proof.
  assert (H : Spec.remote_failure (Parsed (PDict [("scores", PStr "high")]))).
  { apply Spec.malformed. reflexivity. }
  split; [exact H|].
  apply (remote_failure_falls_back _ _ "ocr" "scan" "Acme" H).
Defined.

(** The failures of the remote call: each of them raises in the [try]. *)
Lemma remote_failures_raise :
  (forall msg, remote_analysis (ApiRaises msg) = Raise (APIError msg))
  /\ remote_analysis BadContent = Raise IndexError
  /\ remote_analysis Unparseable = Raise JSONDecodeError
  /\ (forall v, (forall d, v <> PDict d) ->
                remote_analysis (Parsed v) = Raise TypeError)
  /\ (forall d, dict_get "scores" d = None ->
                remote_analysis (Parsed (PDict d)) = Raise (KeyError "scores"))
  /\ (forall d s, dict_get "scores" d = Some (PDict [("numerisation", PStr s)]) ->
                  remote_analysis (Parsed (PDict d)) = Raise TypeError).
Proof.
  repeat split; try reflexivity.
  - intros v Hv. destruct v; try reflexivity. destruct (Hv d). reflexivity.
  - intros d Hd. unfold remote_analysis. cbn. rewrite Hd. reflexivity.
  - intros d s Hd. unfold remote_analysis. cbn. rewrite Hd. reflexivity.
Qed.

(** C10. With the remote scorer disabled the result does not depend on
    the company name (nor on anything the remote service would answer):
    two calls on the same content and description return equal results. *)
Theorem disabled_scorer_ignores_name self reply1 reply2 content description
        n1 n2 :
  enabled self = false ->
  analyze_startup_relevance self reply1 content description n1
  = analyze_startup_relevance self reply2 content description n2.
Proof.
  intros H. unfold analyze_startup_relevance. rewrite H. reflexivity.
Qed.

Lemma disabled_scorer_ignores_name_witness :
  analyze_startup_relevance (init None) BadContent "ocr" "scan" "Acme"
  = analyze_startup_relevance (init None) (ApiRaises "") "ocr" "scan" "Globex".
Proof. apply disabled_scorer_ignores_name. reflexivity. Defined.
End ScorerClaims.

(** ** The cache manager *)

Section CacheFacts.
Context {Content : Type}.
Implicit Types (self : CacheManager.t Content) (content : Content).

Lemma get_after_put self t_put t_get url content :
  CacheManager.get_cached_content
    (CacheManager.cache_content self t_put url content) t_get url
  = if t_get - t_put <? CacheManager.cache_duration self
    then Some content else None.
Proof.
  unfold CacheManager.get_cached_content, CacheManager.cache_content.
  cbn [CacheManager.cache CacheManager.cache_duration].
  rewrite lookup_insert_eq. reflexivity.
Qed.

(** C5. For every cache manager, URL and payload, [cache_content] at
    [t_put] followed by [get_cached_content] at [t_get] on the same URL
    returns the payload as it was stored when less than the cache
    duration has elapsed, and nothing once the duration has elapsed. *)
Theorem put_get_roundtrip self t_put t_get url content :
  (t_get - t_put < CacheManager.cache_duration self ->
   CacheManager.get_cached_content
     (CacheManager.cache_content self t_put url content) t_get url
   = Some content)
  /\ (CacheManager.cache_duration self <= t_get - t_put ->
      CacheManager.get_cached_content
        (CacheManager.cache_content self t_put url content) t_get url
      = None).
Proof.
  rewrite get_after_put. split; intros H.
  - apply Z.ltb_lt in H. rewrite H. reflexivity.
  - apply Z.ltb_ge in H. rewrite H. reflexivity.
Qed.

Lemma get_other_key self t_put t_get url url' content :
  CacheManager.get_cache_key url <> CacheManager.get_cache_key url' ->
  CacheManager.get_cached_content
    (CacheManager.cache_content self t_put url content) t_get url'
  = CacheManager.get_cached_content self t_get url'.
Proof.
  intros Hne.
  unfold CacheManager.get_cached_content, CacheManager.cache_content.
  cbn [CacheManager.cache CacheManager.cache_duration].
  rewrite lookup_insert_ne by assumption. reflexivity.
Qed.
End CacheFacts.

Lemma put_get_roundtrip_witness :
  let cm := CacheManager.init (∅ : gmap string (CacheManager.cache_data string)) 7 in
  CacheManager.get_cached_content
    (CacheManager.cache_content cm 0 "http://test.com/page" "Some data")
    (6 * CacheManager.microseconds_per_day) "http://test.com/page"
  = Some "Some data"
  /\ CacheManager.get_cached_content
       (CacheManager.cache_content cm 0 "http://test.com/page" "Some data")
       (7 * CacheManager.microseconds_per_day) "http://test.com/page"
     = None.
Proof.
  split.
  - apply (proj1 (put_get_roundtrip _ 0 _ _ _)). vm_compute. reflexivity.
  - apply (proj2 (put_get_roundtrip _ 0 _ _ _)). vm_compute. discriminate.
Defined.
(** ** One fetch *)

Section SingleFetch.
Import AsyncWebScraper.

Lemma lookup_phase_inl self env url r :
  lookup_phase self env url = inl r ->
  r = failure "URL manquante" (Some url) "failed"
  \/ exists cached_content, r = with_status cached_content "cached".
Proof.
  unfold lookup_phase. destruct url as [|[|c u]].
  - intros H. injection H as <-. left. reflexivity.
  - intros H. injection H as <-. left. reflexivity.
  - destruct (_ ≫= _) as [cached|]; [|discriminate].
    intros H. injection H as <-. right. eauto.
Qed.

Lemma fetch_phase_cases cm env u :
  (exists soup_title soup_text,
      reply env = Response 200 soup_title soup_text
      /\ status (fst (fetch_phase cm env u)) = "success")
  \/ ((status (fst (fetch_phase cm env u)) = "failed"
       \/ status (fst (fetch_phase cm env u)) = "timeout")
      /\ content (fst (fetch_phase cm env u)) = ""
      /\ snd (fetch_phase cm env u) = cm).
Proof.
  unfold fetch_phase. destruct (reply env) as [code soup_title soup_text| |msg].
  - destruct (code =? 200) eqn:E.
    + apply Z.eqb_eq in E. subst code. left. eauto.
    + right. cbn. auto.
  - right. cbn. auto.
  - right. cbn. auto.
Qed.

(** A fetch that ends with status [failed] or [timeout] has an empty
    content and leaves the cache manager as it found it. *)
Lemma failure_status_leaves_cache self env url :
  let r := scrape_single_website self env url in
  status (outcome r) = "failed" \/ status (outcome r) = "timeout" ->
  content (outcome r) = "" /\ cache_manager_after r = cache_manager self.
Proof.
  cbn zeta. unfold scrape_single_website, run_task.
  destruct (lookup_phase self env url) as [r|u] eqn:Hl.
  - cbn [outcome cache_manager_after]. intros Hst.
    apply lookup_phase_inl in Hl as [->|[cached ->]].
    + split; reflexivity.
    + cbn in Hst. destruct Hst; discriminate.
  - pose proof (fetch_phase_cases (cache_manager self) env u) as Hf.
    destruct (fetch_phase (cache_manager self) env u) as [result cm'].
    cbn [outcome cache_manager_after fst snd] in *. intros Hst.
    destruct Hf as [(soup_title & soup_text & _ & Hs)|(_ & Hc & Hcm)].
    + rewrite Hs in Hst. destruct Hst; discriminate.
    + split; assumption.
Qed.

Lemma fetch_failure_status self env url :
  Spec.fetch_failure self env url ->
  let r := scrape_single_website self env url in
  status (outcome r) = "failed" \/ status (outcome r) = "timeout".
Proof.
  cbn zeta. unfold scrape_single_website, run_task, lookup_phase, Spec.not_cached.
  intros [ | |u Hmiss Hr|u code soup_title soup_text Hmiss Hr Hcode|u msg Hmiss Hr];
    try (left; reflexivity);
    (destruct u as [|c u']; [left; reflexivity|]);
    rewrite Hmiss; unfold fetch_phase; rewrite Hr.
  - right. reflexivity.
  - apply Z.eqb_neq in Hcode. rewrite Hcode. left. reflexivity.
  - left. reflexivity.
Qed.

(** C8. For every target whose fetch fails (the URL is missing or blank,
    or the GET times out, answers with a status other than 200, or
    raises), the outcome has a failure status and an empty content, and
    the cache manager is the one the fetch started from: nothing was
    written. *)
Theorem failed_fetch_leaves_cache self env url :
  Spec.fetch_failure self env url ->
  let r := scrape_single_website self env url in
  (status (outcome r) = "failed" \/ status (outcome r) = "timeout")
  /\ content (outcome r) = ""
  /\ cache_manager_after r = cache_manager self.
Proof.
  intros Hfail. cbn zeta.
  pose proof (fetch_failure_status _ _ _ Hfail) as Hst.
  split; [exact Hst|].
  apply failure_status_leaves_cache. exact Hst.
Qed.

Lemma failed_fetch_leaves_cache_witness :
  let self := AsyncWebScraper.Make 20 (Some (CacheManager.init ∅ 7)) 10 in
  let env := FetchEnv 0 (Response 503 None "") 1 1 1 in
  let r := scrape_single_website self env (UrlStr "example.com") in
  Spec.fetch_failure self env (UrlStr "example.com")
  /\ (status (outcome r) = "failed" \/ status (outcome r) = "timeout")
  /\ content (outcome r) = ""
  /\ cache_manager_after r = cache_manager self.
Proof.
  cbn zeta.
  assert (H : Spec.fetch_failure
                (AsyncWebScraper.Make 20 (Some (CacheManager.init ∅ 7)) 10)
                (FetchEnv 0 (Response 503 None "") 1 1 1)
                (UrlStr "example.com")).
  { eapply Spec.get_status; [vm_compute; reflexivity|reflexivity|discriminate]. }
  split; [exact H|].
  apply (failed_fetch_leaves_cache _ _ _ H).
Defined.

(** Each way of failing ends in one of the two failure statuses, and the
    cache manager only changes on a 200. *)
Lemma failure_statuses self env url :
  let r := scrape_single_website self env url in
  (url = UrlMissing \/ url = UrlStr "" -> status (outcome r) = "failed")
  /\ (forall u, lookup_phase self env url = inr u ->
        (reply env = TimeoutError -> status (outcome r) = "timeout")
        /\ (forall msg, reply env = OtherException msg ->
              status (outcome r) = "failed" /\ error (outcome r) = Some msg)
        /\ (forall code soup_title soup_text,
              reply env = Response code soup_title soup_text -> code <> 200 ->
              status (outcome r) = "failed"
              /\ error (outcome r) = Some ("HTTP " +:+ pretty code)))
  /\ (cache_manager_after r <> cache_manager self ->
      status (outcome r) = "success"
      /\ exists soup_title soup_text,
           reply env = Response 200 soup_title soup_text).
Proof.
  cbn zeta. unfold scrape_single_website, run_task. split; [|split].
  - intros [->| ->]; reflexivity.
  - intros u Hu. rewrite Hu. unfold fetch_phase. split; [|split].
    + intros Ht. rewrite Ht. reflexivity.
    + intros msg Hr. rewrite Hr. split; reflexivity.
    + intros code soup_title soup_text Hr Hcode. rewrite Hr.
      apply Z.eqb_neq in Hcode. rewrite Hcode. split; reflexivity.
  - destruct (lookup_phase self env url) as [r|u];
      [intros Hne; destruct Hne; reflexivity|].
    pose proof (fetch_phase_cases (cache_manager self) env u) as Hf.
    destruct (fetch_phase (cache_manager self) env u) as [result cm'].
    cbn [outcome cache_manager_after fst snd] in *. intros Hne.
    destruct Hf as [(soup_title & soup_text & Hr & Hs)|(_ & _ & Hcm)];
      [eauto|congruence].
Qed.
End SingleFetch.

(** ** The cache short-circuit *)

Section CacheShortCircuit.
Import AsyncWebScraper.

(** C2, at a URL written without its scheme. [example.com] is fetched
    with a 200 and cached under the key of [https://example.com], the
    cleaned URL; two microseconds later the same target is looked up under
    the key of [example.com], the URL as given, which is another key: the
    lookup misses and the second fetch sends a GET again and comes back
    with status [success], not [cached]. *)
Theorem schemeless_url_is_fetched_again :
  status (outcome Spec.first_fetch) = "success"
  /\ (cm ← cache_manager_after Spec.first_fetch;
      CacheManager.get_cached_content cm 2 "https://example.com")
     = Some (outcome Spec.first_fetch)
  /\ (cm ← cache_manager_after Spec.first_fetch;
      CacheManager.get_cached_content cm 2 "example.com") = None
  /\ CacheManager.get_cache_key "example.com"
     <> CacheManager.get_cache_key "https://example.com"
  /\ status (outcome Spec.second_fetch) = "success"
  /\ requested Spec.second_fetch = ["https://example.com"].
Proof. vm_compute. repeat split; discriminate. Qed.

(** A URL that is already clean (non-empty, trimmed, with its scheme) is
    looked up under the key it was cached under: fetched with a 200 and
    fetched again within the cache duration, it comes back from the cache
    without a GET. *)
Lemma clean_url_hits_cache mc tmo cm env1 env2 u soup_title soup_text :
  let self := AsyncWebScraper.Make mc (Some cm) tmo in
  let r1 := scrape_single_website self env1 (UrlStr u) in
  let r2 := scrape_single_website
              (AsyncWebScraper.Make mc (cache_manager_after r1) tmo)
              env2 (UrlStr u) in
  u <> "" -> PyStr.strip u = u ->
  PyStr.startswith "http://" u || PyStr.startswith "https://" u = true ->
  CacheManager.get_cached_content cm (t_lookup env1) u = None ->
  reply env1 = Response 200 soup_title soup_text ->
  t_lookup env2 - t_cached env1 < CacheManager.cache_duration cm ->
  status (outcome r1) = "success"
  /\ outcome r2 = with_status (outcome r1) "cached"
  /\ requested r2 = [].
Proof.
  cbn zeta. intros Hne Hstrip Hscheme Hmiss Hreply Httl.
  unfold scrape_single_website, run_task.
  assert (Hl1 : lookup_phase (AsyncWebScraper.Make mc (Some cm) tmo) env1 (UrlStr u)
                = inr u).
  { unfold lookup_phase. destruct u as [|c u']; [congruence|].
    cbn [cache_manager mbind option_bind]. rewrite Hmiss, Hstrip, Hscheme.
    reflexivity. }
  rewrite Hl1.
  set (result :=
         {| content := PyStr.take 3000
                         (PyStr.strip (PyStr.collapse_ws false soup_text));
            title := match soup_title with
                     | Some s => PyStr.strip s
                     | None => ""
                     end;
            error := None;
            url := Some (UrlStr u);
            status := "success";
            scraped_at := Some (t_scraped env1) |}).
  assert (Hf : fetch_phase (Some cm) env1 u
               = (result,
                  Some (CacheManager.cache_content cm (t_cached env1) u result))).
  { unfold fetch_phase. rewrite Hreply. reflexivity. }
  cbn [cache_manager]. rewrite Hf. cbn [outcome cache_manager_after].
  assert (Hl2 : lookup_phase
                  (AsyncWebScraper.Make mc
                     (Some (CacheManager.cache_content cm (t_cached env1) u result))
                     tmo) env2 (UrlStr u)
                = inl (with_status result "cached")).
  { unfold lookup_phase. destruct u as [|c u']; [congruence|].
    cbn [cache_manager mbind option_bind].
    rewrite get_after_put. apply Z.ltb_lt in Httl.
    cbn [CacheManager.cache_duration] in *. rewrite Httl. reflexivity. }
  rewrite Hl2. repeat split; reflexivity.
Qed.
End CacheShortCircuit.

(** ** The batch *)

Section Batch.
Import AsyncWebScraper.
Implicit Types (self : AsyncWebScraper.t) (envs : nat -> fetch_env)
         (urls : list url_value) (order : list nat) (i : nat).

Lemma insert_by_perm key i l : insert_by key i l ≡ₚ i :: l.
Proof.
  induction l as [|j l IH]; simpl; [reflexivity|].
  destruct (key i <? key j); [reflexivity|].
  rewrite IH. apply Permutation_swap.
Qed.

Lemma completion_from_perm key l acc :
  fold_left (fun acc i => insert_by key i acc) l acc ≡ₚ acc ++ l.
Proof.
  revert acc. induction l as [|i l IH]; intros acc; simpl.
  - rewrite app_nil_r. reflexivity.
  - rewrite IH, insert_by_perm. simpl. apply Permutation_middle.
Qed.

(** The completion order is a permutation of the positions. *)
Lemma completion_order_perm key n : completion_order key n ≡ₚ seq 0 n.
Proof. unfold completion_order. apply completion_from_perm. Qed.

Lemma completion_order_length key n : length (completion_order key n) = n.
Proof. rewrite completion_order_perm. apply length_seq. Qed.

Lemma completion_order_elem key n i : i ∈ completion_order key n <-> (i < n)%nat.
Proof. rewrite completion_order_perm, elem_of_seq. lia. Qed.

(** The outcome of a task does not depend on the cache manager it meets
    when its answer arrives. *)
Lemma run_task_outcome self cm env url :
  outcome (run_task self cm env url)
  = outcome (scrape_single_website self env url).
Proof.
  unfold scrape_single_website, run_task.
  destruct (lookup_phase self env url) as [r|u]; [reflexivity|].
  unfold fetch_phase.
  destruct (reply env) as [code soup_title soup_text| |msg];
    [destruct (code =? 200)|..]; reflexivity.
Qed.

Lemma run_tasks_from self envs urls order cm0 acc :
  snd (fold_left
         (fun '(cm, finished) i =>
            match urls !! i with
            | Some url =>
                let r := run_task self cm (envs i) url in
                (cache_manager_after r,
                 finished ++ [(i, Returned (outcome r))])
            | None => (cm, finished)
            end)
         order (cm0, acc))
  = acc ++ omap (fun i => (fun url => (i, Returned (Spec.task_outcome self envs i url)))
                            <$> urls !! i) order.
Proof.
  revert cm0 acc. induction order as [|i order IH]; intros cm0 acc; simpl.
  - rewrite app_nil_r. reflexivity.
  - destruct (urls !! i) as [url|]; simpl.
    + rewrite IH, run_task_outcome, <- app_assoc. reflexivity.
    + apply IH.
Qed.

(** The finished tasks, first finished first. *)
Lemma run_tasks_finished self envs urls :
  snd (run_tasks self envs urls)
  = omap (fun i => (fun url => (i, Returned (Spec.task_outcome self envs i url)))
                     <$> urls !! i)
         (completion_order (fun i => t_done (envs i)) (length urls)).
Proof. unfold run_tasks. rewrite run_tasks_from. reflexivity. Qed.

Lemma omap_all_length {A B : Type} (f : A -> option B) l :
  Forall (fun x => is_Some (f x)) l -> length (omap f l) = length l.
Proof.
  induction 1 as [|x l [y Hy] _ IH]; simpl; [reflexivity|].
  rewrite Hy. cbn [length]. f_equal. exact IH.
Qed.

Lemma finished_length self envs urls :
  length (snd (run_tasks self envs urls)) = length urls.
Proof.
  rewrite run_tasks_finished, omap_all_length, completion_order_length;
    [reflexivity|].
  apply Forall_forall. intros i Hi. apply completion_order_elem in Hi.
  apply lookup_lt_is_Some_2 in Hi. destruct Hi as [url ->]. simpl. eauto.
Qed.

Lemma result_of_finished self envs urls order i url :
  urls !! i = Some url -> i ∈ order ->
  result_of i (omap (fun i => (fun url => (i, Returned (Spec.task_outcome self envs i url)))
                                <$> urls !! i) order)
  = Some (Returned (Spec.task_outcome self envs i url)).
Proof.
  intros Hi. induction order as [|j order IH]; intros Hin.
  - apply elem_of_nil in Hin. destruct Hin.
  - simpl. destruct (urls !! j) as [url'|] eqn:Hj; simpl.
    + destruct (Nat.eqb i j) eqn:E.
      * apply Nat.eqb_eq in E. subst j. congruence.
      * apply Nat.eqb_neq in E. apply elem_of_cons in Hin as [->|Hin];
          [congruence|auto].
    + apply elem_of_cons in Hin as [->|Hin]; [congruence|auto].
Qed.

(** Without a callback ([gather]) the results are by position. *)
Lemma batch_gather_aligned self envs urls :
  fst (batch_results self envs urls false)
  = imap (Spec.task_outcome self envs) urls.
Proof.
  unfold batch_results.
  pose proof (run_tasks_finished self envs urls) as Hf.
  destruct (run_tasks self envs urls) as [cm finished].
  cbn [fst snd] in *. subst finished.
  apply list_eq. intros i.
  rewrite list_lookup_fmap, !list_lookup_imap.
  destruct (urls !! i) as [url|] eqn:Hi; [|reflexivity]. simpl.
  rewrite (result_of_finished _ _ _ _ _ url); [reflexivity|assumption|].
  apply completion_order_elem. eapply lookup_lt_Some, Hi.
Qed.

(** With a callback ([as_completed]) the results are in completion
    order. *)
Lemma batch_callback_completion_order self envs urls :
  fst (batch_results self envs urls true)
  = omap (fun i => Spec.task_outcome self envs i <$> urls !! i)
         (completion_order (fun i => t_done (envs i)) (length urls)).
Proof.
  unfold batch_results.
  pose proof (run_tasks_finished self envs urls) as Hf.
  destruct (run_tasks self envs urls) as [cm finished].
  cbn [fst snd] in *. subst finished.
  induction (completion_order _ _) as [|i order IH]; [reflexivity|].
  simpl. destruct (urls !! i); simpl; [f_equal|]; exact IH.
Qed.

(** Either way the batch returns one outcome for each URL. *)
Lemma batch_length self envs urls progress_callback :
  length (fst (batch_results self envs urls progress_callback))
  = length urls.
Proof.
  destruct progress_callback.
  - unfold batch_results.
    pose proof (finished_length self envs urls) as Hf.
    destruct (run_tasks self envs urls) as [cm finished].
    cbn [fst snd] in *. rewrite !length_map. exact Hf.
  - rewrite batch_gather_aligned. apply length_imap.
Qed.

(** With a positive cap the batch returns, whatever the tasks meet. *)
Lemma batch_returns self envs urls progress_callback :
  0 < max_concurrent self ->
  scrape_websites_batch self envs urls progress_callback
  = Returns (batch_results self envs urls progress_callback).
Proof.
  intros Hcap. unfold scrape_websites_batch, semaphore.
  destruct (Z.ltb_spec (max_concurrent self) 0) as [|_]; [lia|].
  destruct (Z.eqb_spec (max_concurrent self) 0) as [|_]; [lia|].
  reflexivity.
Qed.

(** What the batch returns, when it returns. *)
Lemma batch_returns_inv self envs urls progress_callback out :
  scrape_websites_batch self envs urls progress_callback = Returns out ->
  out = batch_results self envs urls progress_callback.
Proof.
  unfold scrape_websites_batch.
  destruct (semaphore _) as [value|e]; [|discriminate].
  destruct (_ && _); [discriminate|].
  intros H. injection H as <-. reflexivity.
Qed.

(** C1, at a batch of two targets whose second answer arrives first. The
    batch is given a progress callback, as every run gives it: it returns,
    and the outcome at position 0 is the one of the target of position 1,
    not the one of the target of position 0. Without a callback the same
    batch is returned by position. *)
Theorem batch_with_callback_not_aligned :
  exists results cm gathered cm',
    scrape_websites_batch Spec.scraper0 Spec.second_first Spec.two_urls true
    = Returns (results, cm)
    /\ scrape_websites_batch Spec.scraper0 Spec.second_first Spec.two_urls
                             false
       = Returns (gathered, cm')
    /\ results !! 0%nat
       = Some (Spec.task_outcome Spec.scraper0 Spec.second_first 1
                                 (UrlStr "beta.example"))
    /\ results !! 0%nat
       <> Some (Spec.task_outcome Spec.scraper0 Spec.second_first 0
                                  (UrlStr "alpha.example"))
    /\ (url <$> results) = [Some (UrlStr "https://beta.example");
                            Some (UrlStr "https://alpha.example")]
    /\ (url <$> gathered) = [Some (UrlStr "https://alpha.example");
                             Some (UrlStr "https://beta.example")].
Proof.
  do 4 eexists. split; [vm_compute; reflexivity|].
  split; [vm_compute; reflexivity|].
  vm_compute. repeat split; discriminate.
Qed.
End Batch.

(** ** The run *)

Section Run.
Import AsyncWebScraper VivaTechAnalyzerV2.

(** Whatever the path, the analysis has a total. *)
Lemma analysis_has_total ca reply content description company_name :
  exists total,
    getitem (ClaudeAnalyzer.analyze_startup_relevance
               ca reply content description company_name) "total_score"
    = Ok total.
Proof.
  assert (Hfb : exists total,
            getitem (ClaudeAnalyzer._fallback_analysis content description)
                    "total_score" = Ok total).
  { unfold ClaudeAnalyzer._fallback_analysis.
    destruct (ClaudeAnalyzer.criteria_loop _) as [scores found].
    eexists. reflexivity. }
  unfold ClaudeAnalyzer.analyze_startup_relevance.
  destruct (negb (ClaudeAnalyzer.enabled ca)); [exact Hfb|].
  destruct (ClaudeAnalyzer.remote_analysis reply) as [analysis|e] eqn:H;
    [|exact Hfb].
  destruct (remote_analysis_inv _ _ H)
    as (a0 & d & scores & total & _ & _ & _ & _ & ->).
  exists total. cbn [getitem]. rewrite dict_get_set_eq. reflexivity.
Qed.

Lemma score_row_ok self env website_results idx r :
  exists startup,
    score_row self env website_results idx r = Ok startup
    /\ raw_data startup = r.
Proof.
  unfold score_row.
  destruct (analysis_has_total
              (claude_analyzer self) (remote_replies env idx)
              (from_option content "" (website_results !! idx))
              (default "" (DESCRIPTION r)) (HOST_COMPANY_NAME r))
    as [total Ht].
  rewrite Ht. cbn [mbind result_bind]. eexists. split; reflexivity.
Qed.

(** The scoring loop never raises and appends one record for each row. *)
Lemma score_rows_ok self env website_results rows : forall idx scored,
  exists added,
    score_rows self env website_results idx rows scored = Ok (scored ++ added)
    /\ map raw_data added = rows.
Proof.
  induction rows as [|r rows IH]; intros idx scored.
  - exists []. rewrite app_nil_r. split; reflexivity.
  - cbn [score_rows].
    destruct (score_row_ok self env website_results idx r) as (s & -> & Hs).
    cbn [mbind result_bind].
    destruct (IH (S idx) (scored ++ [s])) as (added & -> & Hadded).
    exists (s :: added). rewrite <- app_assoc. split; [reflexivity|].
    simpl. congruence.
Qed.

(** The run of a frame, once the batch has returned: it returns too, with
    the records of the scoring loop. *)
Lemma run_after_batch rows scored cm ca env limit max_concurrent
      website_results cm' :
  scrape_websites_batch
    (AsyncWebScraper.Make max_concurrent (Some cm) 10) (fetch_envs env)
    (map WEBSITE (df_to_analyze rows limit)) true
  = Returns (website_results, cm') ->
  exists added,
    score_rows (VivaTechAnalyzerV2.Make (Some rows) scored cm ca) env
               website_results 0 (df_to_analyze rows limit) []
    = Ok added
    /\ analyze_startups_async
         (VivaTechAnalyzerV2.Make (Some rows) scored cm ca)
         env limit max_concurrent
       = Returns {| df := Some rows;
                    scored_startups := added;
                    cache_manager := default cm cm';
                    claude_analyzer := ca |}
    /\ map raw_data added = df_to_analyze rows limit.
Proof.
  intros Hb. unfold analyze_startups_async.
  cbn [df claude_analyzer cache_manager]. rewrite Hb.
  destruct (score_rows_ok
              (VivaTechAnalyzerV2.Make (Some rows) scored cm ca) env
              website_results (df_to_analyze rows limit) 0%nat [])
    as (added & Hs & Hadded).
  cbn [app] in Hs. rewrite Hs. exists added. auto.
Qed.

(** C4. For every positive cap on the simultaneous requests: for every
    list of URLs the batch returns, with as many outcomes as there are
    URLs, with or without a progress callback and whatever the network
    answers; and for every data frame, whatever the network and the
    remote scorer answer, the run returns and leaves one record for each
    row it was asked to analyse, in the order of the rows. *)
Theorem one_record_for_each_target scraper envs urls progress_callback
        rows scored cm ca env limit max_concurrent :
  0 < AsyncWebScraper.max_concurrent scraper ->
  0 < max_concurrent ->
  (exists results cm',
     scrape_websites_batch scraper envs urls progress_callback
     = Returns (results, cm')
     /\ length results = length urls)
  /\ exists self',
       analyze_startups_async
         (VivaTechAnalyzerV2.Make (Some rows) scored cm ca)
         env limit max_concurrent
       = Returns self'
       /\ map raw_data (scored_startups self') = df_to_analyze rows limit
       /\ length (scored_startups self') = length (df_to_analyze rows limit).
Proof.
  intros Hscraper Hcap. split.
  - rewrite batch_returns by assumption.
    pose proof (batch_length scraper envs urls progress_callback) as Hlen.
    destruct (batch_results scraper envs urls progress_callback)
      as [results cm'].
    exists results, cm'. split; [reflexivity|exact Hlen].
  - pose proof (batch_returns
                  (AsyncWebScraper.Make max_concurrent (Some cm) 10)
                  (fetch_envs env)
                  (map WEBSITE (df_to_analyze rows limit)) true Hcap) as Hb.
    destruct (batch_results _ _ _ _) as [website_results cm'].
    destruct (run_after_batch rows scored cm ca env limit max_concurrent
                              website_results cm' Hb)
      as (added & _ & -> & Hadded).
    eexists. split; [reflexivity|]. cbn [scored_startups].
    split; [exact Hadded|]. rewrite <- Hadded, length_map. reflexivity.
Qed.

Lemma one_record_for_each_target_witness :
  (exists results cm',
     scrape_websites_batch Spec.scraper0 Spec.second_first Spec.two_urls true
     = Returns (results, cm')
     /\ length results = 2%nat)
  /\ exists self',
       analyze_startups_async
         (VivaTechAnalyzerV2.Make (Some Spec.two_rows) []
                                  (CacheManager.init ∅ 7)
                                  (ClaudeAnalyzer.init None))
         (RunEnv Spec.second_first (fun _ => ClaudeAnalyzer.BadContent))
         None 20
       = Returns self'
       /\ map raw_data (scored_startups self') = Spec.two_rows
       /\ length (scored_startups self') = 2%nat.
Proof.
  apply (one_record_for_each_target
           Spec.scraper0 Spec.second_first Spec.two_urls true
           Spec.two_rows [] (CacheManager.init ∅ 7) (ClaudeAnalyzer.init None)
           (RunEnv Spec.second_first (fun _ => ClaudeAnalyzer.BadContent))
           None 20); reflexivity.
Defined.

(** In a run the results of the batch are paired with the rows by
    position: the record of a row carries the page of whichever target
    finished at its position. *)
Lemma run_pairs_by_completion_order :
  exists self',
    analyze_startups_async
      (VivaTechAnalyzerV2.Make (Some Spec.two_rows) []
                               (CacheManager.init ∅ 7)
                               (ClaudeAnalyzer.init None))
      (RunEnv Spec.second_first (fun _ => ClaudeAnalyzer.BadContent))
      None 20
    = Returns self'
    /\ map (fun s => (name s, website_title s, website_content s))
           (scored_startups self')
       = [ ("Alpha", "Beta", "We sell flowers.");
           ("Beta", "Alpha", "OCR document scan") ].
Proof. eexists. split; vm_compute; reflexivity. Qed.
End Run.

(** * Further properties *)

(** ** Cache keys and cache entries *)

Section CacheKeys.

Lemma le_bytes_length n x : length (MD5.le_bytes n x) = n.
Proof. revert x. induction n as [|n IH]; intros x; simpl; [|rewrite IH]; reflexivity. Qed.

Lemma le_bytes_range n x : Forall (fun b => 0 <= b < 256) (MD5.le_bytes n x).
Proof.
  revert x. induction n as [|n IH]; intros x; simpl; constructor; [|apply IH].
  apply Z.mod_pos_bound. lia.
Qed.

Lemma digest_length msg : length (MD5.digest msg) = 16%nat.
Proof.
  unfold MD5.digest. destruct (fold_left _ _ _) as [a b c d].
  rewrite !length_app, !le_bytes_length. reflexivity.
Qed.

Lemma digest_range msg : Forall (fun b => 0 <= b < 256) (MD5.digest msg).
Proof.
  unfold MD5.digest. destruct (fold_left _ _ _) as [a b c d].
  repeat (apply Forall_app; split); apply le_bytes_range.
Qed.

Lemma hex_digit_ok d : 0 <= d < 16 -> Spec.is_hex_digit (MD5.hex_digit d) = true.
Proof.
  intros Hd.
  assert (H : exists n, d = Z.of_nat n /\ (n < 16)%nat).
  { exists (Z.to_nat d). lia. }
  destruct H as (n & -> & Hn).
  do 16 (destruct n as [|n]; [reflexivity|]). lia.
Qed.

Lemma hex_length bs : String.length (MD5.hex bs) = (2 * length bs)%nat.
Proof. induction bs as [|b bs IH]; simpl; [reflexivity|]. rewrite IH. lia. Qed.

Lemma hex_digits bs :
  Forall (fun b => 0 <= b < 256) bs ->
  Forall (fun c => Spec.is_hex_digit c = true)
         (list_ascii_of_string (MD5.hex bs)).
Proof.
  induction 1 as [|b bs Hb _ IH]; simpl; [constructor|].
  constructor; [|constructor; [|exact IH]]; apply hex_digit_ok.
  - split; [apply Z.div_pos; lia|apply Z.div_lt_upper_bound; lia].
  - apply Z.mod_pos_bound. lia.
Qed.

(** X1. The cache key of a URL is always a string of 32 lower-case
    hexadecimal digits, whatever the URL (the hex digest of its MD5). *)
Theorem cache_key_is_32_hex_digits url :
  String.length (CacheManager.get_cache_key url) = 32%nat
  /\ Forall (fun c => Spec.is_hex_digit c = true)
            (list_ascii_of_string (CacheManager.get_cache_key url)).
Proof.
  unfold CacheManager.get_cache_key, MD5.hexdigest. split.
  - rewrite hex_length, digest_length. reflexivity.
  - apply hex_digits, digest_range.
Qed.

Context {Content : Type}.
Implicit Types (self : CacheManager.t Content) (content : Content).

(** X2. Caching a page under one URL leaves the answer of the cache for
    every URL with another key as it was, at any instant. *)
Theorem cache_put_leaves_other_keys self t_put t_get url url' content :
  CacheManager.get_cache_key url <> CacheManager.get_cache_key url' ->
  CacheManager.get_cached_content
    (CacheManager.cache_content self t_put url content) t_get url'
  = CacheManager.get_cached_content self t_get url'.
Proof. apply get_other_key. Qed.

(** X3. Caching a second page under the same URL replaces the first
    entry: the cache is the one that the second write alone gives, and a
    lookup returns the second page while the time-to-live, counted from
    the second write, has not elapsed. *)
Theorem cache_put_overwrites self t1 t2 t_get url content1 content2 :
  CacheManager.cache_content
    (CacheManager.cache_content self t1 url content1) t2 url content2
  = CacheManager.cache_content self t2 url content2
  /\ CacheManager.get_cached_content
       (CacheManager.cache_content
          (CacheManager.cache_content self t1 url content1) t2 url content2)
       t_get url
     = if t_get - t2 <? CacheManager.cache_duration self
       then Some content2 else None.
Proof.
  split.
  - unfold CacheManager.cache_content.
    cbn [CacheManager.cache CacheManager.cache_duration].
    rewrite insert_insert_eq. reflexivity.
  - rewrite get_after_put. reflexivity.
Qed.

End CacheKeys.

Lemma cache_put_leaves_other_keys_witness :
  let cm := CacheManager.cache_content
              (CacheManager.init (∅ : gmap string (CacheManager.cache_data string)) 1)
              0 "http://a.example" "A" in
  CacheManager.get_cached_content
    (CacheManager.cache_content cm 5 "http://b.example" "B") 10 "http://a.example"
  = CacheManager.get_cached_content cm 10 "http://a.example".
Proof.
  cbn zeta. apply cache_put_leaves_other_keys. vm_compute. discriminate.
Defined.

(** ** The keyword scorer, further *)

Section KeywordScorerMore.
Import ClaudeAnalyzer.

Lemma lower_app a b : PyStr.lower (a +:+ b) = PyStr.lower a +:+ PyStr.lower b.
Proof. induction a as [|c a IH]; simpl; [|rewrite IH]; reflexivity. Qed.

Lemma contains_tail sub c s :
  PyStr.contains sub s = true -> PyStr.contains sub (String c s) = true.
Proof.
  intros H. cbn [PyStr.contains]. rewrite H. apply orb_true_r.
Qed.

Lemma contains_here sub s :
  PyStr.startswith sub s = true -> PyStr.contains sub s = true.
Proof. intros H. destruct s; cbn [PyStr.contains]; rewrite H; reflexivity. Qed.

(** An occurrence counted by the scan is a substring. *)
Lemma count_scan_contains sub s : forall skip,
  (0 < PyStr.count_scan sub skip s)%nat -> PyStr.contains sub s = true.
Proof.
  induction s as [|c s IH]; intros skip; cbn [PyStr.count_scan]; [lia|].
  destruct skip as [|k].
  - destruct (PyStr.startswith sub (String c s)) eqn:E.
    + intros _. apply contains_here, E.
    + intros H. apply contains_tail, (IH _ H).
  - intros H. apply contains_tail, (IH _ H).
Qed.

Lemma count_contains text sub :
  sub <> "" -> (0 < PyStr.count text sub)%nat -> PyStr.contains sub text = true.
Proof.
  intros Hne. unfold PyStr.count. destruct sub; [congruence|].
  apply count_scan_contains.
Qed.

(** The keywords that the inner loop keeps are those it counted. *)
Lemma keyword_loop_found_from text keywords score0 found0 :
  snd (fold_left
         (fun '(score, criterion_keywords) keyword =>
            let count :=
              Z.of_nat (PyStr.count text (PyStr.lower keyword)) in
            if count >? 0
            then (score + count, criterion_keywords ++ [keyword])
            else (score, criterion_keywords))
         keywords (score0, found0))
  = found0 ++ List.filter
                (fun kw => (0 <? PyStr.count text (PyStr.lower kw))%nat)
                keywords.
Proof.
  revert score0 found0.
  induction keywords as [|kw keywords IH]; intros score0 found0; simpl.
  - rewrite app_nil_r. reflexivity.
  - destruct (PyStr.count text (PyStr.lower kw)) as [|n] eqn:E; simpl.
    + apply IH.
    + rewrite IH, <- app_assoc. reflexivity.
Qed.

Lemma keyword_loop_found text keywords :
  snd (keyword_loop text keywords)
  = List.filter (fun kw => (0 <? PyStr.count text (PyStr.lower kw))%nat)
                keywords.
Proof. unfold keyword_loop. rewrite keyword_loop_found_from. reflexivity. Qed.

Lemma criteria_loop_found text :
  snd (criteria_loop text)
  = List.filter (fun kw => (0 <? PyStr.count text (PyStr.lower kw))%nat)
                Spec.all_keywords.
Proof.
  unfold criteria_loop, Spec.all_keywords, keywords_mapping.
  cbn [fold_left map concat snd].
  repeat match goal with
         | |- context [keyword_loop text ?l] =>
             let H := fresh "H" in
             pose proof (keyword_loop_found text l) as H;
             destruct (keyword_loop text l) as [? ?];
             cbn [snd] in H; subst
         end.
  cbn [snd app]. rewrite <- !List.filter_app. reflexivity.
Qed.

Lemma all_keywords_nonempty : Forall (fun kw : string => kw <> "") Spec.all_keywords.
Proof. repeat (constructor; [discriminate|]). constructor. Qed.

Lemma filter_ext_Forall {A : Type} (f g : A -> bool) (P : A -> Prop) l :
  Forall P l -> (forall x, P x -> f x = g x) -> List.filter f l = List.filter g l.
Proof.
  induction 1 as [|x l Hx _ IH]; intros Hfg; simpl; [reflexivity|].
  rewrite (Hfg x Hx), IH by assumption. reflexivity.
Qed.

(** X4. The [keywords_found] of the keyword scorer are the first ten,
    in axis order then list order, of the keywords of the four axes that
    occur at least once, up to case, in the content followed by a space
    and the description. *)
Theorem fallback_keywords_found content description :
  getitem (_fallback_analysis content description) "keywords_found"
  = Ok (PList (map PStr
         (firstn 10
            (List.filter
               (fun kw => (0 <? Spec.occurrences
                                  (Spec.combined content description) kw)%nat)
               Spec.all_keywords)))).
Proof.
  unfold _fallback_analysis. fold (Spec.combined content description).
  pose proof (criteria_loop_found
                (PyStr.lower (Spec.combined content description))) as Hf.
  destruct (criteria_loop _) as [scores found]. cbn [snd] in Hf. subst found.
  cbn [getitem dict_get String.eqb Ascii.eqb Bool.eqb].
  do 4 f_equal.
  apply (filter_ext_Forall _ _ _ _ all_keywords_nonempty).
  intros kw Hkw. rewrite count_lower by assumption. reflexivity.
Qed.

Lemma sum_nums_from ns : forall q0,
  Forall Spec.in_range ns ->
  exists q, fold_left py_add ns (Num q0) = Num q
            /\ (q0 <= q)%Q /\ (q <= q0 + Spec.cap ns)%Q.
Proof.
  induction ns as [|n ns IH]; intros q0 Hall.
  - exists q0. split; [reflexivity|]. cbn [Spec.cap]. split; lra.
  - apply Forall_cons in Hall as [Hn Hall].
    destruct n as [p| | |]; [|destruct Hn..]. destruct Hn as [Hp0 Hp25].
    cbn [fold_left py_add].
    destruct (IH (q0 + p)%Q Hall) as (q & Hq & Hlo & Hhi).
    exists q. split; [exact Hq|]. cbn [Spec.cap]. split; lra.
Qed.

(** The sum of numbers between 0 and 25 is between 0 and 25 times their
    count. *)
Lemma sum_nums_range ns :
  Forall Spec.in_range ns ->
  exists q, sum_nums ns = Num q /\ (0 <= q)%Q /\ (q <= Spec.cap ns)%Q.
Proof.
  intros Hall. destruct (sum_nums_from ns 0%Q Hall) as (q & Hq & Hlo & Hhi).
  exists q. split; [exact Hq|]. split; lra.
Qed.

(** X5. The keyword scorer gives each of the four axes a score, and its
    [total_score] is their sum, a finite number between 0 and 100. *)
Theorem fallback_total_in_range content description :
  exists n1 n2 n3 n4 q,
    let analysis := _fallback_analysis content description in
    Spec.axis_score analysis "numerisation" = Some n1
    /\ Spec.axis_score analysis "extraction" = Some n2
    /\ Spec.axis_score analysis "certification" = Some n3
    /\ Spec.axis_score analysis "mise_disposition" = Some n4
    /\ Spec.total_of analysis = Some (Num q)
    /\ Num q = sum_nums [n1; n2; n3; n4]
    /\ (0 <= q)%Q /\ (q <= 100)%Q.
Proof.
  destruct (fallback_total content description)
    as (n1 & n2 & n3 & n4 & H1 & H2 & H3 & H4 & Ht).
  pose proof (fallback_axes_in_range content description) as Hr.
  unfold criteria in Hr.
  assert (Hall : Forall Spec.in_range [n1; n2; n3; n4]).
  { repeat match goal with
           | H : Forall _ (_ :: _) |- _ =>
               apply Forall_cons in H as [(? & ? & ?) H]
           end.
    cbn zeta in *.
    repeat constructor; congruence. }
  destruct (sum_nums_range _ Hall) as (q & Hq & Hlo & Hhi).
  exists n1, n2, n3, n4, q. cbn zeta in *.
  rewrite Hq in Ht. repeat (split; [assumption|]).
  split; [symmetry; exact Hq|]. cbn [Spec.cap] in Hhi. split; lra.
Qed.
End KeywordScorerMore.

Section KeywordScorerEdges.
Import ClaudeAnalyzer.

Lemma counted_zero text keywords :
  Forall (fun kw => PyStr.count text (PyStr.lower kw) = 0%nat) keywords ->
  Spec.counted text keywords = 0.
Proof.
  induction 1 as [|kw keywords Hkw _ IH]; simpl; [reflexivity|].
  rewrite Hkw, IH. reflexivity.
Qed.

Lemma lower_nonempty kw : kw <> "" -> PyStr.lower kw <> "".
Proof. destruct kw; [congruence|discriminate]. Qed.

Lemma no_keyword_counts content description :
  Spec.no_keyword content description = true ->
  Forall (fun kw =>
            PyStr.count (PyStr.lower (Spec.combined content description))
                        (PyStr.lower kw) = 0%nat)
         Spec.all_keywords.
Proof.
  unfold Spec.no_keyword. rewrite forallb_forall. intros H.
  pose proof all_keywords_nonempty as Hne.
  rewrite Forall_forall in Hne. apply Forall_forall. intros kw Hin.
  specialize (Hne kw Hin). apply list_elem_of_In in Hin.
  specialize (H kw Hin). apply negb_true_iff in H.
  destruct (PyStr.count _ (PyStr.lower kw)) as [|n] eqn:E; [reflexivity|].
  rewrite count_contains in H; [discriminate|apply lower_nonempty, Hne|lia].
Qed.

(** X6. On a text in which no keyword of the four axes occurs, the
    keyword scorer gives every axis the score 0, the total 0 and an empty
    [keywords_found]. *)
Theorem fallback_without_keywords content description :
  Spec.no_keyword content description = true ->
  let analysis := _fallback_analysis content description in
  Forall (fun axis => exists n, Spec.axis_score analysis axis = Some n
                                /\ Spec.num_is n 0)
         criteria
  /\ (exists t, Spec.total_of analysis = Some t /\ Spec.num_is t 0)
  /\ getitem analysis "keywords_found" = Ok (PList []).
Proof.
  intros Hno. cbn zeta.
  pose proof (no_keyword_counts _ _ Hno) as Hc.
  set (text := PyStr.lower (Spec.combined content description)) in *.
  assert (Hfound : snd (criteria_loop text) = []).
  { rewrite criteria_loop_found.
    induction Hc as [|kw l Hkw _ IH]; simpl; [reflexivity|].
    rewrite Hkw. exact IH. }
  assert (Hscores : fst (criteria_loop text)
                    = map (fun criterion => (criterion, normalise 0)) criteria).
  { rewrite criteria_loop_scores.
    unfold Spec.all_keywords, keywords_mapping in Hc.
    cbn [map concat snd] in Hc. rewrite !Forall_app in Hc.
    destruct Hc as (H1 & H2 & H3 & H4 & _).
    unfold keywords_mapping, criteria. cbn [map].
    rewrite !keyword_loop_score, !counted_zero by assumption. reflexivity. }
  assert (Haxis : forall axis,
            Spec.axis_score (_fallback_analysis content description) axis
            = dict_get axis (map (fun criterion => (criterion, normalise 0))
                                 criteria)).
  { intros axis. rewrite fallback_axis. fold text. rewrite Hscores.
    reflexivity. }
  split; [|split].
  - unfold criteria. repeat apply Forall_cons_2; try apply Forall_nil_2;
      rewrite Haxis; eexists; (split; [reflexivity|]); reflexivity.
  - unfold _fallback_analysis. fold (Spec.combined content description).
    fold text. destruct (criteria_loop text) as [scores found].
    cbn [fst snd] in *. subst scores.
    eexists. split; [reflexivity|]. reflexivity.
  - unfold _fallback_analysis. fold (Spec.combined content description).
    fold text. destruct (criteria_loop text) as [scores found].
    cbn [fst snd] in *. subst found. reflexivity.
Qed.

Lemma fallback_without_keywords_witness :
  Spec.no_keyword "This is a generic website about unrelated topics."
                  "We sell flowers." = true
  /\ getitem (_fallback_analysis
                "This is a generic website about unrelated topics."
                "We sell flowers.") "keywords_found"
     = Ok (PList []).
Proof.
  assert (H : Spec.no_keyword
                "This is a generic website about unrelated topics."
                "We sell flowers." = true) by (vm_compute; reflexivity).
  split; [exact H|].
  apply (fallback_without_keywords _ _ H).
Defined.

(** X7. The keyword scorer reads the content and the description up to
    case only: two inputs that agree once lowered get the same analysis. *)
Theorem fallback_ignores_case content content' description description' :
  PyStr.lower content = PyStr.lower content' ->
  PyStr.lower description = PyStr.lower description' ->
  _fallback_analysis content description
  = _fallback_analysis content' description'.
Proof.
  intros Hc Hd. unfold _fallback_analysis.
  rewrite !lower_app, Hc, Hd. reflexivity.
Qed.

Lemma fallback_ignores_case_witness :
  _fallback_analysis "Document OCR" "Scan & Archive"
  = _fallback_analysis "document ocr" "SCAN & ARCHIVE".
Proof. apply fallback_ignores_case; vm_compute; reflexivity. Defined.

Lemma assign_tags_from text (table : list (string * list string)) : forall acc,
  fold_left
    (fun assigned_tags '(tag, keywords) =>
       if existsb (fun keyword => PyStr.contains keyword text) keywords
       then assigned_tags ++ [tag] else assigned_tags)
    table acc
  = acc ++ map fst (List.filter
                      (fun '(_, keywords) =>
                         existsb (fun keyword => PyStr.contains keyword text)
                                 keywords)
                      table).
Proof.
  induction table as [|[tag keywords] table IH]; intros acc; simpl.
  - rewrite app_nil_r. reflexivity.
  - destruct (existsb _ keywords); simpl; rewrite IH; [|reflexivity].
    rewrite <- app_assoc. reflexivity.
Qed.

Lemma sublist_map_filter {A B : Type} (f : A -> B) (p : A -> bool) l :
  sublist (map f (List.filter p l)) (map f l).
Proof.
  induction l as [|x l IH]; simpl; [constructor|].
  destruct (p x); simpl; [apply sublist_skip|apply sublist_cons]; exact IH.
Qed.

(** X8. The [tags] of the keyword scorer: a tag is assigned exactly
    when one of its keywords is a substring of the lowered text, and the
    tags come in the order of the tag table, each at most once. *)
Theorem fallback_tags_by_presence content description :
  let text := PyStr.lower (Spec.combined content description) in
  getitem (_fallback_analysis content description) "tags"
  = Ok (PList (map PStr (_assign_fallback_tags text)))
  /\ (forall tag,
        tag ∈ _assign_fallback_tags text
        <-> exists keywords keyword,
              (tag, keywords) ∈ tag_keywords /\ keyword ∈ keywords
              /\ PyStr.contains keyword text = true)
  /\ sublist (_assign_fallback_tags text) (map fst tag_keywords).
Proof.
  cbn zeta. split.
  { unfold _fallback_analysis. fold (Spec.combined content description).
    destruct (criteria_loop _) as [scores found]. reflexivity. }
  generalize (PyStr.lower (Spec.combined content description)). intros text.
  unfold _assign_fallback_tags. rewrite assign_tags_from. cbn [app].
  split; [|apply sublist_map_filter].
  intros tag. rewrite list_elem_of_In, in_map_iff. split.
  - intros ([tag' keywords] & <- & Hin). apply filter_In in Hin as [Hin Hex].
    apply existsb_exists in Hex as (keyword & Hk & Hc).
    exists keywords, keyword. rewrite !list_elem_of_In. auto.
  - intros (keywords & keyword & Hin & Hk & Hc).
    exists (tag, keywords). split; [reflexivity|].
    apply filter_In. split; [apply list_elem_of_In, Hin|].
    apply existsb_exists. exists keyword. rewrite <- list_elem_of_In. auto.
Qed.
End KeywordScorerEdges.

(** ** The remote path, further *)

Section RemotePathMore.
Import ClaudeAnalyzer.

Lemma clamp_value v nv m x :
  as_num v = Some nv ->
  py_min (PNum (Num 25%Q)) v = Ok m ->
  py_max (PNum (Num 0%Q)) m = Ok x ->
  exists n, as_num x = Some n /\ Spec.num_is n (Spec.clamp nv).
Proof.
  unfold py_min, py_max. cbn [as_num]. intros Hv. rewrite Hv.
  intros Hm. injection Hm as <-.
  destruct (py_lt nv (Num 25%Q)) eqn:Hlt.
  - rewrite Hv. destruct (py_lt (Num 0%Q) nv) eqn:Hgt;
      intros Hx; injection Hx as <-.
    + exists nv. split; [exact Hv|].
      destruct nv as [q| | |]; try discriminate.
      apply py_lt_Num in Hlt, Hgt. cbn.
      destruct (Q.min_spec 25 q) as [[? Hmin]|[? Hmin]];
        destruct (Q.max_spec 0 (Qmin 25 q)) as [[? Hmax]|[? Hmax]]; lra.
    + exists (Num 0%Q). split; [reflexivity|].
      destruct nv as [q| | |]; try discriminate; [|reflexivity].
      apply py_lt_Num in Hlt. apply py_lt_Num_false in Hgt. cbn.
      destruct (Q.min_spec 25 q) as [[? Hmin]|[? Hmin]];
        destruct (Q.max_spec 0 (Qmin 25 q)) as [[? Hmax]|[? Hmax]]; lra.
  - cbn [as_num]. intros Hx. injection Hx as <-.
    exists (Num 25%Q). split; [reflexivity|].
    destruct nv as [q| | |]; try discriminate; try reflexivity.
    apply py_lt_Num_false in Hlt. cbn.
    destruct (Q.min_spec 25 q) as [[? Hmin]|[? Hmin]];
      destruct (Q.max_spec 0 (Qmin 25 q)) as [[? Hmax]|[? Hmax]]; lra.
Qed.

(** One turn of the validation: the entry of [key] becomes 0 when it was
    missing and its clamped value otherwise; nothing else changes. *)
Lemma validate_key_step analysis key analysis' :
  validate_key analysis key = Ok analysis' ->
  exists d scores x,
    analysis = PDict d /\ dict_get "scores" d = Some (PDict scores)
    /\ analysis' = PDict (dict_set "scores" (PDict (dict_set key x scores)) d)
    /\ match dict_get key scores with
       | None => x = PNum (Num 0%Q)
       | Some v => exists nv n, as_num v = Some nv /\ as_num x = Some n
                                /\ Spec.num_is n (Spec.clamp nv)
       end.
Proof.
  unfold validate_key. intros H.
  apply bind_inv in H as (sc & Hsc & H).
  apply bind_inv in H as (present & Hin & H).
  apply getitem_inv in Hsc as (d & -> & Hsc).
  destruct (negb present) eqn:Hp.
  - apply bind_inv in H as (sc' & Hset & H).
    apply setitem_inv in Hset as (scores & -> & ->).
    apply setitem_inv in H as (d' & Hd & ->). injection Hd as <-.
    cbn in Hin. injection Hin as <-.
    exists d, scores, (PNum (Num 0%Q)). repeat split; try assumption.
    destruct (dict_get key scores) as [v|]; [|reflexivity].
    rewrite bool_decide_eq_true_2 in Hp by eauto. discriminate.
  - apply bind_inv in H as (v & Hv & H).
    apply bind_inv in H as (m & Hm & H).
    apply bind_inv in H as (x & Hx & H).
    apply bind_inv in H as (sc' & Hset & H).
    apply setitem_inv in Hset as (scores & -> & ->).
    apply setitem_inv in H as (d' & Hd & ->). injection Hd as <-.
    apply getitem_inv in Hv as (scores' & Hs & Hv). injection Hs as <-.
    exists d, scores, x. repeat split; try assumption. rewrite Hv.
    destruct (as_num v) as [nv|] eqn:Hnv.
    + destruct (clamp_value _ _ _ _ Hnv Hm Hx) as (n & Hn & Hc). eauto.
    + unfold py_min in Hm. cbn [as_num] in Hm. rewrite Hnv in Hm.
      discriminate.
Qed.

Lemma dict_get_set (V : Type) key k (x : V) scores :
  dict_get k (dict_set key x scores)
  = if String.eqb key k then Some x else dict_get k scores.
Proof.
  destruct (String.eqb key k) eqn:E.
  - apply String.eqb_eq in E. subst k. apply dict_get_set_eq.
  - apply String.eqb_neq in E. apply dict_get_set_ne, E.
Qed.

Lemma raw_score_after_set d scores' k :
  Spec.raw_score (PDict (dict_set "scores" (PDict scores') d)) k
  = dict_get k scores'.
Proof. unfold Spec.raw_score. rewrite dict_get_set_eq. reflexivity. Qed.

(** What the value [x] of an axis after the validation is, from the entry
    [o] of the reply. *)
Lemma validate_scores_values keys : forall analysis analysis',
  NoDup keys ->
  validate_scores analysis keys = Ok analysis' ->
  (forall k, k ∉ keys -> Spec.raw_score analysis' k = Spec.raw_score analysis k)
  /\ (forall k, k ∈ keys ->
        exists x, Spec.raw_score analysis' k = Some x
                  /\ match Spec.raw_score analysis k with
                     | None => x = PNum (Num 0%Q)
                     | Some v => exists nv n,
                         as_num v = Some nv /\ as_num x = Some n
                         /\ Spec.num_is n (Spec.clamp nv)
                     end)
  /\ (forall k, k <> "scores" -> getitem analysis' k = getitem analysis k).
Proof.
  induction keys as [|key keys IH]; intros analysis analysis' Hnd H.
  - injection H as <-. split; [auto|]. split; [|auto].
    intros k Hk. apply elem_of_nil in Hk. destruct Hk.
  - cbn [validate_scores] in H. apply bind_inv in H as (a1 & H1 & H).
    apply NoDup_cons in Hnd as [Hkey Hnd].
    destruct (IH _ _ Hnd H) as (Hout & Hin & Hkeep).
    destruct (validate_key_step _ _ _ H1)
      as (d & scores & x & -> & Hsc & -> & Hx).
    assert (Hraw : forall k, Spec.raw_score (PDict d) k = dict_get k scores).
    { intros k. unfold Spec.raw_score. rewrite Hsc. reflexivity. }
    split; [|split].
    + intros k Hk. apply not_elem_of_cons in Hk as [Hne Hk].
      rewrite (Hout k Hk), raw_score_after_set, dict_get_set, Hraw.
      destruct (String.eqb key k) eqn:E; [|reflexivity].
      apply String.eqb_eq in E. congruence.
    + intros k Hk. rewrite Hraw. apply elem_of_cons in Hk as [->|Hk].
      * exists x. rewrite (Hout key Hkey), raw_score_after_set, dict_get_set,
          String.eqb_refl. split; [reflexivity|exact Hx].
      * destruct (Hin k Hk) as (y & Hy & Hv). exists y. split; [exact Hy|].
        rewrite raw_score_after_set, dict_get_set in Hv.
        destruct (String.eqb key k) eqn:E; [|exact Hv].
        apply String.eqb_eq in E. subst k. contradiction.
    + intros k Hk. rewrite (Hkeep k Hk). cbn [getitem].
      rewrite dict_get_set_ne by congruence. reflexivity.
Qed.

Lemma criteria_NoDup : NoDup criteria.
Proof.
  unfold criteria. repeat (apply NoDup_cons; split);
    [repeat (rewrite not_elem_of_cons; split; [discriminate|]);
     apply not_elem_of_nil..|apply NoDup_nil_2].
Qed.

(** X9. When the remote path returns, each of the four axes has a
    score: 0 when the reply has no entry for the axis, and otherwise the
    entry of the reply brought into the interval from 0 to 25 (a value
    below 0 becomes 0, a value above 25 becomes 25, as does NaN). *)
Theorem remote_axes_are_clamped analysis result axis :
  axis ∈ criteria ->
  remote_analysis (Parsed analysis) = Ok result ->
  exists n, Spec.axis_score result axis = Some n
            /\ match Spec.raw_score analysis axis with
               | None => n = Num 0%Q
               | Some v => exists nv, as_num v = Some nv
                                      /\ Spec.num_is n (Spec.clamp nv)
               end.
Proof.
  intros Haxis H.
  destruct (remote_analysis_inv _ _ H)
    as (a0 & d & scores & total & Ha & Hv & Hsc & Ht & ->).
  injection Ha as <-.
  destruct (validate_scores_values _ _ _ criteria_NoDup Hv) as (_ & Hin & _).
  destruct (Hin axis Haxis) as (x & Hx & Hval).
  unfold Spec.raw_score in Hx. rewrite Hsc in Hx.
  unfold Spec.axis_score. rewrite dict_get_set_ne, Hsc, Hx by discriminate.
  cbn [mbind option_bind].
  destruct (Spec.raw_score analysis axis) as [v|].
  - destruct Hval as (nv & n & Hnv & Hn & Hc). exists n. rewrite Hn. eauto.
  - subst x. exists (Num 0%Q). split; reflexivity.
Qed.

Lemma remote_axes_are_clamped_witness :
  exists n,
    Spec.axis_score
      (analyze_startup_relevance (ClaudeAnalyzer.Make true)
         Spec.reply_with_extra_key "" "" "Acme") "numerisation"
    = Some n
    /\ Spec.num_is n 10.
Proof.
  destruct (remote_axes_are_clamped
              match Spec.reply_with_extra_key with
              | Parsed a => a
              | _ => PNone
              end
              (analyze_startup_relevance (ClaudeAnalyzer.Make true)
                 Spec.reply_with_extra_key "" "" "Acme")
              "numerisation")
    as (n & Hn & Hc).
  - vm_compute. apply list_elem_of_here.
  - vm_compute. reflexivity.
  - exists n. split; [exact Hn|].
    cbn in Hc. destruct Hc as (nv & Hnv & Hc). injection Hnv as <-.
    exact Hc.
Defined.
End RemotePathMore.

Section RemoteTotal.
Import ClaudeAnalyzer.

(** Whole numbers are numbers: a payload with whole scores goes through
    the [try]. *)
Lemma whole_scores_numeric analysis :
  Spec.whole_scores analysis = true -> Spec.numeric_scores analysis = true.
Proof.
  unfold Spec.whole_scores, Spec.numeric_scores.
  destruct analysis as [| | | | |d]; try discriminate.
  destruct (dict_get "scores" d) as [[| | | | |scores]|]; try discriminate.
  induction (dict_values scores) as [|v vs IH]; [reflexivity|].
  cbn [forallb]. rewrite !andb_true_iff. intros [Hv Hvs].
  split; [|exact (IH Hvs)].
  unfold Spec.is_whole in Hv. destruct v; try discriminate; reflexivity.
Qed.

(** X10. With the remote scorer enabled, a reply whose [scores] are whole
    numbers under names of the four axes, as the prompt asks for them, is
    never replaced by the keyword scorer: the analysis is the validated
    reply, and every key of the reply other than [scores] and
    [total_score] is returned as it is. *)
Theorem well_formed_reply_is_kept self analysis content description
        company_name :
  enabled self = true ->
  Spec.only_axes analysis ->
  Spec.whole_scores analysis = true ->
  let result :=
    analyze_startup_relevance self (Parsed analysis) content description
                              company_name in
  remote_analysis (Parsed analysis) = Ok result
  /\ (forall k, k <> "scores" -> k <> "total_score" ->
                getitem result k = getitem analysis k).
Proof.
  intros Hen _ Hw. apply whole_scores_numeric in Hw.
  cbn zeta. unfold analyze_startup_relevance. rewrite Hen.
  cbn [negb].
  assert (Hok : exists a', remote_analysis (Parsed analysis) = Ok a').
  { apply remote_analysis_ok_iff. eauto. }
  destruct Hok as [a' Ha']. rewrite Ha'. split; [reflexivity|].
  destruct (remote_analysis_inv _ _ Ha')
    as (a0 & d & scores & total & Ha & Hv & Hsc & Ht & ->).
  injection Ha as <-.
  destruct (validate_scores_values _ _ _ criteria_NoDup Hv) as (_ & _ & Hkeep).
  intros k Hk1 Hk2. rewrite <- (Hkeep k Hk1). cbn [getitem].
  rewrite dict_get_set_ne by congruence. reflexivity.
Qed.

Lemma well_formed_reply_is_kept_witness :
  getitem
    (analyze_startup_relevance
       (ClaudeAnalyzer.Make true)
       (Parsed (PDict [("scores", PDict [("numerisation", PNum (Num 40%Q))]);
                       ("tags", PList [PStr "RSE"])]))
       "" "" "Acme") "tags"
  = Ok (PList [PStr "RSE"]).
Proof.
  refine (proj2 (well_formed_reply_is_kept
                   (ClaudeAnalyzer.Make true)
                   (PDict [("scores", PDict [("numerisation", PNum (Num 40%Q))]);
                           ("tags", PList [PStr "RSE"])])
                   "" "" "Acme" eq_refl _ eq_refl) "tags" _ _);
    try discriminate.
  cbn. split.
  - apply NoDup_singleton.
  - repeat constructor.
Defined.

Lemma keys_after_set {V : Type} key (x : V) (l : list (string * V)) :
  (NoDup (map fst l) -> NoDup (map fst (dict_set key x l)))
  /\ forall j, j ∈ map fst (dict_set key x l) <-> j = key \/ j ∈ map fst l.
Proof.
  induction l as [|[k v] l [IHnd IHin]]; simpl.
  - split; [intros _; apply NoDup_singleton|].
    intros j. rewrite list_elem_of_singleton, elem_of_nil. tauto.
  - destruct (String.eqb key k) eqn:E.
    + apply String.eqb_eq in E. subst k. simpl. split; [auto|].
      intros j. rewrite !elem_of_cons. tauto.
    + apply String.eqb_neq in E. simpl. split.
      * rewrite !NoDup_cons. intros [Hk Hnd]. split; [|auto].
        rewrite IHin. intros [->|Hin]; [congruence|contradiction].
      * intros j. rewrite !elem_of_cons, IHin. tauto.
Qed.

Lemma score_keys_after_set d scores' :
  Spec.score_keys (PDict (dict_set "scores" (PDict scores') d))
  = map fst scores'.
Proof. unfold Spec.score_keys. rewrite dict_get_set_eq. reflexivity. Qed.

Lemma validate_scores_keys keys : forall analysis analysis',
  validate_scores analysis keys = Ok analysis' ->
  (NoDup (Spec.score_keys analysis) -> NoDup (Spec.score_keys analysis'))
  /\ forall j, j ∈ Spec.score_keys analysis'
               <-> j ∈ keys \/ j ∈ Spec.score_keys analysis.
Proof.
  induction keys as [|key keys IH]; intros analysis analysis' H.
  - injection H as <-. split; [auto|]. intros j. rewrite elem_of_nil. tauto.
  - cbn [validate_scores] in H. apply bind_inv in H as (a1 & H1 & H).
    destruct (IH _ _ H) as [IHnd IHin].
    destruct (validate_key_step _ _ _ H1)
      as (d & scores & x & -> & Hsc & -> & _).
    rewrite score_keys_after_set in *.
    assert (Hk0 : Spec.score_keys (PDict d) = map fst scores).
    { unfold Spec.score_keys. rewrite Hsc. reflexivity. }
    rewrite Hk0.
    destruct (keys_after_set key x scores) as [Hnd Hin].
    split; [auto|].
    intros j. rewrite IHin, Hin, elem_of_cons. tauto.
Qed.

Lemma nums_by_key (l : list (string * pyval)) : forall ns,
  NoDup (map fst l) ->
  nums_of (dict_values l) = Ok ns ->
  map (fun k => dict_get k l ≫= as_num) (map fst l) = map Some ns.
Proof.
  induction l as [|[k v] l IH]; intros ns Hnd H.
  - injection H as <-. reflexivity.
  - cbn [dict_values map snd fst nums_of] in *.
    apply NoDup_cons in Hnd as [Hk Hnd].
    destruct (as_num v) as [n|] eqn:Hn; [|discriminate].
    apply bind_inv in H as (ns' & Hns' & H). injection H as <-.
    cbn [map dict_get]. rewrite String.eqb_refl. cbn [mbind option_bind].
    rewrite Hn. f_equal.
    rewrite <- (IH ns' Hnd Hns'). apply map_ext_in. intros j Hj.
    destruct (String.eqb j k) eqn:E; [|reflexivity].
    apply String.eqb_eq in E. subst j. apply list_elem_of_In in Hj.
    contradiction.
Qed.

Lemma fold_qplus qs : forall a, (fold_left Qplus qs a == a + Spec.qsum qs)%Q.
Proof.
  induction qs as [|q qs IH]; intros a; cbn [fold_left Spec.qsum fold_right].
  - lra.
  - rewrite IH. fold (Spec.qsum qs). lra.
Qed.

Lemma qsum_perm qs qs' : qs ≡ₚ qs' -> (Spec.qsum qs == Spec.qsum qs')%Q.
Proof.
  induction 1 as [|q qs qs' _ IH|q q' qs|qs1 qs2 qs3 _ IH1 _ IH2];
    cbn [Spec.qsum fold_right] in *; try fold (Spec.qsum qs) in *;
    try fold (Spec.qsum qs') in *; lra.
Qed.

Lemma sum_nums_Num qs :
  exists t, sum_nums (map Num qs) = Num t /\ (t == Spec.qsum qs)%Q.
Proof.
  unfold sum_nums.
  assert (H : forall a, fold_left py_add (map Num qs) (Num a)
                        = Num (fold_left Qplus qs a)).
  { induction qs as [|q qs IH]; intros a; [reflexivity|]. apply IH. }
  rewrite H. eexists. split; [reflexivity|]. rewrite fold_qplus. lra.
Qed.

(** X11. When the [scores] of the reply are whole numbers and hold no
    other key than the four axes, the remote path returns and its total
    is the sum of the four validated scores, a finite number between 0
    and 100. *)
Theorem remote_total_of_four_axes analysis :
  Spec.only_axes analysis ->
  Spec.whole_scores analysis = true ->
  exists result q1 q2 q3 q4 t,
    remote_analysis (Parsed analysis) = Ok result
    /\ Spec.axis_score result "numerisation" = Some (Num q1)
    /\ Spec.axis_score result "extraction" = Some (Num q2)
    /\ Spec.axis_score result "certification" = Some (Num q3)
    /\ Spec.axis_score result "mise_disposition" = Some (Num q4)
    /\ Spec.total_of result = Some (Num t)
    /\ (t == q1 + q2 + q3 + q4)%Q
    /\ (0 <= t)%Q /\ (t <= 100)%Q.
Proof.
  intros Honly Hwhole.
  assert (Hok : exists result, remote_analysis (Parsed analysis) = Ok result).
  { apply remote_analysis_ok_iff. exists analysis.
    split; [reflexivity|apply whole_scores_numeric, Hwhole]. }
  destruct Hok as [result H].
  pose proof (remote_axes_in_range _ _ H) as Hrange.
  destruct (remote_analysis_inv _ _ H)
    as (a0 & d & scores & total & Ha & Hv & Hsc & Ht & ->).
  injection Ha as <-.
  (* the keys of the validated scores are the four axes *)
  destruct (validate_scores_keys _ _ _ Hv) as [Hnd Hin].
  assert (Hk : Spec.score_keys (PDict d) = map fst scores).
  { unfold Spec.score_keys. rewrite Hsc. reflexivity. }
  rewrite Hk in *.
  assert (Hnd0 : NoDup (Spec.score_keys analysis)
                 /\ forall j, j ∈ Spec.score_keys analysis -> j ∈ criteria).
  { unfold Spec.only_axes, Spec.score_keys in *.
    destruct analysis as [| | | | |d0]; try destruct Honly.
    destruct (dict_get "scores" d0) as [[| | | | |s0]|]; try destruct Honly.
    split; [assumption|]. apply Forall_forall. assumption. }
  destruct Hnd0 as [Hnd0 Hsub].
  specialize (Hnd Hnd0).
  assert (Hperm : map fst scores ≡ₚ criteria).
  { apply NoDup_Permutation; [exact Hnd|apply criteria_NoDup|].
    intros j. rewrite Hin. split; [intros [?|?]; auto|auto]. }
  (* the numbers that are summed, key by key *)
  unfold py_sum in Ht. apply bind_inv in Ht as (ns & Hns & Ht).
  injection Ht as <-.
  pose proof (nums_by_key _ _ Hnd Hns) as Hby.
  set (score := fun k => dict_get k scores ≫= as_num) in *.
  assert (Haxis : forall k,
            Spec.axis_score
              (PDict (dict_set "total_score" (PNum (sum_nums ns)) d)) k
            = score k).
  { intros k. unfold Spec.axis_score.
    rewrite dict_get_set_ne, Hsc by discriminate. reflexivity. }
  assert (Hq : forall k, k ∈ criteria ->
                 exists q, score k = Some (Num q) /\ (0 <= q <= 25)%Q).
  { intros k Hkin. rewrite Forall_forall in Hrange.
    destruct (Hrange k Hkin) as (n & Hn & Hr). rewrite Haxis in Hn.
    destruct n as [q| | |]; try destruct Hr. eauto. }
  destruct (Hq "numerisation") as (q1 & H1 & R1); [unfold criteria; repeat first [apply list_elem_of_here | apply list_elem_of_further]|].
  destruct (Hq "extraction") as (q2 & H2 & R2); [unfold criteria; repeat first [apply list_elem_of_here | apply list_elem_of_further]|].
  destruct (Hq "certification") as (q3 & H3 & R3); [unfold criteria; repeat first [apply list_elem_of_here | apply list_elem_of_further]|].
  destruct (Hq "mise_disposition") as (q4 & H4 & R4); [unfold criteria; repeat first [apply list_elem_of_here | apply list_elem_of_further]|].
  assert (Hc : map score criteria = map Some (map Num [q1; q2; q3; q4])).
  { unfold criteria. cbn [map]. rewrite H1, H2, H3, H4. reflexivity. }
  assert (Hp : map Some ns ≡ₚ map Some (map Num [q1; q2; q3; q4])).
  { rewrite <- Hby, <- Hc. apply Permutation_map, Hperm. }
  assert (Hp' : ns ≡ₚ map Num [q1; q2; q3; q4]).
  { apply (Permutation_map (fun o : option pynum => default NaN o)) in Hp.
    rewrite !map_map in Hp. cbn [default] in Hp. rewrite !map_id in Hp.
    exact Hp. }
  assert (Hfin : ns = map Num (map Spec.rational ns)).
  { assert (Hall : Forall (fun n => exists q, n = Num q) ns).
    { rewrite Hp'. repeat constructor; eauto. }
    clear - Hall. induction Hall as [|n ns [q ->] _ IH]; [reflexivity|].
    cbn [map Spec.rational]. rewrite <- IH. reflexivity. }
  assert (Hqs : map Spec.rational ns ≡ₚ [q1; q2; q3; q4]).
  { apply (Permutation_map Spec.rational) in Hp'. exact Hp'. }
  destruct (sum_nums_Num (map Spec.rational ns)) as (t & Hsum & Ht).
  rewrite <- Hfin in Hsum.
  rewrite (qsum_perm _ _ Hqs) in Ht. cbn [Spec.qsum fold_right] in Ht.
  eexists _, q1, q2, q3, q4, t. split; [exact H|]. rewrite !Haxis.
  repeat (split; [assumption|]).
  split.
  { unfold Spec.total_of. rewrite dict_get_set_eq. cbn. rewrite Hsum.
    reflexivity. }
  split; [lra|]. split; lra.
Qed.

Lemma remote_total_of_four_axes_witness :
  exists result q1 q2 q3 q4 t,
    remote_analysis
      (Parsed (PDict [("scores", PDict [("extraction", PNum (Num 40%Q));
                                        ("numerisation", PNum (Num (-3)%Q))])]))
    = Ok result
    /\ Spec.axis_score result "numerisation" = Some (Num q1)
    /\ Spec.axis_score result "extraction" = Some (Num q2)
    /\ Spec.axis_score result "certification" = Some (Num q3)
    /\ Spec.axis_score result "mise_disposition" = Some (Num q4)
    /\ Spec.total_of result = Some (Num t)
    /\ (t == q1 + q2 + q3 + q4)%Q
    /\ (0 <= t)%Q /\ (t <= 100)%Q.
Proof.
  apply (remote_total_of_four_axes
           (PDict [("scores", PDict [("extraction", PNum (Num 40%Q));
                                     ("numerisation", PNum (Num (-3)%Q))])])).
  - cbn. split.
    + repeat (apply NoDup_cons; split);
        [repeat (rewrite not_elem_of_cons; split; [discriminate|]);
         apply not_elem_of_nil..|apply NoDup_nil_2].
    + repeat constructor.
  - reflexivity.
Defined.
End RemoteTotal.

(** ** One fetch, further *)

Section SingleFetchMore.
Import AsyncWebScraper.

Lemma take_length n s : (String.length (PyStr.take n s) <= n)%nat.
Proof.
  revert s. induction n as [|n IH]; intros [|c s]; simpl; try lia.
  specialize (IH s). lia.
Qed.


Lemma lookup_phase_cleaned self env url u' :
  lookup_phase self env url = inr u' ->
  exists u, url = UrlStr u /\ u' = Spec.cleaned u.
Proof.
  unfold lookup_phase. destruct url as [|u]; [discriminate|].
  destruct u as [|c s]; [discriminate|].
  destruct (_ ≫= _); [discriminate|].
  intros H. exists (String c s). split; [reflexivity|].
  exact (f_equal (fun x : scrape_result + string =>
                    match x with inr v => v | inl _ => u' end) (eq_sym H)).
Qed.


Lemma fetch_phase_status cm env u :
  status (fst (fetch_phase cm env u)) = "success"
  \/ status (fst (fetch_phase cm env u)) = "failed"
  \/ status (fst (fetch_phase cm env u)) = "timeout".
Proof.
  destruct (fetch_phase_cases cm env u)
    as [(? & ? & _ & H)|([H|H] & _)]; auto.
Qed.


(** A fetch ends with one of four statuses. *)
Lemma fetch_status_cases self env url :
  status (outcome (scrape_single_website self env url)) ∈ Spec.fetch_statuses.
Proof.
  unfold scrape_single_website, run_task, Spec.fetch_statuses.
  destruct (lookup_phase self env url) as [res|u] eqn:Hl.
  - cbn [outcome]. apply lookup_phase_inl in Hl as [->|[c ->]]; cbn;
      repeat first [apply list_elem_of_here | apply list_elem_of_further].
  - pose proof (fetch_phase_status (cache_manager self) env u) as Hst.
    destruct (fetch_phase (cache_manager self) env u) as [res cm'].
    cbn [outcome fst] in *. destruct Hst as [->|[->| ->]];
      repeat first [apply list_elem_of_here | apply list_elem_of_further].
Qed.

Lemma success_inv self env url :
  status (outcome (scrape_single_website self env url)) = "success" ->
  exists u soup_title soup_text,
    url = UrlStr u
    /\ lookup_phase self env url = inr (Spec.cleaned u)
    /\ reply env = Response 200 soup_title soup_text.
Proof.
  unfold scrape_single_website, run_task.
  destruct (lookup_phase self env url) as [res|u'] eqn:Hl.
  - cbn [outcome]. intros Hs.
    apply lookup_phase_inl in Hl as [->|[c ->]]; discriminate.
  - pose proof (fetch_phase_cases (cache_manager self) env u') as Hf.
    destruct (fetch_phase (cache_manager self) env u') as [res cm'].
    cbn [outcome fst snd] in *. intros Hs.
    destruct Hf as [(soup_title & soup_text & Hr & _)|([H|H] & _)];
      try congruence.
    destruct (lookup_phase_cleaned _ _ _ _ Hl) as (u & -> & ->).
    exists u, soup_title, soup_text. auto.
Qed.

(** X13. A fetch that ends with the status [success] returns at most
    3000 characters of content, no [error], and the instant of the fetch
    as [scraped_at]. *)
Theorem fetched_content_is_bounded self env url :
  let r := scrape_single_website self env url in
  status (outcome r) = "success" ->
  (String.length (content (outcome r)) <= 3000)%nat
  /\ error (outcome r) = None
  /\ scraped_at (outcome r) = Some (t_scraped env).
Proof.
  cbn zeta. intros Hs.
  destruct (success_inv _ _ _ Hs) as (u & soup_title & soup_text & -> & Hl & Hr).
  unfold scrape_single_website, run_task. rewrite Hl.
  unfold fetch_phase. rewrite Hr.
  cbn [Z.eqb Pos.eqb outcome content error scraped_at].
  split; [apply take_length|]. split; reflexivity.
Qed.

Lemma fetched_content_is_bounded_witness :
  let r := Spec.first_fetch in
  status (outcome r) = "success"
  /\ (String.length (content (outcome r)) <= 3000)%nat.
Proof.
  cbn zeta. split; [vm_compute; reflexivity|].
  apply (fetched_content_is_bounded Spec.scraper0 (Spec.page_at 0)
                                    (UrlStr "example.com")).
  vm_compute. reflexivity.
Defined.

(** X14. A fetch that ends with the status [success] on a scraper with
    a cache has sent its GET to the cleaned URL (trimmed, [https://] in
    front when it has no scheme), and leaves its result in the cache
    under that cleaned URL, where a lookup finds it until the
    time-to-live has elapsed. *)
Theorem success_is_cached_under_cleaned_url self env url cm :
  let r := scrape_single_website self env url in
  status (outcome r) = "success" ->
  cache_manager self = Some cm ->
  exists u cm',
    url = UrlStr u
    /\ requested r = [Spec.cleaned u]
    /\ AsyncWebScraper.url (outcome r) = Some (UrlStr (Spec.cleaned u))
    /\ cache_manager_after r = Some cm'
    /\ forall now,
         now - t_cached env < CacheManager.cache_duration cm ->
         CacheManager.get_cached_content cm' now (Spec.cleaned u)
         = Some (outcome r).
Proof.
  cbn zeta. intros Hs Hcm.
  destruct (success_inv _ _ _ Hs) as (u & soup_title & soup_text & -> & Hl & Hr).
  unfold scrape_single_website, run_task. rewrite Hl.
  unfold fetch_phase. rewrite Hr, Hcm. cbn [Z.eqb Pos.eqb fmap option_fmap option_map].
  cbn [outcome cache_manager_after requested AsyncWebScraper.url].
  eexists u, _. repeat (split; [reflexivity|]).
  intros now Hnow. rewrite get_after_put.
  apply Z.ltb_lt in Hnow. rewrite Hnow. reflexivity.
Qed.

Lemma success_is_cached_under_cleaned_url_witness :
  exists u cm',
    UrlStr "example.com" = UrlStr u
    /\ requested Spec.first_fetch = [Spec.cleaned u]
    /\ AsyncWebScraper.url (outcome Spec.first_fetch)
       = Some (UrlStr (Spec.cleaned u))
    /\ cache_manager_after Spec.first_fetch = Some cm'
    /\ forall now,
         now - t_cached (Spec.page_at 0)
         < CacheManager.cache_duration
             (CacheManager.init
                (∅ : gmap string (CacheManager.cache_data scrape_result)) 7) ->
         CacheManager.get_cached_content cm' now (Spec.cleaned u)
         = Some (outcome Spec.first_fetch).
Proof.
  apply (success_is_cached_under_cleaned_url
           Spec.scraper0 (Spec.page_at 0) (UrlStr "example.com")
           (CacheManager.init ∅ 7)).
  - vm_compute. reflexivity.
  - reflexivity.
Defined.

(** X15. A URL that is already clean is fetched once: after a first
    fetch that succeeded, a second fetch of the same URL within the
    time-to-live sends no GET, returns the first result with the status
    [cached] and leaves the cache as it is; once the time-to-live has
    elapsed the second fetch sends its GET again. *)
Theorem refetch_of_clean_url mc tmo cm env1 env2 u soup_title soup_text :
  let self := AsyncWebScraper.Make mc (Some cm) tmo in
  let r1 := scrape_single_website self env1 (UrlStr u) in
  let r2 := scrape_single_website
              (AsyncWebScraper.Make mc (cache_manager_after r1) tmo)
              env2 (UrlStr u) in
  u <> "" -> Spec.cleaned u = u ->
  CacheManager.get_cached_content cm (t_lookup env1) u = None ->
  reply env1 = Response 200 soup_title soup_text ->
  (t_lookup env2 - t_cached env1 < CacheManager.cache_duration cm ->
   outcome r2 = with_status (outcome r1) "cached"
   /\ requested r2 = []
   /\ cache_manager_after r2 = cache_manager_after r1)
  /\ (CacheManager.cache_duration cm <= t_lookup env2 - t_cached env1 ->
      requested r2 = [u]).
Proof.
  cbn zeta. intros Hne Hclean Hmiss Hreply.
  assert (Hl : forall self' env,
            (cm' ← cache_manager self';
             CacheManager.get_cached_content cm' (t_lookup env) u) = None ->
            lookup_phase self' env (UrlStr u) = inr u).
  { intros self' env Hnone. unfold lookup_phase.
    destruct u as [|c u']; [congruence|]. rewrite Hnone.
    f_equal. exact Hclean. }
  set (result :=
         {| content := PyStr.take 3000
                         (PyStr.strip (PyStr.collapse_ws false soup_text));
            title := match soup_title with
                     | Some s => PyStr.strip s
                     | None => ""
                     end;
            error := None;
            url := Some (UrlStr u);
            status := "success";
            scraped_at := Some (t_scraped env1) |}).
  set (cm1 := CacheManager.cache_content cm (t_cached env1) u result).
  assert (Hr1 : scrape_single_website (AsyncWebScraper.Make mc (Some cm) tmo)
                                      env1 (UrlStr u)
                = {| outcome := result; cache_manager_after := Some cm1;
                     requested := [u] |}).
  { unfold scrape_single_website, run_task. rewrite Hl by exact Hmiss.
    unfold fetch_phase. rewrite Hreply. reflexivity. }
  rewrite Hr1. cbn [outcome cache_manager_after]. split.
  - intros Httl. unfold scrape_single_website, run_task.
    assert (Hl2 : lookup_phase (AsyncWebScraper.Make mc (Some cm1) tmo) env2
                               (UrlStr u)
                  = inl (with_status result "cached")).
    { unfold lookup_phase. destruct u as [|c u']; [congruence|].
      cbn [cache_manager mbind option_bind]. unfold cm1.
      rewrite get_after_put. apply Z.ltb_lt in Httl. rewrite Httl.
      reflexivity. }
    rewrite Hl2. repeat split; reflexivity.
  - intros Hexp. unfold scrape_single_website, run_task.
    rewrite Hl.
    + destruct (fetch_phase _ env2 u) as [res cm2]. reflexivity.
    + cbn [cache_manager mbind option_bind]. unfold cm1.
      rewrite get_after_put. apply Z.ltb_ge in Hexp. rewrite Hexp.
      reflexivity.
Qed.

Lemma refetch_of_clean_url_witness :
  let self := AsyncWebScraper.Make 20 (Some (CacheManager.init ∅ 7)) 10 in
  let r1 := scrape_single_website self (Spec.page_at 0)
                                  (UrlStr "https://example.com") in
  let r2 := scrape_single_website
              (AsyncWebScraper.Make 20 (cache_manager_after r1) 10)
              (Spec.page_at 2) (UrlStr "https://example.com") in
  outcome r2 = with_status (outcome r1) "cached"
  /\ requested r2 = []
  /\ cache_manager_after r2 = cache_manager_after r1.
Proof.
  cbn zeta.
  refine (proj1 (refetch_of_clean_url
                   20 10 (CacheManager.init ∅ 7) (Spec.page_at 0)
                   (Spec.page_at 2) "https://example.com"
                   (Some "Example Domain") "Example Domain" _ _ _ _) _).
  - discriminate.
  - vm_compute. reflexivity.
  - vm_compute. reflexivity.
  - reflexivity.
  - vm_compute. reflexivity.
Defined.
End SingleFetchMore.

(** ** The batch, further *)

Section BatchMore.
Import AsyncWebScraper.
Implicit Types (self : AsyncWebScraper.t) (envs : nat -> fetch_env)
         (urls : list url_value).

Lemma omap_fmap_S {B : Type} (f : nat -> option B) (l : list nat) :
  omap f (S <$> l) = omap (fun i => f (S i)) l.
Proof.
  induction l as [|i l IH]; [reflexivity|].
  change (omap f (S <$> (i :: l)))
    with (match f (S i) with
          | Some y => y :: omap f (S <$> l)
          | None => omap f (S <$> l)
          end).
  rewrite IH. reflexivity.
Qed.

Lemma omap_seq_lookup {A B : Type} (l : list A) : forall (g : nat -> A -> B),
  omap (fun i => g i <$> l !! i) (seq 0 (length l)) = imap g l.
Proof.
  induction l as [|x l IH]; intros g; [reflexivity|].
  rewrite imap_cons.
  change (seq 0 (length (x :: l))) with (0%nat :: seq 1 (length l)).
  rewrite <- fmap_S_seq.
  change (omap (fun i => g i <$> (x :: l) !! i) (0%nat :: (S <$> seq 0 (length l))))
    with (g 0%nat x :: omap (fun i => g i <$> (x :: l) !! i)
                            (S <$> seq 0 (length l))).
  f_equal. rewrite omap_fmap_S. apply (IH (g ∘ S)).
Qed.

(** With a callback the batch returns the outcomes of the other branch,
    in completion order. *)
Lemma batch_callback_perm self envs urls :
  fst (batch_results self envs urls true)
  ≡ₚ fst (batch_results self envs urls false).
Proof.
  rewrite batch_callback_completion_order, batch_gather_aligned,
    completion_order_perm.
  rewrite omap_seq_lookup. reflexivity.
Qed.

(** X16. The two branches of the batch. Whatever the batch does without
    a progress callback, it does with one: when it returns, the outcome
    of position [i] is the one of the URL of position [i] without a
    callback, and with a callback the outcomes are the same ones, possibly
    in another order, and the cache is left the same; when it raises, or
    never returns, it does so on both branches. *)
Theorem batch_results_by_branch self envs urls :
  match scrape_websites_batch self envs urls false with
  | Returns (gathered, cm) =>
      gathered = imap (Spec.task_outcome self envs) urls
      /\ exists completed,
           scrape_websites_batch self envs urls true = Returns (completed, cm)
           /\ completed ≡ₚ gathered
  | Raises e => scrape_websites_batch self envs urls true = Raises e
  | NeverReturns => scrape_websites_batch self envs urls true = NeverReturns
  end.
Proof.
  pose proof (batch_gather_aligned self envs urls) as Hg.
  pose proof (batch_callback_perm self envs urls) as Hp.
  assert (Hcm : snd (batch_results self envs urls true)
                = snd (batch_results self envs urls false)).
  { unfold batch_results.
    destruct (run_tasks self envs urls) as [cm finished]. reflexivity. }
  unfold scrape_websites_batch.
  destruct (semaphore _) as [value|e]; [|reflexivity].
  destruct (_ && _); [reflexivity|].
  destruct (batch_results self envs urls false) as [gathered cm].
  destruct (batch_results self envs urls true) as [completed cm'].
  cbn [fst snd] in *. subst gathered cm'.
  split; [reflexivity|]. exists completed. split; [reflexivity|exact Hp].
Qed.

End BatchMore.


(* ===================================================================== *)
(** ** The reports: the sort and the extremes *)
(* ===================================================================== *)

Section Reports.
Import AsyncWebScraper VivaTechAnalyzerV2.
Implicit Types (s : startup_data) (l scored : list startup_data).
Implicit Types (k a b c : pynum).

Lemma py_lt_irrefl a : py_lt a a = false.
Proof.
  destruct a as [p| | |]; simpl; try reflexivity.
  destruct (Qcompare_spec p p) as [H|H|H]; try reflexivity.
  exfalso. lra.
Qed.

Lemma py_lt_asym a b : py_lt a b = true -> py_lt b a = false.
Proof.
  destruct a as [p| | |], b as [q| | |]; simpl; try congruence.
  destruct (Qcompare_spec p q) as [H|H|H]; try discriminate. intros _.
  destruct (Qcompare_spec q p) as [H'|H'|H']; try reflexivity.
  exfalso. lra.
Qed.

Lemma py_ge_trans a b c :
  b <> NaN -> py_lt a b = false -> py_lt b c = false -> py_lt a c = false.
Proof.
  destruct a as [p| | |], b as [q| | |], c as [r| | |]; simpl;
    try congruence.
  intros _.
  destruct (Qcompare_spec p q) as [H1|H1|H1]; try discriminate;
    destruct (Qcompare_spec q r) as [H2|H2|H2]; try discriminate;
    destruct (Qcompare_spec p r) as [H3|H3|H3]; try reflexivity;
    intros _ _; exfalso; lra.
Qed.

Lemma py_le_lt_trans k a b :
  k <> NaN -> py_lt a k = false -> py_lt a b = true -> py_lt k b = true.
Proof.
  destruct a as [p| | |], b as [q| | |], k as [r| | |]; simpl;
    try congruence.
  intros _.
  destruct (Qcompare_spec p r) as [H1|H1|H1]; try discriminate;
    destruct (Qcompare_spec p q) as [H2|H2|H2]; try discriminate;
    destruct (Qcompare_spec r q) as [H3|H3|H3]; try reflexivity;
    intros _ _; exfalso; lra.
Qed.

Lemma comparable_key s : Spec.comparable s -> sort_key s <> NaN.
Proof.
  unfold Spec.comparable, sort_key, score_number.
  destruct (as_num (total_score s)) as [[q| | |]|]; simpl;
    intros H; try discriminate; destruct H.
Qed.

Lemma insert_desc_perm s l : insert_desc s l ≡ₚ s :: l.
Proof.
  induction l as [|s' l IH]; simpl; [reflexivity|].
  destruct (py_lt _ _); [|reflexivity].
  rewrite IH. apply perm_swap.
Qed.

Lemma sorted_startups_perm scored : sorted_startups scored ≡ₚ scored.
Proof.
  induction scored as [|s l IH]; [reflexivity|].
  unfold sorted_startups in *. simpl. rewrite insert_desc_perm, IH.
  reflexivity.
Qed.

Lemma insert_desc_sorted s l :
  Spec.comparable s -> Forall Spec.comparable l ->
  StronglySorted Spec.not_below l ->
  StronglySorted Spec.not_below (insert_desc s l).
Proof.
  intros Hs. induction l as [|s' l IH]; intros Hl Hsl.
  - repeat constructor.
  - simpl. apply StronglySorted_inv in Hsl as [Hsl Hall].
    apply Forall_cons in Hl as [Hs' Hl].
    destruct (py_lt (sort_key s) (sort_key s')) eqn:E.
    + constructor; [apply IH; assumption|].
      rewrite insert_desc_perm. apply Forall_cons_2; [|exact Hall].
      apply py_lt_asym, E.
    + constructor; [constructor; assumption|].
      apply Forall_cons_2; [exact E|].
      eapply Forall_impl; [exact Hall|]. intros s'' H.
      eapply py_ge_trans; [apply comparable_key, Hs'|exact E|exact H].
Qed.

Lemma sorted_startups_sorted scored :
  Forall Spec.comparable scored ->
  StronglySorted Spec.not_below (sorted_startups scored).
Proof.
  induction scored as [|s l IH]; intros H; [constructor|].
  apply Forall_cons in H as [Hs Hl].
  unfold sorted_startups in *. simpl. apply insert_desc_sorted; auto.
  rewrite (sorted_startups_perm l). exact Hl.
Qed.

Lemma sorted_lookup l :
  StronglySorted Spec.not_below l -> Spec.descending l.
Proof.
  induction 1 as [|s l Hl IH Hall]; intros i j x y Hij Hi Hj.
  - rewrite lookup_nil in Hi. discriminate.
  - destruct j as [|j]; [lia|]. simpl in Hj. destruct i as [|i].
    + simpl in Hi. injection Hi as <-.
      rewrite Forall_forall in Hall. apply Hall.
      eapply list_elem_of_lookup_2, Hj.
    + simpl in Hi. eapply IH; [|exact Hi|exact Hj]. lia.
Qed.

Lemma ties_above k s s' :
  k <> NaN -> Spec.ties k s = true ->
  py_lt (sort_key s) (sort_key s') = true -> Spec.ties k s' = false.
Proof.
  unfold Spec.ties. intros Hk H E.
  apply andb_true_iff in H as [_ H2]. apply negb_true_iff in H2.
  rewrite (py_le_lt_trans _ _ _ Hk H2 E). reflexivity.
Qed.

Lemma insert_desc_filter_out k s l :
  Spec.ties k s = false ->
  List.filter (Spec.ties k) (insert_desc s l) = List.filter (Spec.ties k) l.
Proof.
  intros H. induction l as [|s' l IH]; simpl; [rewrite H; reflexivity|].
  destruct (py_lt _ _); simpl; [|rewrite H; reflexivity].
  rewrite IH. reflexivity.
Qed.

Lemma insert_desc_filter_in k s l :
  k <> NaN -> Spec.ties k s = true ->
  List.filter (Spec.ties k) (insert_desc s l)
  = s :: List.filter (Spec.ties k) l.
Proof.
  intros Hk H. induction l as [|s' l IH]; simpl; [rewrite H; reflexivity|].
  destruct (py_lt (sort_key s) (sort_key s')) eqn:E; simpl.
  - rewrite (ties_above k s s' Hk H E). exact IH.
  - rewrite H. reflexivity.
Qed.

Lemma sorted_startups_stable k scored :
  k <> NaN ->
  List.filter (Spec.ties k) (sorted_startups scored)
  = List.filter (Spec.ties k) scored.
Proof.
  intros Hk. induction scored as [|s l IH]; [reflexivity|].
  unfold sorted_startups in *. simpl.
  destruct (Spec.ties k s) eqn:E.
  - rewrite insert_desc_filter_in by assumption. rewrite IH. reflexivity.
  - rewrite insert_desc_filter_out by assumption. exact IH.
Qed.

(** X17. The sort of the reports, on records whose totals are numbers
    other than NaN: the sorted list holds the same records, no record
    comes before one with a larger total, records whose totals tie keep
    the order of the analysis, and the export keeps the first 100 of
    them, or all of them when there are fewer. *)
Theorem sorted_startups_is_stable_descending scored k :
  Forall Spec.comparable scored -> k <> NaN ->
  sorted_startups scored ≡ₚ scored
  /\ Spec.descending (sorted_startups scored)
  /\ List.filter (Spec.ties k) (sorted_startups scored)
     = List.filter (Spec.ties k) scored
  /\ length (top_startups (sorted_startups scored))
     = Nat.min 100 (length scored).
Proof.
  intros Hc Hk. split; [apply sorted_startups_perm|]. split.
  - apply sorted_lookup, sorted_startups_sorted, Hc.
  - split; [apply sorted_startups_stable, Hk|].
    unfold top_startups. rewrite length_firstn, (sorted_startups_perm scored).
    reflexivity.
Qed.

Lemma max_fold_keeps best totals :
  Forall (fun item => py_lt (score_number best) (score_number item) = false)
         totals ->
  fold_left (fun best item =>
               if py_lt (score_number best) (score_number item)
               then item else best) totals best = best.
Proof.
  induction 1 as [|item totals H _ IH]; [reflexivity|].
  simpl. rewrite H. exact IH.
Qed.

Lemma min_fold_ties best s l :
  Forall Spec.comparable (s :: l) ->
  StronglySorted Spec.not_below (s :: l) ->
  py_lt (score_number best) (sort_key s) = false ->
  py_lt (sort_key s) (score_number best) = false ->
  exists s_last,
    last (s :: l) = Some s_last
    /\ Spec.ties (score_number
                    (fold_left (fun best item =>
                                  if py_lt (score_number item)
                                           (score_number best)
                                  then item else best)
                               (map total_score l) best)) s_last = true.
Proof.
  revert best s. induction l as [|s' l IH]; intros best s Hc Hs H1 H2.
  - exists s. split; [reflexivity|]. unfold Spec.ties. simpl.
    rewrite H1, H2. reflexivity.
  - apply Forall_cons in Hc as [Hcs Hc].
    apply StronglySorted_inv in Hs as [Hs Hall].
    apply Forall_cons in Hall as [Hss' _].
    simpl map. simpl fold_left. fold (sort_key s').
    destruct (py_lt (sort_key s') (score_number best)) eqn:E.
    + destruct (IH (total_score s') s' Hc Hs) as (x & Hx & Ht);
        try apply py_lt_irrefl.
      exists x. split; [|exact Ht]. rewrite <- Hx. reflexivity.
    + destruct (IH best s' Hc Hs) as (x & Hx & Ht); [|exact E|].
      * eapply py_ge_trans; [apply comparable_key, Hcs|exact H1|exact Hss'].
      * exists x. split; [|exact Ht]. rewrite <- Hx. reflexivity.
Qed.

(** X18. On records whose totals are numbers other than NaN, the
    [max_score] of the export is the total of the first record of the
    sorted list, and its [min_score] ties with the total of the last. *)
Theorem extremes_of_sorted_startups scored :
  Forall Spec.comparable scored ->
  max_score (sorted_startups scored)
  = total_score <$> head (sorted_startups scored)
  /\ (scored <> [] ->
      exists lowest s_last,
        min_score (sorted_startups scored) = Some lowest
        /\ last (sorted_startups scored) = Some s_last
        /\ Spec.ties (score_number lowest) s_last = true).
Proof.
  intros Hc.
  pose proof (sorted_startups_sorted scored Hc) as Hs.
  assert (Hc' : Forall Spec.comparable (sorted_startups scored))
    by (rewrite (sorted_startups_perm scored); exact Hc).
  split.
  - destruct (sorted_startups scored) as [|s l]; [reflexivity|].
    simpl. f_equal. apply max_fold_keeps.
    apply StronglySorted_inv in Hs as [_ Hall].
    apply Forall_fmap. exact Hall.
  - intros Hne.
    destruct (sorted_startups scored) as [|s l] eqn:E.
    + exfalso. apply Hne. apply Permutation_nil.
      rewrite <- E. apply sorted_startups_perm.
    + destruct (min_fold_ties (total_score s) s l Hc' Hs)
        as (x & Hx & Ht); try apply py_lt_irrefl.
      eexists; exists x. split; [reflexivity|]. split; assumption.
Qed.

End Reports.

Lemma sorted_startups_is_stable_descending_witness :
  let scored := [ Spec.record_of "Alpha" "success" (Num 10);
                  Spec.record_of "Beta" "cached" (Num 40);
                  Spec.record_of "Gamma" "failed" (Num 10) ] in
  map VivaTechAnalyzerV2.name (VivaTechAnalyzerV2.sorted_startups scored)
  = ["Beta"; "Alpha"; "Gamma"]
  /\ Spec.descending (VivaTechAnalyzerV2.sorted_startups scored)
  /\ map VivaTechAnalyzerV2.name
         (List.filter (Spec.ties (Num 10))
                      (VivaTechAnalyzerV2.sorted_startups scored))
     = ["Alpha"; "Gamma"].
Proof.
  intros scored.
  destruct (sorted_startups_is_stable_descending scored (Num 10))
    as (_ & Hd & Hs & _).
  - repeat constructor.
  - discriminate.
  - split; [vm_compute; reflexivity|]. split; [exact Hd|].
    rewrite Hs. reflexivity.
Defined.

Lemma extremes_of_sorted_startups_witness :
  let scored := [ Spec.record_of "Alpha" "success" (Num 10);
                  Spec.record_of "Beta" "cached" (Num 40);
                  Spec.record_of "Gamma" "failed" (Num 10) ] in
  VivaTechAnalyzerV2.max_score (VivaTechAnalyzerV2.sorted_startups scored)
  = VivaTechAnalyzerV2.total_score
      <$> head (VivaTechAnalyzerV2.sorted_startups scored).
Proof.
  intros scored. apply (extremes_of_sorted_startups scored).
  repeat constructor.
Defined.


(* ===================================================================== *)
(** ** From the file to the reports *)
(* ===================================================================== *)

Section Pipeline.
Import AsyncWebScraper VivaTechAnalyzerV2.
Implicit Types (rows : list row) (scored : list startup_data).
Implicit Types (website_results : list scrape_result).

(** *** [load_data] *)

Lemma keep_row_inv raw r :
  keep_row raw = Some r ->
  exists company site,
    raw_name raw = Some company /\ raw_website raw = Some site
    /\ PyStr.strip site <> ""
    /\ r = {| HOST_COMPANY_NAME := company; WEBSITE := UrlStr site;
              DESCRIPTION := raw_description raw;
              other_columns := raw_other raw |}.
Proof.
  unfold keep_row.
  destruct (raw_name raw) as [company|]; [|discriminate].
  destruct (raw_website raw) as [site|]; [|discriminate].
  destruct (String.eqb_spec (PyStr.strip site) ""); [discriminate|].
  intros H. injection H as <-. eauto 10.
Qed.

Lemma load_data_inv csv rows :
  load_data csv = Some rows ->
  exists columns raws,
    csv = Frame columns raws
    /\ Forall (fun col => col ∈ columns) required_cols
    /\ rows = omap keep_row raws.
Proof.
  destruct csv as [|columns raws]; [discriminate|]. unfold load_data.
  destruct (List.filter _ _) as [|col missing] eqn:E; [|discriminate].
  destruct (website_is_text raws); [|discriminate].
  intros H. injection H as <-. exists columns, raws.
  split; [reflexivity|]. split; [|reflexivity].
  apply Forall_forall. intros col Hcol.
  destruct (existsb (String.eqb col) columns) eqn:Hex.
  - apply existsb_exists in Hex as (c & Hc & Heq).
    apply String.eqb_eq in Heq. subst c. apply list_elem_of_In, Hc.
  - exfalso. assert (Hin : In col (List.filter
                 (fun col => negb (existsb (String.eqb col) columns))
                 required_cols)).
    { apply filter_In. split; [apply list_elem_of_In, Hcol|].
      rewrite Hex. reflexivity. }
    rewrite E in Hin. destruct Hin.
Qed.

Lemma omap_length_le {A B} (f : A -> option B) (l : list A) :
  (length (omap f l) <= length l)%nat.
Proof.
  induction l as [|x l IH]; [reflexivity|].
  change (omap f (x :: l))
    with (match f x with Some y => y :: omap f l | None => omap f l end).
  destruct (f x); cbn [length]; lia.
Qed.

(** X19. When [load_data] succeeds the frame had the two required
    columns, and the rows it keeps are exactly those that have a company
    name and a website that is not blank once trimmed; no row is added. *)
Theorem load_data_keeps_rows_with_a_website csv rows :
  load_data csv = Some rows ->
  exists columns raws,
    csv = Frame columns raws
    /\ "HOST COMPANY NAME" ∈ columns /\ "WEBSITE" ∈ columns
    /\ (length rows <= length raws)%nat
    /\ Forall (fun r => exists site,
                   WEBSITE r = UrlStr site /\ PyStr.strip site <> "") rows
    /\ forall company site,
         (exists r, r ∈ rows /\ HOST_COMPANY_NAME r = company
                    /\ WEBSITE r = UrlStr site)
         <-> (exists raw, raw ∈ raws /\ raw_name raw = Some company
                          /\ raw_website raw = Some site
                          /\ PyStr.strip site <> "").
Proof.
  intros H. apply load_data_inv in H as (columns & raws & -> & Hc & ->).
  exists columns, raws. split; [reflexivity|].
  unfold required_cols in Hc.
  apply Forall_cons in Hc as [Hc1 Hc]. apply Forall_cons in Hc as [Hc2 _].
  split; [exact Hc1|]. split; [exact Hc2|]. split; [apply omap_length_le|].
  split.
  - apply Forall_forall. intros r Hr.
    apply list_elem_of_omap in Hr as (raw & _ & Hk).
    apply keep_row_inv in Hk as (company & site & _ & _ & Hs & ->).
    exists site. split; [reflexivity|exact Hs].
  - intros company site. split.
    + intros (r & Hr & Hn & Hw).
      apply list_elem_of_omap in Hr as (raw & Hraw & Hk).
      apply keep_row_inv in Hk as (company' & site' & H1 & H2 & Hs & ->).
      cbn in Hn, Hw. injection Hw as ->. subst company'.
      exists raw. auto.
    + intros (raw & Hraw & Hn & Hw & Hs).
      eexists. split.
      * apply list_elem_of_omap. exists raw. split; [exact Hraw|].
        unfold keep_row. rewrite Hn, Hw.
        destruct (String.eqb_spec (PyStr.strip site) ""); [contradiction|].
        reflexivity.
      * split; reflexivity.
Qed.

Lemma strip_nonempty u : PyStr.strip u <> "" -> u <> "".
Proof. intros H ->. apply H. reflexivity. Qed.

Lemma lookup_phase_nonempty self env u :
  u <> "" ->
  (exists cached_content,
      lookup_phase self env (UrlStr u)
      = inl (with_status cached_content "cached"))
  \/ lookup_phase self env (UrlStr u) = inr (Spec.cleaned u).
Proof.
  intros Hu. destruct (lookup_phase self env (UrlStr u)) as [r|u'] eqn:E.
  - left. unfold lookup_phase in E. destruct u as [|c s]; [contradiction|].
    destruct (_ ≫= _) as [cached|]; [|discriminate].
    injection E as <-. eauto.
  - right. apply lookup_phase_cleaned in E as (u0 & Hu0 & ->).
    injection Hu0 as <-. reflexivity.
Qed.

(** X20. The fetch of the website of a row kept by [load_data] never
    ends in the missing-URL branch: either the cache answers and no GET is
    sent, or one GET is sent to the cleaned website, which the result
    carries as its [url]. *)
Theorem loaded_rows_are_looked_up_or_fetched csv rows r self env :
  load_data csv = Some rows -> r ∈ rows ->
  exists site,
    WEBSITE r = UrlStr site
    /\ let run := scrape_single_website self env (WEBSITE r) in
       (status (outcome run) = "cached" /\ requested run = [])
       \/ (requested run = [Spec.cleaned site]
           /\ url (outcome run) = Some (UrlStr (Spec.cleaned site))).
Proof.
  intros H Hr. apply load_data_inv in H as (columns & raws & -> & _ & ->).
  apply list_elem_of_omap in Hr as (raw & _ & Hk).
  apply keep_row_inv in Hk as (company & site & _ & _ & Hs & ->).
  exists site. split; [reflexivity|]. cbn zeta. cbn [WEBSITE].
  unfold scrape_single_website, run_task.
  destruct (lookup_phase_nonempty self env site (strip_nonempty _ Hs))
    as [[cached ->]| ->].
  - left. split; reflexivity.
  - right. unfold fetch_phase.
    destruct (reply env) as [code soup_title soup_text| |msg];
      [destruct (code =? 200)|..]; split; reflexivity.
Qed.

(** *** The records of a run *)

Lemma batch_statuses self envs urls progress_callback :
  Forall (fun o => status o ∈ Spec.fetch_statuses)
         (fst (batch_results self envs urls progress_callback)).
Proof.
  assert (H : Forall (fun o => status o ∈ Spec.fetch_statuses)
                     (fst (batch_results self envs urls false))).
  { rewrite batch_gather_aligned. apply Forall_forall. intros o Ho.
    apply list_elem_of_lookup in Ho as (i & Hi).
    rewrite list_lookup_imap in Hi.
    destruct (urls !! i) as [u|]; [|discriminate]. injection Hi as <-.
    apply fetch_status_cases. }
  destruct progress_callback; [|exact H].
  rewrite batch_callback_perm. exact H.
Qed.

Lemma total_is_number ca reply content description company_name :
  exists n,
    getitem (ClaudeAnalyzer.analyze_startup_relevance
               ca reply content description company_name) "total_score"
    = Ok (PNum n).
Proof.
  assert (Hfb : exists n,
            getitem (ClaudeAnalyzer._fallback_analysis content description)
                    "total_score" = Ok (PNum n)).
  { unfold ClaudeAnalyzer._fallback_analysis.
    destruct (ClaudeAnalyzer.criteria_loop _) as [scores found].
    eexists. reflexivity. }
  unfold ClaudeAnalyzer.analyze_startup_relevance.
  destruct (negb (ClaudeAnalyzer.enabled ca)); [exact Hfb|].
  destruct (ClaudeAnalyzer.remote_analysis reply) as [analysis|e] eqn:H;
    [|exact Hfb].
  destruct (remote_analysis_inv _ _ H)
    as (a0 & d & scores & total & _ & _ & _ & Ht & ->).
  unfold py_sum in Ht. apply bind_inv in Ht as (ns & _ & Ht).
  injection Ht as <-.
  eexists. cbn [getitem]. rewrite dict_get_set_eq. reflexivity.
Qed.

Lemma fallback_total_value content description :
  exists q,
    getitem (ClaudeAnalyzer._fallback_analysis content description)
            "total_score" = Ok (PNum (Num q))
    /\ (0 <= q)%Q /\ (q <= 100)%Q.
Proof.
  destruct (fallback_total content description)
    as (n1 & n2 & n3 & n4 & H1 & H2 & H3 & H4 & Ht).
  pose proof (fallback_axes_in_range content description) as Hr.
  unfold ClaudeAnalyzer.criteria in Hr.
  assert (Hall : Forall Spec.in_range [n1; n2; n3; n4]).
  { repeat match goal with
           | H : Forall _ (_ :: _) |- _ =>
               apply Forall_cons in H as [(? & ? & ?) H]
           end.
    cbn zeta in *.
    repeat constructor; congruence. }
  destruct (sum_nums_range _ Hall) as (q & Hq & Hlo & Hhi).
  exists q. cbn zeta in Ht. rewrite Hq in Ht. cbn [Spec.cap] in Hhi.
  split; [|split; lra].
  revert Ht. unfold ClaudeAnalyzer._fallback_analysis.
  destruct (ClaudeAnalyzer.criteria_loop _) as [scores found].
  cbn [Spec.total_of getitem dict_get String.eqb Ascii.eqb Bool.eqb
       mbind option_bind as_num].
  intros Ht. injection Ht as ->. reflexivity.
Qed.

Lemma score_row_inv self env website_results idx r s :
  score_row self env website_results idx r = Ok s ->
  name s = HOST_COMPANY_NAME r
  /\ website s = WEBSITE r
  /\ description s = default "" (DESCRIPTION r)
  /\ website_content s
     = PyStr.take 500 (from_option content "" (website_results !! idx))
  /\ scraping_status s
     = from_option status "unknown" (website_results !! idx)
  /\ claude_analysis s
     = ClaudeAnalyzer.analyze_startup_relevance
         (claude_analyzer self) (remote_replies env idx)
         (from_option content "" (website_results !! idx))
         (default "" (DESCRIPTION r)) (HOST_COMPANY_NAME r)
  /\ getitem (claude_analysis s) "total_score" = Ok (total_score s).
Proof.
  unfold score_row. intros H. apply bind_inv in H as (total & Ht & H).
  injection H as <-. cbn. repeat (split; [reflexivity|]). exact Ht.
Qed.

(** The record of position [j] is the one that the body of the loop
    builds from the row of position [j]. *)
Lemma score_rows_lookup self env website_results rows : forall idx scored,
  exists added,
    score_rows self env website_results idx rows scored = Ok (scored ++ added)
    /\ length added = length rows
    /\ forall j s, added !! j = Some s ->
         exists r, rows !! j = Some r
                   /\ score_row self env website_results (idx + j) r = Ok s.
Proof.
  induction rows as [|r rows IH]; intros idx scored.
  - exists []. rewrite app_nil_r. split; [reflexivity|].
    split; [reflexivity|]. intros j s H. rewrite lookup_nil in H.
    discriminate.
  - cbn [score_rows].
    destruct (score_row_ok self env website_results idx r) as (s & Hs & _).
    rewrite Hs. cbn [mbind result_bind].
    destruct (IH (S idx) (scored ++ [s])) as (added & -> & Hlen & Hadded).
    exists (s :: added). rewrite <- app_assoc. split; [reflexivity|].
    split; [simpl; congruence|].
    intros [|j] s' Hj.
    + injection Hj as <-. exists r. rewrite Nat.add_0_r.
      split; [reflexivity|exact Hs].
    + destruct (Hadded j s' Hj) as (r' & Hr' & Hs').
      exists r'. split; [exact Hr'|].
      replace (idx + S j)%nat with (S idx + j)%nat by lia. exact Hs'.
Qed.

Lemma run_records rows scored cm ca env limit max_concurrent
      website_results cm' :
  scrape_websites_batch
    (AsyncWebScraper.Make max_concurrent (Some cm) 10) (fetch_envs env)
    (map WEBSITE (df_to_analyze rows limit)) true
  = Returns (website_results, cm') ->
  exists self',
    analyze_startups_async
      (VivaTechAnalyzerV2.Make (Some rows) scored cm ca)
      env limit max_concurrent
    = Returns self'
    /\ length (scored_startups self') = length (df_to_analyze rows limit)
    /\ forall j s, scored_startups self' !! j = Some s ->
         exists r o,
           df_to_analyze rows limit !! j = Some r
           /\ website_results !! j = Some o
           /\ name s = HOST_COMPANY_NAME r
           /\ website_content s = PyStr.take 500 (content o)
           /\ scraping_status s = status o
           /\ claude_analysis s
              = ClaudeAnalyzer.analyze_startup_relevance
                  ca (remote_replies env j) (content o)
                  (default "" (DESCRIPTION r)) (HOST_COMPANY_NAME r)
           /\ getitem (claude_analysis s) "total_score"
              = Ok (total_score s).
Proof.
  intros Hb. unfold analyze_startups_async.
  cbn [df claude_analyzer cache_manager]. rewrite Hb.
  apply batch_returns_inv in Hb.
  pose proof (batch_length
                (AsyncWebScraper.Make max_concurrent (Some cm) 10)
                (fetch_envs env)
                (map WEBSITE (df_to_analyze rows limit)) true) as Hlen.
  rewrite <- Hb in Hlen. cbn [fst] in Hlen. rewrite length_map in Hlen.
  destruct (score_rows_lookup
              (VivaTechAnalyzerV2.Make (Some rows) scored cm ca) env
              website_results (df_to_analyze rows limit) 0%nat [])
    as (added & Hs & Hl & Hadded).
  cbn [app] in Hs. rewrite Hs. eexists. split; [reflexivity|].
  cbn [scored_startups]. split; [exact Hl|].
  intros j s Hj. destruct (Hadded j s Hj) as (r & Hr & Hrow).
  cbn [Nat.add] in Hrow.
  destruct (lookup_lt_is_Some_2 website_results j) as [o Ho].
  { rewrite Hlen. eapply lookup_lt_Some, Hr. }
  exists r, o. split; [exact Hr|]. split; [exact Ho|].
  apply score_row_inv in Hrow as (Hn & _ & _ & Hc & Hst & Ha & Ht).
  rewrite Ho in Hc, Hst, Ha. cbn [from_option claude_analyzer] in Hc, Hst, Ha.
  auto 10.
Qed.

Lemma run_statuses rows scored cm ca env limit max_concurrent
      website_results cm' self' :
  scrape_websites_batch
    (AsyncWebScraper.Make max_concurrent (Some cm) 10) (fetch_envs env)
    (map WEBSITE (df_to_analyze rows limit)) true
  = Returns (website_results, cm') ->
  analyze_startups_async
    (VivaTechAnalyzerV2.Make (Some rows) scored cm ca)
    env limit max_concurrent
  = Returns self' ->
  Forall (fun s => scraping_status s ∈ Spec.fetch_statuses)
         (scored_startups self')
  /\ map scraping_status (scored_startups self') = map status website_results.
Proof.
  intros Hb H.
  destruct (run_records rows scored cm ca env limit max_concurrent
                        website_results cm' Hb)
    as (self'' & H' & Hlen & Hrec).
  rewrite H in H'. injection H' as <-.
  pose proof (batch_statuses
                (AsyncWebScraper.Make max_concurrent (Some cm) 10)
                (fetch_envs env)
                (map WEBSITE (df_to_analyze rows limit)) true) as Hall.
  pose proof (batch_length
                (AsyncWebScraper.Make max_concurrent (Some cm) 10)
                (fetch_envs env)
                (map WEBSITE (df_to_analyze rows limit)) true) as Hbl.
  apply batch_returns_inv in Hb. rewrite <- Hb in Hall, Hbl.
  cbn [fst] in Hall, Hbl. rewrite length_map in Hbl. split.
  - apply Forall_forall. intros s Hs.
    apply list_elem_of_lookup in Hs as (j & Hj).
    destruct (Hrec j s Hj) as (r & o & _ & Ho & _ & _ & -> & _).
    rewrite Forall_forall in Hall. apply Hall.
    eapply list_elem_of_lookup_2, Ho.
  - apply list_eq. intros j. rewrite !list_lookup_fmap.
    destruct (scored_startups self' !! j) as [s|] eqn:Hj.
    + destruct (Hrec j s Hj) as (r & o & _ & Ho & _ & _ & Hst & _).
      rewrite Ho. cbn. rewrite Hst. reflexivity.
    + apply lookup_ge_None in Hj. rewrite Hlen in Hj.
      rewrite (proj2 (lookup_ge_None _ _)); [reflexivity|].
      rewrite Hbl. exact Hj.
Qed.

(** With a positive cap the batch of a run returns. *)
Lemma run_batch_returns rows cm env limit max_concurrent :
  0 < max_concurrent ->
  exists website_results cm',
    scrape_websites_batch
      (AsyncWebScraper.Make max_concurrent (Some cm) 10) (fetch_envs env)
      (map WEBSITE (df_to_analyze rows limit)) true
    = Returns (website_results, cm').
Proof.
  intros Hcap. rewrite batch_returns by exact Hcap.
  destruct (batch_results _ _ _ _) as [website_results cm']. eauto.
Qed.

(** X21. With a positive cap on the simultaneous requests a run
    returns, and the [scraping_status] of the record of position [i] is
    the status of the outcome of position [i] of the batch: always one of
    [success], [cached], [failed] and [timeout], never the default
    [unknown] nor [exception]. *)
Theorem run_records_carry_fetch_statuses
        rows scored cm ca env limit max_concurrent :
  0 < max_concurrent ->
  exists website_results cm' self',
    scrape_websites_batch
      (AsyncWebScraper.Make max_concurrent (Some cm) 10) (fetch_envs env)
      (map WEBSITE (df_to_analyze rows limit)) true
    = Returns (website_results, cm')
    /\ analyze_startups_async
         (VivaTechAnalyzerV2.Make (Some rows) scored cm ca)
         env limit max_concurrent
       = Returns self'
    /\ Forall (fun s => scraping_status s ∈ Spec.fetch_statuses)
              (scored_startups self')
    /\ map scraping_status (scored_startups self')
       = map status website_results.
Proof.
  intros Hcap.
  destruct (run_batch_returns rows cm env limit max_concurrent Hcap)
    as (website_results & cm' & Hb).
  destruct (run_records rows scored cm ca env limit max_concurrent
                        website_results cm' Hb)
    as (self' & H & _).
  exists website_results, cm', self'. split; [exact Hb|].
  split; [exact H|]. eapply run_statuses; eassumption.
Qed.

(** X22. With a positive cap on the simultaneous requests a run
    returns, and in every record the [total_score] is a number, the one
    that the [claude_analysis] of the record holds under [total_score],
    on the remote path and on the keyword path alike. *)
Theorem run_totals_are_numbers rows scored cm ca env limit max_concurrent :
  0 < max_concurrent ->
  exists self',
    analyze_startups_async
      (VivaTechAnalyzerV2.Make (Some rows) scored cm ca)
      env limit max_concurrent
    = Returns self'
    /\ Forall (fun s => exists n,
                   total_score s = PNum n
                   /\ getitem (claude_analysis s) "total_score"
                      = Ok (PNum n))
              (scored_startups self').
Proof.
  intros Hcap.
  destruct (run_batch_returns rows cm env limit max_concurrent Hcap)
    as (website_results & cm' & Hb).
  destruct (run_records rows scored cm ca env limit max_concurrent
                        website_results cm' Hb)
    as (self' & H & _ & Hrec).
  exists self'. split; [exact H|].
  apply Forall_forall. intros s Hs.
  apply list_elem_of_lookup in Hs as (j & Hj).
  destruct (Hrec j s Hj) as (r & o & _ & _ & _ & _ & _ & Ha & Ht).
  destruct (total_is_number ca (remote_replies env j) (content o)
              (default "" (DESCRIPTION r)) (HOST_COMPANY_NAME r))
    as (n & Hn).
  rewrite <- Ha, Ht in Hn. injection Hn as Hn.
  exists n. split; [exact Hn|]. rewrite Ht, Hn. reflexivity.
Qed.

Lemma count_status_cons statuses s l :
  count_status statuses (s :: l)
  = ((if existsb (String.eqb (scraping_status s)) statuses then 1 else 0)
     + count_status statuses l)%nat.
Proof.
  unfold count_status. cbn [List.filter].
  destruct (existsb _ _); reflexivity.
Qed.

Lemma count_status_partition l :
  Forall (fun s => scraping_status s ∈ Spec.fetch_statuses) l ->
  (count_status ["success"] l + count_status ["cached"] l
   + count_status ["failed"; "timeout"; "exception"] l = length l)%nat
  /\ count_status ["failed"; "timeout"; "exception"] l
     = count_status ["failed"; "timeout"] l.
Proof.
  induction 1 as [|s l Hs _ [IH1 IH2]]; [split; reflexivity|].
  unfold Spec.fetch_statuses in Hs. rewrite !count_status_cons.
  repeat (apply elem_of_cons in Hs as [Hs|Hs]);
    [| | | |apply elem_of_nil in Hs; destruct Hs];
    rewrite Hs; cbn [existsb String.eqb Ascii.eqb Bool.eqb orb length];
    split; lia.
Qed.

(** X23. With a positive cap on the simultaneous requests a run
    returns, and the counters that the export computes on its records
    are these: [total_analyzed] is the number of rows analysed, the
    successful, cached and failed counts add up to it, and no record is
    counted as failed for the status [exception]. *)
Theorem export_counters_add_up rows scored cm ca env limit max_concurrent :
  0 < max_concurrent ->
  exists self',
    analyze_startups_async
      (VivaTechAnalyzerV2.Make (Some rows) scored cm ca)
      env limit max_concurrent
    = Returns self'
    /\ let stats :=
         scraping_stats_of (sorted_startups (scored_startups self')) in
       total_analyzed stats = length (df_to_analyze rows limit)
       /\ (successful_scrapes stats + cached_results stats
           + failed_scrapes stats = total_analyzed stats)%nat
       /\ failed_scrapes stats
          = count_status ["failed"; "timeout"]
                         (sorted_startups (scored_startups self')).
Proof.
  intros Hcap.
  destruct (run_batch_returns rows cm env limit max_concurrent Hcap)
    as (website_results & cm' & Hb).
  destruct (run_records rows scored cm ca env limit max_concurrent
                        website_results cm' Hb)
    as (self' & H & Hlen & _).
  exists self'. split; [exact H|]. cbn zeta.
  unfold scraping_stats_of.
  cbn [total_analyzed successful_scrapes cached_results failed_scrapes].
  split; [rewrite (sorted_startups_perm (scored_startups self')); exact Hlen|].
  apply count_status_partition.
  rewrite (sorted_startups_perm (scored_startups self')).
  eapply run_statuses; eassumption.
Qed.

(** X24. When the remote scorer is disabled and the cap on the
    simultaneous requests is positive, a run returns and every record
    has a finite total between 0 and 100, so the sort of the reports is
    determined and lists the records by descending total. *)
Theorem keyword_run_is_ranked rows scored cm ca env limit max_concurrent :
  ClaudeAnalyzer.enabled ca = false ->
  0 < max_concurrent ->
  exists self',
    analyze_startups_async
      (VivaTechAnalyzerV2.Make (Some rows) scored cm ca)
      env limit max_concurrent
    = Returns self'
    /\ Forall (fun s => exists q,
                   total_score s = PNum (Num q)
                   /\ (0 <= q)%Q /\ (q <= 100)%Q)
              (scored_startups self')
    /\ Spec.descending (sorted_startups (scored_startups self')).
Proof.
  intros Hca Hcap.
  destruct (run_batch_returns rows cm env limit max_concurrent Hcap)
    as (website_results & cm' & Hb).
  destruct (run_records rows scored cm ca env limit max_concurrent
                        website_results cm' Hb)
    as (self' & H & _ & Hrec).
  exists self'. split; [exact H|].
  assert (Hall : Forall (fun s => exists q,
                   total_score s = PNum (Num q)
                   /\ (0 <= q)%Q /\ (q <= 100)%Q)
              (scored_startups self')).
  { apply Forall_forall. intros s Hs.
    apply list_elem_of_lookup in Hs as (j & Hj).
    destruct (Hrec j s Hj) as (r & o & _ & _ & _ & _ & _ & Ha & Ht).
    unfold ClaudeAnalyzer.analyze_startup_relevance in Ha.
    rewrite Hca in Ha. cbn [negb] in Ha.
    destruct (fallback_total_value (content o) (default "" (DESCRIPTION r)))
      as (q & Hq & Hlo & Hhi).
    rewrite <- Ha, Ht in Hq. injection Hq as Hq.
    exists q. auto. }
  split; [exact Hall|].
  apply sorted_lookup, sorted_startups_sorted.
  eapply Forall_impl; [exact Hall|].
  intros s (q & Hq & _). unfold Spec.comparable. rewrite Hq. exact I.
Qed.

(** X25. A limit of 0 does not analyse zero rows: the run is the one
    without a limit, as is the run with any limit that is at least the
    number of rows of the frame. *)
Theorem limit_zero_analyses_every_row self rows env n max_concurrent :
  df self = Some rows -> n = 0 \/ Z.of_nat (length rows) <= n ->
  analyze_startups_async self env (Some n) max_concurrent
  = analyze_startups_async self env None max_concurrent.
Proof.
  intros Hdf Hn. unfold analyze_startups_async. rewrite Hdf.
  assert (Hrows : df_to_analyze rows (Some n) = df_to_analyze rows None).
  { unfold df_to_analyze. destruct (Z.eqb_spec n 0) as [|Hn0]; [reflexivity|].
    destruct Hn as [Hn|Hn]; [contradiction|].
    destruct (Z.ltb_spec 0 n) as [Hpos|Hneg]; [|lia].
    apply firstn_all2. lia. }
  rewrite Hrows. reflexivity.
Qed.

End Pipeline.

Lemma load_data_keeps_rows_with_a_website_witness :
  exists columns raws,
    VivaTechAnalyzerV2.Frame
      ["HOST COMPANY NAME"; "WEBSITE"]
      [ VivaTechAnalyzerV2.RawRow (Some "Alpha") (Some " alpha.example ")
                                  None [];
        VivaTechAnalyzerV2.RawRow (Some "Beta") (Some "  ") None [];
        VivaTechAnalyzerV2.RawRow (Some "Gamma") None None [] ]
    = VivaTechAnalyzerV2.Frame columns raws
    /\ "WEBSITE" ∈ columns.
Proof.
  destruct (load_data_keeps_rows_with_a_website
              (VivaTechAnalyzerV2.Frame
                 ["HOST COMPANY NAME"; "WEBSITE"]
                 [ VivaTechAnalyzerV2.RawRow
                     (Some "Alpha") (Some " alpha.example ") None [];
                   VivaTechAnalyzerV2.RawRow (Some "Beta") (Some "  ") None [];
                   VivaTechAnalyzerV2.RawRow (Some "Gamma") None None [] ])
              [ VivaTechAnalyzerV2.Row
                  "Alpha" (AsyncWebScraper.UrlStr " alpha.example ") None [] ])
    as (columns & raws & H & _ & Hw & _).
  - vm_compute. reflexivity.
  - exists columns, raws. split; assumption.
Defined.

Lemma loaded_rows_are_looked_up_or_fetched_witness :
  exists site,
    AsyncWebScraper.UrlStr " alpha.example " = AsyncWebScraper.UrlStr site
    /\ let run :=
         AsyncWebScraper.scrape_single_website
           Spec.scraper0 (Spec.page_at 0)
           (AsyncWebScraper.UrlStr " alpha.example ") in
       (AsyncWebScraper.status (AsyncWebScraper.outcome run) = "cached"
        /\ AsyncWebScraper.requested run = [])
       \/ (AsyncWebScraper.requested run = [Spec.cleaned site]
           /\ AsyncWebScraper.url (AsyncWebScraper.outcome run)
              = Some (AsyncWebScraper.UrlStr (Spec.cleaned site))).
Proof.
  apply (loaded_rows_are_looked_up_or_fetched
           (VivaTechAnalyzerV2.Frame
              ["HOST COMPANY NAME"; "WEBSITE"]
              [ VivaTechAnalyzerV2.RawRow
                  (Some "Alpha") (Some " alpha.example ") None [] ])
           [ VivaTechAnalyzerV2.Row
               "Alpha" (AsyncWebScraper.UrlStr " alpha.example ") None [] ]
           (VivaTechAnalyzerV2.Row
              "Alpha" (AsyncWebScraper.UrlStr " alpha.example ") None [])
           Spec.scraper0 (Spec.page_at 0)).
  - vm_compute. reflexivity.
  - apply list_elem_of_here.
Defined.

Lemma run_records_carry_fetch_statuses_witness :
  exists self',
    VivaTechAnalyzerV2.analyze_startups_async
      (VivaTechAnalyzerV2.Make (Some Spec.two_rows) []
                               (CacheManager.init ∅ 7)
                               (ClaudeAnalyzer.init None))
      (VivaTechAnalyzerV2.RunEnv
         Spec.second_first (fun _ => ClaudeAnalyzer.BadContent))
      None 20
    = Returns self'
    /\ map VivaTechAnalyzerV2.scraping_status
           (VivaTechAnalyzerV2.scored_startups self')
       = ["success"; "success"].
Proof.
  destruct (run_records_carry_fetch_statuses
              Spec.two_rows [] (CacheManager.init ∅ 7)
              (ClaudeAnalyzer.init None)
              (VivaTechAnalyzerV2.RunEnv
                 Spec.second_first (fun _ => ClaudeAnalyzer.BadContent))
              None 20)
    as (website_results & cm' & self' & _ & H & _).
  - reflexivity.
  - exists self'. split; [exact H|].
    revert H. vm_compute. intros H. injection H as <-. reflexivity.
Defined.

Lemma run_totals_are_numbers_witness :
  exists self',
    VivaTechAnalyzerV2.analyze_startups_async
      (VivaTechAnalyzerV2.Make (Some Spec.two_rows) []
                               (CacheManager.init ∅ 7)
                               (ClaudeAnalyzer.init None))
      (VivaTechAnalyzerV2.RunEnv
         Spec.second_first (fun _ => ClaudeAnalyzer.BadContent))
      None 20
    = Returns self'
    /\ Forall (fun s => exists n,
                   VivaTechAnalyzerV2.total_score s = PNum n
                   /\ getitem (VivaTechAnalyzerV2.claude_analysis s)
                              "total_score"
                      = Ok (PNum n))
              (VivaTechAnalyzerV2.scored_startups self').
Proof.
  apply (run_totals_are_numbers
              Spec.two_rows [] (CacheManager.init ∅ 7)
              (ClaudeAnalyzer.init None)
              (VivaTechAnalyzerV2.RunEnv
                 Spec.second_first (fun _ => ClaudeAnalyzer.BadContent))
              None 20).
  reflexivity.
Defined.

Lemma export_counters_add_up_witness :
  exists self',
    VivaTechAnalyzerV2.analyze_startups_async
      (VivaTechAnalyzerV2.Make (Some Spec.two_rows) []
                               (CacheManager.init ∅ 7)
                               (ClaudeAnalyzer.init None))
      (VivaTechAnalyzerV2.RunEnv
         Spec.second_first (fun _ => ClaudeAnalyzer.BadContent))
      None 20
    = Returns self'
    /\ let stats :=
         VivaTechAnalyzerV2.scraping_stats_of
           (VivaTechAnalyzerV2.sorted_startups
              (VivaTechAnalyzerV2.scored_startups self')) in
       VivaTechAnalyzerV2.total_analyzed stats = 2%nat
       /\ (VivaTechAnalyzerV2.successful_scrapes stats
           + VivaTechAnalyzerV2.cached_results stats
           + VivaTechAnalyzerV2.failed_scrapes stats
           = VivaTechAnalyzerV2.total_analyzed stats)%nat.
Proof.
  destruct (export_counters_add_up
              Spec.two_rows [] (CacheManager.init ∅ 7)
              (ClaudeAnalyzer.init None)
              (VivaTechAnalyzerV2.RunEnv
                 Spec.second_first (fun _ => ClaudeAnalyzer.BadContent))
              None 20)
    as (self' & H & Ht & Hsum & _).
  - reflexivity.
  - exists self'. split; [exact H|]. split; [exact Ht|exact Hsum].
Defined.

Lemma keyword_run_is_ranked_witness :
  exists self',
    VivaTechAnalyzerV2.analyze_startups_async
      (VivaTechAnalyzerV2.Make (Some Spec.two_rows) []
                               (CacheManager.init ∅ 7)
                               (ClaudeAnalyzer.init None))
      (VivaTechAnalyzerV2.RunEnv
         Spec.second_first (fun _ => ClaudeAnalyzer.BadContent))
      None 20
    = Returns self'
    /\ Spec.descending
         (VivaTechAnalyzerV2.sorted_startups
            (VivaTechAnalyzerV2.scored_startups self')).
Proof.
  destruct (keyword_run_is_ranked
              Spec.two_rows [] (CacheManager.init ∅ 7)
              (ClaudeAnalyzer.init None)
              (VivaTechAnalyzerV2.RunEnv
                 Spec.second_first (fun _ => ClaudeAnalyzer.BadContent))
              None 20)
    as (self' & H & _ & Hd).
  - reflexivity.
  - reflexivity.
  - exists self'. split; assumption.
Defined.

Lemma limit_zero_analyses_every_row_witness :
  VivaTechAnalyzerV2.analyze_startups_async
    (VivaTechAnalyzerV2.Make (Some Spec.two_rows) []
                             (CacheManager.init ∅ 7)
                             (ClaudeAnalyzer.init None))
    (VivaTechAnalyzerV2.RunEnv
       Spec.second_first (fun _ => ClaudeAnalyzer.BadContent))
    (Some 0) 20
  = VivaTechAnalyzerV2.analyze_startups_async
      (VivaTechAnalyzerV2.Make (Some Spec.two_rows) []
                               (CacheManager.init ∅ 7)
                               (ClaudeAnalyzer.init None))
      (VivaTechAnalyzerV2.RunEnv
         Spec.second_first (fun _ => ClaudeAnalyzer.BadContent))
      None 20.
Proof.
  apply (limit_zero_analyses_every_row _ Spec.two_rows).
  - reflexivity.
  - left. reflexivity.
Defined.

(* ===================================================================== *)
(** ** A malformed reply of the remote service *)
(* ===================================================================== *)

Section MalformedReply.
Import ClaudeAnalyzer AsyncWebScraper VivaTechAnalyzerV2.

(** C7, at a reply that is malformed: its [tags] are the number 5, where
    the reply of the specification has an array of strings (with such an
    array the same payload is a valid reply). The [try]
    looks at the [scores] only, so the scorer returns the reply as it is
    instead of the result of the keyword scorer. The run that is given
    this reply returns, with the reply as the analysis of its record, and
    the loop of the export over the tags of the records then raises
    [TypeError]. *)
Theorem malformed_reply_is_not_demoted :
  let analysis :=
    analyze_startup_relevance (ClaudeAnalyzer.Make true)
                              (Parsed Spec.payload_with_bad_tags)
                              "Example Domain" "document OCR scan" "Acme" in
  Spec.valid_reply (Spec.payload_with_tags (PList [PStr "RSE"])) = true
  /\ Spec.valid_reply Spec.payload_with_bad_tags = false
  /\ analysis = Spec.payload_with_bad_tags
  /\ analysis <> _fallback_analysis "Example Domain" "document OCR scan"
  /\ getitem analysis "tags" = Ok (PNum (Num 5%Q))
  /\ exists self',
       analyze_startups_async
         (VivaTechAnalyzerV2.Make (Some Spec.one_row) []
                                  (CacheManager.init ∅ 7)
                                  (ClaudeAnalyzer.Make true))
         (RunEnv (fun _ => Spec.page_at 0)
                 (fun _ => Parsed Spec.payload_with_bad_tags))
         None 20
       = Returns self'
       /\ map claude_analysis (scored_startups self')
          = [Spec.payload_with_bad_tags]
       /\ all_tags (sorted_startups (scored_startups self'))
          = Raise TypeError.
Proof.
  cbn zeta. split; [reflexivity|]. split; [reflexivity|].
  split; [vm_compute; reflexivity|].
  split; [vm_compute; discriminate|]. split; [vm_compute; reflexivity|].
  eexists. split; [vm_compute; reflexivity|].
  split; vm_compute; reflexivity.
Qed.

End MalformedReply.

(* ===================================================================== *)
(** ** A target without URL *)
(* ===================================================================== *)

Section BlankUrl.
Import AsyncWebScraper VivaTechAnalyzerV2.
Implicit Types (scr : AsyncWebScraper.t) (envs : nat -> fetch_env)
         (urls : list url_value) (rows : list row).









End BlankUrl.


